(** * The hotplug coordinator of the container management daemon

    A shallow embedding of [daemon/hotplug.c]: the USB and net mapping
    registries, the uevent handler, the debounce timer callbacks and the
    interface renaming, together with the properties the specification
    states about them.

    The C code keeps its state in file-scope and function-local statics
    and in heap objects reached through pointers.  The embedding threads
    one [hotplug_state] record through a small state/trace/failure monad:
    - heap objects ([hotplug_usbdev_t], [container_pnet_cfg_t]) live in
      finite maps from locations to records, so aliasing is visible;
    - the calls the coordinator makes into other modules are recorded, in
      program order, in a trace of [effect]s;
    - what other modules or the kernel answer is read from a [world]
      snapshot that is handed to every callback invocation;
    - dereferencing a location that is not allocated is undefined
      behaviour in C and is [None] here. *)

From Stdlib Require Import ZArith String Ascii List Lia.
From stdpp Require Import base option list gmap strings pretty.

Local Open Scope Z_scope.

(** ** Data model *)

(** Containers and heap objects are handled through pointers in the C
    code; the embedding uses abstract handles. *)
Definition container_t := nat.
Definition loc := nat.
Definition timer_id := nat.

(** [uint8_t mac[6]]: the six bytes, most significant first. *)
Definition mac_addr := list Z.

(** Modelled from the spec: the compartment states; the enum is declared
    in a header that is not part of the sources at hand. *)
Inductive compartment_state_t :=
| COMPARTMENT_STATE_STOPPED
| COMPARTMENT_STATE_STARTING
| COMPARTMENT_STATE_BOOTING
| COMPARTMENT_STATE_RUNNING
| COMPARTMENT_STATE_FREEZING
| COMPARTMENT_STATE_FROZEN
| COMPARTMENT_STATE_SHUTTING_DOWN
| COMPARTMENT_STATE_ZOMBIE
| COMPARTMENT_STATE_REBOOTING
| COMPARTMENT_STATE_SETUP.

Global Instance compartment_state_eq_dec : EqDecision compartment_state_t.
Proof. solve_decision. Defined.

(** [hotplug_usbdev_type_t] (hotplug.h): the two kinds of USB mapping
    the coordinator distinguishes. *)
Inductive hotplug_usbdev_type_t :=
| HOTPLUG_USBDEV_TYPE_GENERIC
| HOTPLUG_USBDEV_TYPE_TOKEN.

Global Instance hotplug_usbdev_type_eq_dec : EqDecision hotplug_usbdev_type_t.
Proof. solve_decision. Defined.

(** [struct hotplug_usbdev]. *)
Record hotplug_usbdev := mk_usbdev {
  i_serial : string;
  id_vendor : Z;
  id_product : Z;
  major : Z;
  minor : Z;
  assign : bool;
  type : hotplug_usbdev_type_t
}.

Global Instance hotplug_usbdev_eq_dec : EqDecision hotplug_usbdev.
Proof. solve_decision. Defined.

(** [hotplug_container_dev_mapping_t]: the container, a pointer to the
    mapping's own usbdev copy, and the [assign] flag of the mapping. *)
Record hotplug_container_dev_mapping := mk_dev_mapping {
  dm_container : container_t;
  dm_usbdev : loc;
  dm_assign : bool
}.

Global Instance dev_mapping_eq_dec : EqDecision hotplug_container_dev_mapping.
Proof. solve_decision. Defined.

(** Modelled from the spec: [container_pnet_cfg_t] (name, MAC-filter
    bridge flag, MAC whitelist); its declaration is not part of the
    sources at hand. *)
Record container_pnet_cfg := mk_pnet_cfg {
  pnet_name : string;
  mac_filter : bool;
  mac_whitelist : list mac_addr
}.

(** [hotplug_container_netdev_mapping_t]: the configuration is shared
    with the caller (a pointer), the MAC is stored by value. *)
Record hotplug_container_netdev_mapping := mk_netdev_mapping {
  nm_container : container_t;
  nm_pnet_cfg : loc;
  nm_mac : mac_addr
}.

(** Modelled from the spec: the decoded uevent with the fields the
    coordinator reads through the [uevent_event_get_*] accessors. *)
Record uevent_event := mk_uevent {
  ev_subsystem : string;
  ev_devtype : string;
  ev_devpath : string;
  ev_devname : string;
  ev_interface : string;
  ev_major : Z;
  ev_minor : Z;
  ev_usb_vendor : Z;
  ev_usb_product : Z
}.

(** [struct hotplug_token_data]: the closure of the token timer. *)
Record hotplug_token_data := mk_token_data {
  td_container : container_t;
  td_devname : string
}.

(** A timer callback together with its [data] argument. *)
Inductive timer_closure :=
| token_timer_closure (data : hotplug_token_data)
| sysfs_netif_timer_closure (data : uevent_event).

Inductive timer_repeat :=
| EVENT_TIMER_REPEAT_FOREVER
| EVENT_TIMER_REPEAT (n : Z).

(** Modelled from the spec: a timer of the event loop (period in
    milliseconds, repetition, callback with its closure). *)
Record event_timer := mk_timer {
  timer_timeout : Z;
  timer_repeats : timer_repeat;
  timer_cb : timer_closure
}.

Inductive log_prio := LOG_INFO | LOG_WARN | LOG_ERROR.

(** Calls into other modules, as they appear in the trace.  The log
    lines are those of priority INFO, WARN and ERROR that [hotplug.c]
    writes itself, with the format string of the source; what the
    control-flow macros log on their own is not recorded. *)
Inductive effect :=
| Call_container_device_allow (c : container_t) (ty : ascii) (maj min : Z) (assign : bool)
| Call_container_device_deny (c : container_t) (ty : ascii) (maj min : Z)
| Call_container_token_attach (c : container_t)
| Call_container_token_detach (c : container_t)
| Call_cmld_netif_phys_add_by_name (ifname : string)
| Call_cmld_netif_phys_remove_by_name (ifname : string)
| Call_network_rename_ifi (oldname newname : string)
| Call_cmld_container_add_net_iface (c : container_t) (cfg : loc) (persistent : bool)
| Call_uevent_event_inject_into_netns (event : uevent_event) (pid : Z) (userns : bool)
| Call_uevent_add_uev
| Store_netif_phys_name (oldname newname : string)
| Log (prio : log_prio) (fmt : string).

(** The answers of the kernel and of the other modules during one
    callback invocation. *)
Record world := mk_world {
  file_exists : string → bool;
  file_read_new : string → Z → option string;
  network_get_mac_by_ifname : string → option mac_addr;
  network_interface_is_wifi : string → bool;
  network_rename_ifi : string → string → Z;
  cmld_containers_get_c0 : option container_t;
  cmld_netif_phys_remove_by_name : string → bool;
  cmld_container_add_net_iface : container_t → loc → bool → Z;
  container_get_state : container_t → compartment_state_t;
  container_get_pid : container_t → Z;
  container_has_userns : container_t → bool;
  uevent_event_inject_into_netns : uevent_event → Z → bool → Z;
  cmld_is_hostedmode_active : bool;
  cmld_get_netif_phys_list : list string;
  uevent_add_uev : Z
}.

(** The state of the coordinator: the two heaps, the two registries
    ([hotplug_container_dev_mapping_list],
    [hotplug_container_netdev_mapping_list]), the function-local statics
    of [hotplug_rename_ifi_new] and [hotplug_token_timer_cb], and the
    timers registered with the event loop. *)
Record hotplug_state := mk_state {
  usbdevs : gmap loc hotplug_usbdev;
  pnet_cfgs : gmap loc container_pnet_cfg;
  hotplug_container_dev_mapping_list : list hotplug_container_dev_mapping;
  hotplug_container_netdev_mapping_list : list hotplug_container_netdev_mapping;
  cmld_wlan_idx : Z;
  cmld_eth_idx : Z;
  retries : Z;
  timers : gmap timer_id event_timer
}.

(** The state of a freshly started daemon: empty registries, the statics
    at their initialisers. *)
Definition hotplug_state_init : hotplug_state :=
  {| usbdevs := ∅; pnet_cfgs := ∅;
     hotplug_container_dev_mapping_list := [];
     hotplug_container_netdev_mapping_list := [];
     cmld_wlan_idx := 0; cmld_eth_idx := 0; retries := 10; timers := ∅ |}.

(** ** The monad *)

Definition M (A : Type) : Type :=
  hotplug_state → option (A * hotplug_state * list effect).

Global Instance M_ret : MRet M := λ A a st, Some (a, st, []).
Global Instance M_bind : MBind M := λ A B f m st,
  match m st with
  | None => None
  | Some (a, st1, tr1) =>
      match f a st1 with
      | None => None
      | Some (b, st2, tr2) => Some (b, st2, tr1 ++ tr2)
      end
  end.

Definition get : M hotplug_state := λ st, Some (st, st, []).
Definition modify (f : hotplug_state → hotplug_state) : M unit :=
  λ st, Some (tt, f st, []).
Definition call (e : effect) : M unit := λ st, Some (tt, st, [e]).
Definition log (p : log_prio) (fmt : string) : M unit := call (Log p fmt).

(** [for (list_t *l = ...; l; l = l->next) body(l->data)] *)
Fixpoint foreach {A} (body : A → M unit) (l : list A) : M unit :=
  match l with
  | [] => mret tt
  | x :: l' => body x;; foreach body l'
  end.

(** ** State accessors and heap primitives *)

Definition set_usbdevs (f : gmap loc hotplug_usbdev → gmap loc hotplug_usbdev)
    (st : hotplug_state) : hotplug_state :=
  {| usbdevs := f (usbdevs st); pnet_cfgs := pnet_cfgs st;
     hotplug_container_dev_mapping_list := hotplug_container_dev_mapping_list st;
     hotplug_container_netdev_mapping_list := hotplug_container_netdev_mapping_list st;
     cmld_wlan_idx := cmld_wlan_idx st; cmld_eth_idx := cmld_eth_idx st;
     retries := retries st; timers := timers st |}.

Definition set_pnet_cfgs (f : gmap loc container_pnet_cfg → gmap loc container_pnet_cfg)
    (st : hotplug_state) : hotplug_state :=
  {| usbdevs := usbdevs st; pnet_cfgs := f (pnet_cfgs st);
     hotplug_container_dev_mapping_list := hotplug_container_dev_mapping_list st;
     hotplug_container_netdev_mapping_list := hotplug_container_netdev_mapping_list st;
     cmld_wlan_idx := cmld_wlan_idx st; cmld_eth_idx := cmld_eth_idx st;
     retries := retries st; timers := timers st |}.

Definition set_dev_mapping_list
    (f : list hotplug_container_dev_mapping → list hotplug_container_dev_mapping)
    (st : hotplug_state) : hotplug_state :=
  {| usbdevs := usbdevs st; pnet_cfgs := pnet_cfgs st;
     hotplug_container_dev_mapping_list := f (hotplug_container_dev_mapping_list st);
     hotplug_container_netdev_mapping_list := hotplug_container_netdev_mapping_list st;
     cmld_wlan_idx := cmld_wlan_idx st; cmld_eth_idx := cmld_eth_idx st;
     retries := retries st; timers := timers st |}.

Definition set_netdev_mapping_list
    (f : list hotplug_container_netdev_mapping → list hotplug_container_netdev_mapping)
    (st : hotplug_state) : hotplug_state :=
  {| usbdevs := usbdevs st; pnet_cfgs := pnet_cfgs st;
     hotplug_container_dev_mapping_list := hotplug_container_dev_mapping_list st;
     hotplug_container_netdev_mapping_list := f (hotplug_container_netdev_mapping_list st);
     cmld_wlan_idx := cmld_wlan_idx st; cmld_eth_idx := cmld_eth_idx st;
     retries := retries st; timers := timers st |}.

Definition set_cmld_wlan_idx (v : Z) (st : hotplug_state) : hotplug_state :=
  {| usbdevs := usbdevs st; pnet_cfgs := pnet_cfgs st;
     hotplug_container_dev_mapping_list := hotplug_container_dev_mapping_list st;
     hotplug_container_netdev_mapping_list := hotplug_container_netdev_mapping_list st;
     cmld_wlan_idx := v; cmld_eth_idx := cmld_eth_idx st;
     retries := retries st; timers := timers st |}.

Definition set_cmld_eth_idx (v : Z) (st : hotplug_state) : hotplug_state :=
  {| usbdevs := usbdevs st; pnet_cfgs := pnet_cfgs st;
     hotplug_container_dev_mapping_list := hotplug_container_dev_mapping_list st;
     hotplug_container_netdev_mapping_list := hotplug_container_netdev_mapping_list st;
     cmld_wlan_idx := cmld_wlan_idx st; cmld_eth_idx := v;
     retries := retries st; timers := timers st |}.

Definition set_retries (v : Z) (st : hotplug_state) : hotplug_state :=
  {| usbdevs := usbdevs st; pnet_cfgs := pnet_cfgs st;
     hotplug_container_dev_mapping_list := hotplug_container_dev_mapping_list st;
     hotplug_container_netdev_mapping_list := hotplug_container_netdev_mapping_list st;
     cmld_wlan_idx := cmld_wlan_idx st; cmld_eth_idx := cmld_eth_idx st;
     retries := v; timers := timers st |}.

Definition set_timers (f : gmap timer_id event_timer → gmap timer_id event_timer)
    (st : hotplug_state) : hotplug_state :=
  {| usbdevs := usbdevs st; pnet_cfgs := pnet_cfgs st;
     hotplug_container_dev_mapping_list := hotplug_container_dev_mapping_list st;
     hotplug_container_netdev_mapping_list := hotplug_container_netdev_mapping_list st;
     cmld_wlan_idx := cmld_wlan_idx st; cmld_eth_idx := cmld_eth_idx st;
     retries := retries st; timers := f (timers st) |}.

(** [mem_new0(hotplug_usbdev_t, 1)] followed by the field stores. *)
Definition usbdev_alloc (u : hotplug_usbdev) : M loc := λ st,
  let l := fresh (dom (usbdevs st)) in
  Some (l, set_usbdevs (insert l u) st, []).

(** Reading through a [hotplug_usbdev_t *]. *)
Definition usbdev_load (l : loc) : M hotplug_usbdev := λ st,
  match usbdevs st !! l with
  | Some u => Some (u, st, [])
  | None => None
  end.

(** Writing through a [hotplug_usbdev_t *]. *)
Definition usbdev_store (l : loc) (u : hotplug_usbdev) : M unit := λ st,
  match usbdevs st !! l with
  | Some _ => Some (tt, set_usbdevs (insert l u) st, [])
  | None => None
  end.

Definition usbdev_free (l : loc) : M unit := λ st,
  match usbdevs st !! l with
  | Some _ => Some (tt, set_usbdevs (delete l) st, [])
  | None => None
  end.

Definition pnet_cfg_load (l : loc) : M container_pnet_cfg := λ st,
  match pnet_cfgs st !! l with
  | Some cfg => Some (cfg, st, [])
  | None => None
  end.

Definition pnet_cfg_free (l : loc) : M unit := λ st,
  match pnet_cfgs st !! l with
  | Some _ => Some (tt, set_pnet_cfgs (delete l) st, [])
  | None => None
  end.

(** Modelled from the spec: [container_pnet_cfg_new(name, mac_filter,
    mac_whitelist)] allocates a configuration record; the function is
    not part of the sources at hand. *)
Definition container_pnet_cfg_new (name : string) (filter : bool)
    (whitelist : list mac_addr) : M loc := λ st,
  let l := fresh (dom (pnet_cfgs st)) in
  Some (l, set_pnet_cfgs (insert l (mk_pnet_cfg name filter whitelist)) st, []).

(** Modelled from the spec: [container_pnet_cfg_set_pnet_name] replaces
    the name of a configuration in place; the function is not part of
    the sources at hand. *)
Definition container_pnet_cfg_set_pnet_name (l : loc) (name : string) : M unit := λ st,
  match pnet_cfgs st !! l with
  | Some cfg =>
      Some (tt, set_pnet_cfgs (insert l (mk_pnet_cfg name (mac_filter cfg) (mac_whitelist cfg))) st, [])
  | None => None
  end.

(** Modelled from the spec: [event_add_timer(event_timer_new(...))]
    registers a timer with the event loop and yields its handle. *)
Definition event_add_timer (t : event_timer) : M timer_id := λ st,
  let id := fresh (dom (timers st)) in
  Some (id, set_timers (insert id t) st, []).

(** Modelled from the spec: [event_remove_timer(timer);
    event_timer_free(timer)], together with the release of the closure
    that the callbacks perform in the same place. *)
Definition event_remove_timer (id : timer_id) : M unit :=
  modify (set_timers (delete id)).

(** ** Machine integers *)

(** [unsigned int] arithmetic wraps modulo 2^32. *)
Definition uint_wrap (z : Z) : Z := z mod 2 ^ 32.

(** [int] arithmetic and the reinterpretation of an [unsigned int] by
    the [%d] conversion: two's complement on 32 bits. *)
Definition int_wrap (z : Z) : Z := (z + 2 ^ 31) mod 2 ^ 32 - 2 ^ 31.

(** ** USB device records *)

Definition hotplug_usbdev_new (ty : hotplug_usbdev_type_t) (vendor product : Z)
    (serial : string) (assign_flag : bool) : M loc :=
  usbdev_alloc {| i_serial := serial; id_vendor := vendor; id_product := product;
                  major := -1; minor := -1; assign := assign_flag; type := ty |}.

Definition with_major (u : hotplug_usbdev) (v : Z) : hotplug_usbdev :=
  {| i_serial := i_serial u; id_vendor := id_vendor u; id_product := id_product u;
     major := v; minor := minor u; assign := assign u; type := type u |}.

Definition with_minor (u : hotplug_usbdev) (v : Z) : hotplug_usbdev :=
  {| i_serial := i_serial u; id_vendor := id_vendor u; id_product := id_product u;
     major := major u; minor := v; assign := assign u; type := type u |}.

Definition hotplug_usbdev_get_id_vendor (usbdev : loc) : M Z :=
  u ← usbdev_load usbdev; mret (id_vendor u).

Definition hotplug_usbdev_get_id_product (usbdev : loc) : M Z :=
  u ← usbdev_load usbdev; mret (id_product u).

Definition hotplug_usbdev_get_type (usbdev : loc) : M hotplug_usbdev_type_t :=
  u ← usbdev_load usbdev; mret (type u).

Definition hotplug_usbdev_get_i_serial (usbdev : loc) : M string :=
  u ← usbdev_load usbdev; mret (i_serial u).

Definition hotplug_usbdev_is_assigned (usbdev : loc) : M bool :=
  u ← usbdev_load usbdev; mret (assign u).

Definition hotplug_usbdev_set_major (usbdev : loc) (v : Z) : M unit :=
  u ← usbdev_load usbdev; usbdev_store usbdev (with_major u v).

Definition hotplug_usbdev_set_minor (usbdev : loc) (v : Z) : M unit :=
  u ← usbdev_load usbdev; usbdev_store usbdev (with_minor u v).

Definition hotplug_usbedv_get_major (usbdev : loc) : M Z :=
  u ← usbdev_load usbdev; mret (major u).

Definition hotplug_usbdev_get_minor (usbdev : loc) : M Z :=
  u ← usbdev_load usbdev; mret (minor u).

(** The mapping owns a copy of the caller's record, made field by field;
    [mapping->assign] keeps the zero that [mem_new0] put there. *)
Definition hotplug_container_dev_mapping_new (container : container_t) (usbdev : loc)
    : M hotplug_container_dev_mapping :=
  u ← usbdev_load usbdev;
  copy ← usbdev_alloc {| i_serial := i_serial u; id_vendor := id_vendor u;
                          id_product := id_product u; major := major u;
                          minor := minor u; assign := assign u; type := type u |};
  mret {| dm_container := container; dm_usbdev := copy; dm_assign := false |}.

Definition hotplug_container_dev_mapping_free (mapping : hotplug_container_dev_mapping)
    : M unit :=
  usbdev_free (dm_usbdev mapping).

(** ** String helpers of the C library, as the coordinator uses them *)

Definition newline : ascii := ascii_of_nat 10.

(** [if ('\n' == serial[strlen(serial) - 1]) serial[strlen(serial) - 1] = 0;]
    for a non-empty [serial]: one trailing newline is cut off. *)
Fixpoint strip_trailing_newline (s : string) : string :=
  match s with
  | EmptyString => EmptyString
  | String c EmptyString => if Ascii.eqb c newline then EmptyString else s
  | String c s' => String c (strip_trailing_newline s')
  end.

(** [strstr(haystack, needle) != NULL] *)
Definition strstr_found (haystack needle : string) : bool :=
  match String.index 0 needle haystack with
  | Some _ => true
  | None => false
  end.

(** The first occurrence of [oldstr] in [str] is replaced by [newstr];
    [None] when [oldstr] does not occur. *)
Definition hotplug_replace_devpath_new (str oldstr newstr : string) : option string :=
  match String.index 0 oldstr str with
  | None => None
  | Some off_old =>
      Some (String.substring 0 off_old str
            +:+ newstr
            +:+ String.substring (off_old + String.length oldstr)
                  (String.length str - (off_old + String.length oldstr)) str)
  end.

(** ** The coordinator *)

Section hotplug.

(** Constants and helpers of the uevent and network modules, whose
    sources are not at hand: the action bits of a uevent, the parser of
    textual MAC addresses ([None] where the C function returns -1), and
    the function that yields a copy of a uevent with one member
    replaced ([None] where the C function returns NULL). *)
Variable UEVENT_ACTION_ADD : Z.
Variable UEVENT_ACTION_REMOVE : Z.
Variable network_str_to_mac_addr : string → option mac_addr.
Variable uevent_replace_member : uevent_event → string → string → option uevent_event.

(** [hotplug_container_netdev_mapping_new]: only MAC strings are
    accepted as the name of the configuration; [None] is the NULL
    result. *)
Definition hotplug_container_netdev_mapping_new (container : container_t) (pnet_cfg : loc)
    : M (option hotplug_container_netdev_mapping) :=
  cfg ← pnet_cfg_load pnet_cfg;
  match network_str_to_mac_addr (pnet_name cfg) with
  | None => mret None
  | Some mac =>
      mret (Some {| nm_container := container; nm_pnet_cfg := pnet_cfg; nm_mac := mac |})
  end.

(** [hotplug_rename_ifi_new]: the name is built from the current index
    of the family, the index is advanced, then the kernel is asked to
    rename; [None] is the NULL result. *)
Definition hotplug_rename_ifi_new (w : world) (oldname infix : string) : M (option string) :=
  st ← get;
  let is_wlan := String.eqb infix "wlan" in
  let ifi_idx := if is_wlan then cmld_wlan_idx st else cmld_eth_idx st in
  let newname := "cml" +:+ infix +:+ pretty (int_wrap ifi_idx) in
  modify (if is_wlan then set_cmld_wlan_idx (uint_wrap (ifi_idx + 1))
          else set_cmld_eth_idx (uint_wrap (ifi_idx + 1)));;
  log LOG_INFO "Renaming %s to %s";;
  call (Call_network_rename_ifi oldname newname);;
  if bool_decide (network_rename_ifi w oldname newname ≠ 0) then
    log LOG_ERROR "Failed to rename interface %s";;
    mret None
  else
    mret (Some newname).

(** [hotplug_rename_interface]: rename the interface and yield a copy of
    the uevent that carries the new interface name and devpath. *)
Definition hotplug_rename_interface (w : world) (event : uevent_event)
    : M (option uevent_event) :=
  let event_ifname := ev_interface event in
  let event_devpath := ev_devpath event in
  let prefix := if String.eqb (ev_devtype event) "" then "eth" else ev_devtype event in
  new_ifname ← hotplug_rename_ifi_new w event_ifname prefix;
  match new_ifname with
  | None => mret None
  | Some new_ifname =>
      call (Call_cmld_netif_phys_remove_by_name event_ifname);;
      (if cmld_netif_phys_remove_by_name w event_ifname
       then call (Call_cmld_netif_phys_add_by_name new_ifname)
       else mret tt);;
      match hotplug_replace_devpath_new event_devpath event_ifname new_ifname with
      | None => mret None
      | Some new_devpath =>
          match uevent_replace_member event event_ifname new_ifname with
          | None =>
              log LOG_ERROR "Failed to rename interface name %s in uevent";;
              mret None
          | Some uev_chname =>
              let event_devpath := ev_devpath uev_chname in
              match uevent_replace_member uev_chname event_devpath new_devpath with
              | None =>
                  log LOG_ERROR "Failed to rename devpath %s in uevent";;
                  mret None
              | Some uev_chdevpath => mret (Some uev_chdevpath)
              end
          end
      end
  end.

(** The state test of [hotplug_netdev_move]: moves go to containers
    that are booting, running or starting. *)
Definition state_permits_move (s : compartment_state_t) : bool :=
  negb (bool_decide (s ≠ COMPARTMENT_STATE_BOOTING)
        && bool_decide (s ≠ COMPARTMENT_STATE_RUNNING)
        && bool_decide (s ≠ COMPARTMENT_STATE_STARTING)).

(** The lookup loop of [hotplug_netdev_move]: the first mapping whose
    MAC equals the MAC of the interface. *)
Definition netdev_mapping_lookup (iface_mac : mac_addr)
    (l : list hotplug_container_netdev_mapping) : option hotplug_container_netdev_mapping :=
  List.find (λ mapping, bool_decide (iface_mac = nm_mac mapping)) l.

(** The [error:] exit of [hotplug_netdev_move]. *)
Definition netdev_move_error (pnet_cfg_c0 : option loc) : M Z :=
  match pnet_cfg_c0 with
  | Some l => pnet_cfg_free l
  | None => mret tt
  end;;
  mret (-1).

(** [hotplug_netdev_move], from the test of the target container on:
    [container] and [pnet_cfg] are the target and its configuration,
    [pnet_cfg_c0] is the ephemeral configuration when there is one. *)
Definition netdev_move_to (w : world) (event : uevent_event)
    (container : option container_t) (pnet_cfg : loc) (pnet_cfg_c0 : option loc) : M Z :=
  match container with
  | None =>
      log LOG_WARN "Target container not found, skip moving %s";;
      netdev_move_error pnet_cfg_c0
  | Some container =>
      if negb (state_permits_move (container_get_state w container)) then
        log LOG_WARN "Target container '%s' is not running, skip moving %s";;
        netdev_move_error pnet_cfg_c0
      else
        (* rename network interface to avoid name clashes *)
        newevent ← hotplug_rename_interface w event;
        event ← match newevent with
                 | Some newevent =>
                     container_pnet_cfg_set_pnet_name pnet_cfg (ev_interface newevent);;
                     mret newevent
                 | None =>
                     log LOG_WARN "failed to rename interface %s. injecting uevent as it is";;
                     mret event
                 end;
        call (Call_cmld_container_add_net_iface container pnet_cfg false);;
        if bool_decide (cmld_container_add_net_iface w container pnet_cfg false ≠ 0) then
          log LOG_ERROR "cannot move '%s' to %s!";;
          netdev_move_error pnet_cfg_c0
        else
          log LOG_INFO "moved phys network interface '%s' (mac: %s) to %s";;
          cfg ← pnet_cfg_load pnet_cfg;
          if mac_filter cfg then
            (* a bridge interface: no uevent about the physical if *)
            mret 0
          else
            call (Call_uevent_event_inject_into_netns event
                    (container_get_pid w container) (container_has_userns w container));;
            (if uevent_event_inject_into_netns w event (container_get_pid w container)
                  (container_has_userns w container) <? 0
             then log LOG_WARN "could not inject uevent into netns of container %s!"
             else mret tt);;
            mret 0
  end.

(** [hotplug_netdev_move]: find the target by the MAC of the interface,
    fall back to c0 with an ephemeral configuration, then move. *)
Definition hotplug_netdev_move (w : world) (event : uevent_event) : M Z :=
  let event_ifname := ev_interface event in
  match network_get_mac_by_ifname w event_ifname with
  | None =>
      log LOG_ERROR "Iface '%s' with no mac, skipping!";;
      netdev_move_error None
  | Some iface_mac =>
      st ← get;
      match netdev_mapping_lookup iface_mac (hotplug_container_netdev_mapping_list st) with
      | Some mapping =>
          netdev_move_to w event (Some (nm_container mapping)) (nm_pnet_cfg mapping) None
      | None =>
          (* no mapping found move to c0 *)
          pnet_cfg_c0 ← container_pnet_cfg_new event_ifname false [];
          netdev_move_to w event (cmld_containers_get_c0 w) pnet_cfg_c0 (Some pnet_cfg_c0)
      end
  end.

Definition hotplug_sysfs_netif_timer_cb (w : world) (timer : timer_id) (event : uevent_event)
    : M unit :=
  (* if sysfs is not ready in case of wifi just return and retry *)
  if String.eqb (ev_devtype event) "wlan"
     && negb (network_interface_is_wifi w (ev_interface event))
  then mret tt
  else
    r ← hotplug_netdev_move w event;
    (if r =? -1 then log LOG_WARN "Did not move net interface!"
     else log LOG_INFO "Moved net interface to target.");;
    event_remove_timer timer.

(** [hotplug_token_timer_cb]: [retries] is a static of the function,
    tested and then decremented on every invocation of the callback. *)
Definition hotplug_token_timer_cb (w : world) (timer : timer_id)
    (token_data : hotplug_token_data) : M unit :=
  st ← get;
  let r := retries st in
  modify (set_retries (int_wrap (r - 1)));;
  if 0 >? r then
    event_remove_timer timer
  else if negb (file_exists w (td_devname token_data)) then
    (* wait for device node to become available *)
    mret tt
  else
    call (Call_container_token_attach (td_container token_data));;
    log LOG_INFO "Processed token attachment of token %s for container %s";;
    event_remove_timer timer.

(** The serial of an added USB device as [hotplug_handle_usb_device]
    reads it: the content of [/sys/<devpath>/serial] when that file
    exists and is not empty, without its trailing newline. *)
Definition usb_read_serial (w : world) (event : uevent_event) : option string :=
  let serial_path := "/sys/" +:+ ev_devpath event +:+ "/serial" in
  let serial := if file_exists w serial_path then file_read_new w serial_path 255 else None in
  match serial with
  | None => None
  | Some serial =>
      if (String.length serial <? 1)%nat then None
      else Some (strip_trailing_newline serial)
  end.

(** The test of the add loop on a mapping's usbdev record. *)
Definition usb_mapping_matches (event : uevent_event) (serial : string)
    (u : hotplug_usbdev) : bool :=
  (id_vendor u =? ev_usb_vendor event)
  && (id_product u =? ev_usb_product event)
  && String.eqb (i_serial u) serial.

(** The name of the device node the token timer waits for. *)
Definition token_devname (event : uevent_event) : string :=
  (if String.prefix "/dev" (ev_devname event) then "/" else "/dev/") +:+ ev_devname event.

(** Body of the remove loop of [hotplug_handle_usb_device]. *)
Definition usb_remove_mapping (event : uevent_event)
    (mapping : hotplug_container_dev_mapping) : M unit :=
  u ← usbdev_load (dm_usbdev mapping);
  if (ev_major event =? major u) && (ev_minor event =? minor u) then
    (if bool_decide (type u = HOTPLUG_USBDEV_TYPE_TOKEN) then
       log LOG_INFO "HOTPLUG USB TOKEN removed";;
       call (Call_container_token_detach (dm_container mapping))
     else
       call (Call_container_device_deny (dm_container mapping) "c" (major u) (minor u)));;
    log LOG_INFO "Denied access to unbound device node %d:%d mapped in container %s"
  else mret tt.

(** Body of the add loop of [hotplug_handle_usb_device]. *)
Definition usb_add_mapping (event : uevent_event) (serial : string)
    (mapping : hotplug_container_dev_mapping) : M unit :=
  log LOG_INFO "check mapping: %04x:%04x '%s' for %s bound device node %d:%d -> container %s";;
  u ← usbdev_load (dm_usbdev mapping);
  if usb_mapping_matches event serial u then
    usbdev_store (dm_usbdev mapping)
      (with_minor (with_major u (ev_major event)) (ev_minor event));;
    log LOG_INFO "%s bound device node %d:%d -> container %s";;
    (if bool_decide (type u = HOTPLUG_USBDEV_TYPE_TOKEN) then
       log LOG_INFO "HOTPLUG USB TOKEN added";;
       (* give devfs some time to create device node for token *)
       event_add_timer
         {| timer_timeout := 100; timer_repeats := EVENT_TIMER_REPEAT_FOREVER;
            timer_cb := token_timer_closure
              {| td_container := dm_container mapping;
                 td_devname := token_devname event |} |};;
       mret tt
     else mret tt);;
    call (Call_container_device_allow (dm_container mapping) "c"
            (ev_major event) (ev_minor event) (dm_assign mapping))
  else mret tt.

(** [hotplug_handle_usb_device]: the result tells whether the uevent is
    handled completely. *)
Definition hotplug_handle_usb_device (w : world) (actions : Z) (event : uevent_event)
    : M bool :=
  if negb (String.prefix "usb" (ev_subsystem event))
     || negb (String.prefix "usb_device" (ev_devtype event))
  then mret false
  else
    (if bool_decide (Z.land actions UEVENT_ACTION_REMOVE ≠ 0) then
       st ← get;
       foreach (usb_remove_mapping event) (hotplug_container_dev_mapping_list st)
     else mret tt);;
    if bool_decide (Z.land actions UEVENT_ACTION_ADD ≠ 0) then
      match usb_read_serial w event with
      | None => mret false
      | Some serial =>
          st ← get;
          foreach (usb_add_mapping event serial) (hotplug_container_dev_mapping_list st);;
          mret false
      end
    else mret false.

Definition hotplug_handle_uevent_cb (w : world) (actions : Z) (event : uevent_event)
    : M unit :=
  handled ← hotplug_handle_usb_device w actions event;
  if (handled : bool) then mret tt
  else if bool_decide (Z.land actions UEVENT_ACTION_ADD ≠ 0)
          && String.eqb (ev_subsystem event) "net"
          && negb (strstr_found (ev_devpath event) "virtual")
  then
    (* got new physical interface, initially add to cmld tracking list *)
    call (Call_cmld_netif_phys_add_by_name (ev_interface event));;
    (* give sysfs some time to settle if iface is wifi *)
    event_add_timer
      {| timer_timeout := 100; timer_repeats := EVENT_TIMER_REPEAT_FOREVER;
         timer_cb := sysfs_netif_timer_closure event |};;
    mret tt
  else mret tt.

(** The body of the loop of [hotplug_init]: a physical interface that
    is there at start is renamed, and on success its entry in the list
    of physical interfaces is overwritten with the new name. *)
Definition hotplug_init_rename (w : world) (ifname : string) : M unit :=
  let prefix := if network_interface_is_wifi w ifname then "wlan" else "eth" in
  if_name_new ← hotplug_rename_ifi_new w ifname prefix;
  match if_name_new with
  | Some if_name_new => call (Store_netif_phys_name ifname if_name_new)
  | None => mret tt
  end.

(** [hotplug_init]: rename the physical interfaces unless the daemon
    runs in hosted mode, then register the uevent handler; the result
    is that of [uevent_add_uev]. *)
Definition hotplug_init (w : world) : M Z :=
  (if negb (cmld_is_hostedmode_active w) then
     foreach (hotplug_init_rename w) (cmld_get_netif_phys_list w)
   else mret tt);;
  call Call_uevent_add_uev;;
  mret (uevent_add_uev w).

(** Modelled from the spec: the event loop fires a registered timer by
    running its callback on the timer handle and the closure; a handle
    that is not registered does not fire. *)
Definition event_timer_fire (w : world) (timer : timer_id) : M unit :=
  st ← get;
  match timers st !! timer with
  | None => mret tt
  | Some t =>
      match timer_cb t with
      | token_timer_closure data => hotplug_token_timer_cb w timer data
      | sysfs_netif_timer_closure data => hotplug_sysfs_netif_timer_cb w timer data
      end
  end.

Definition hotplug_register_usbdevice (container : container_t) (usbdev : loc) : M Z :=
  mapping ← hotplug_container_dev_mapping_new container usbdev;
  modify (set_dev_mapping_list (λ l, l ++ [mapping]));;
  log LOG_INFO "Registered usbdevice %04x:%04x '%s' [c %d:%d] for container %s";;
  mret 0.

(** The search loop of [hotplug_unregister_usbdevice]: it runs to the
    end of the list, so the last mapping that matches is the one kept;
    the result is that mapping with its position in the list. *)
Fixpoint usb_mapping_to_remove (container : container_t) (usbdev : hotplug_usbdev)
    (l : list hotplug_container_dev_mapping) (pos : nat)
    (found : option (nat * hotplug_container_dev_mapping))
    : M (option (nat * hotplug_container_dev_mapping)) :=
  match l with
  | [] => mret found
  | mapping :: l' =>
      u ← usbdev_load (dm_usbdev mapping);
      usb_mapping_to_remove container usbdev l' (S pos)
        (if bool_decide (dm_container mapping = container)
            && (id_vendor u =? id_vendor usbdev)
            && (id_product u =? id_product usbdev)
            && String.eqb (i_serial u) (i_serial usbdev)
         then Some (pos, mapping) else found)
  end.

Definition hotplug_unregister_usbdevice (container : container_t) (usbdev : loc) : M Z :=
  st ← get;
  caller ← usbdev_load usbdev;
  mapping_to_remove ←
    usb_mapping_to_remove container caller (hotplug_container_dev_mapping_list st) 0%nat None;
  match mapping_to_remove with
  | None => mret (-1)
  | Some (pos, mapping) =>
      modify (set_dev_mapping_list (delete pos));;
      log LOG_INFO "Unregistered usbdevice %04x:%04x '%s' for container %s";;
      hotplug_container_dev_mapping_free mapping;;
      mret 0
  end.

Definition hotplug_register_netdev (container : container_t) (pnet_cfg : loc) : M Z :=
  mapping ← hotplug_container_netdev_mapping_new container pnet_cfg;
  match mapping with
  | None => mret (-1)
  | Some mapping =>
      modify (set_netdev_mapping_list (λ l, l ++ [mapping]));;
      log LOG_INFO "Registered netdev '%s' for container %s";;
      mret 0
  end.

(** The search loop of [hotplug_unregister_netdev]: the position of the
    last mapping of the container with the given MAC. *)
Fixpoint netdev_mapping_to_remove (container : container_t) (mac : mac_addr)
    (l : list hotplug_container_netdev_mapping) (pos : nat) (found : option nat)
    : option nat :=
  match l with
  | [] => found
  | mapping :: l' =>
      netdev_mapping_to_remove container mac l' (S pos)
        (if bool_decide (nm_container mapping = container)
            && bool_decide (nm_mac mapping = mac)
         then Some pos else found)
  end.

Definition hotplug_unregister_netdev (container : container_t) (mac : mac_addr) : M Z :=
  st ← get;
  match netdev_mapping_to_remove container mac
          (hotplug_container_netdev_mapping_list st) 0%nat None with
  | None => mret (-1)
  | Some pos =>
      modify (set_netdev_mapping_list (delete pos));;
      log LOG_INFO "Unregistered netdev '%s' for container %s";;
      mret 0
  end.

End hotplug.

(** ** Notions used by the properties *)

(** The trace and the final state of a run, when it is defined. *)
Definition trace_of {A} (m : M A) (st : hotplug_state) : option (list effect) :=
  match m st with
  | Some (_, _, tr) => Some tr
  | None => None
  end.

Definition state_of {A} (m : M A) (st : hotplug_state) : option hotplug_state :=
  match m st with
  | Some (_, st', _) => Some st'
  | None => None
  end.


(** Every mapping of the USB registry points to an allocated usbdev
    record, no two mappings share their record, and every mapping of the
    net registry points to an allocated configuration. *)
Definition dev_mappings_valid (st : hotplug_state) : Prop :=
  ∀ m, m ∈ hotplug_container_dev_mapping_list st → is_Some (usbdevs st !! dm_usbdev m).

Definition netdev_mappings_valid (st : hotplug_state) : Prop :=
  ∀ m, m ∈ hotplug_container_netdev_mapping_list st → is_Some (pnet_cfgs st !! nm_pnet_cfg m).

Definition wf (st : hotplug_state) : Prop :=
  dev_mappings_valid st
  ∧ NoDup (dm_usbdev <$> hotplug_container_dev_mapping_list st)
  ∧ netdev_mappings_valid st.

(** The usbdev record of a mapping, read through its pointer. *)
Definition mapping_usbdev (st : hotplug_state) (m : hotplug_container_dev_mapping)
    : option hotplug_usbdev :=
  usbdevs st !! dm_usbdev m.

(** [holds_token st c serial]: container [c] holds a mapping of kind
    token with the given serial. *)
Definition holds_token (st : hotplug_state) (c : container_t) (serial : string) : Prop :=
  ∃ m u, m ∈ hotplug_container_dev_mapping_list st
         ∧ mapping_usbdev st m = Some u
         ∧ dm_container m = c
         ∧ type u = HOTPLUG_USBDEV_TYPE_TOKEN
         ∧ i_serial u = serial.

(** At most one container holds a token mapping with a given serial. *)
Definition token_serial_exclusive (st : hotplug_state) : Prop :=
  ∀ c1 c2 serial, holds_token st c1 serial → holds_token st c2 serial → c1 = c2.

(** Does the mapping match the added device?  The test of the add loop,
    on the record the mapping points to. *)
Definition mapping_matches (st : hotplug_state) (event : uevent_event) (serial : string)
    (m : hotplug_container_dev_mapping) : bool :=
  match mapping_usbdev st m with
  | Some u => usb_mapping_matches event serial u
  | None => false
  end.

(** What a matching add event writes into the record of a mapping. *)
Definition enrich (event : uevent_event) (u : hotplug_usbdev) : hotplug_usbdev :=
  with_minor (with_major u (ev_major event)) (ev_minor event).

(** The part of the state the USB handler leaves alone. *)
Definition usb_frame (st st' : hotplug_state) : Prop :=
  hotplug_container_dev_mapping_list st' = hotplug_container_dev_mapping_list st
  ∧ pnet_cfgs st' = pnet_cfgs st
  ∧ hotplug_container_netdev_mapping_list st' = hotplug_container_netdev_mapping_list st
  ∧ cmld_wlan_idx st' = cmld_wlan_idx st
  ∧ cmld_eth_idx st' = cmld_eth_idx st
  ∧ retries st' = retries st.

(** The usbdev heap after some iterations of the add loop: every record
    is as it was or, when it matches, enriched. *)
Definition enriched_from (event : uevent_event) (serial : string)
    (st st' : hotplug_state) : Prop :=
  ∀ l u, usbdevs st !! l = Some u →
         usbdevs st' !! l = Some u
         ∨ (usb_mapping_matches event serial u = true
            ∧ usbdevs st' !! l = Some (enrich event u)).

(** What the operations on the net side and the timers leave alone:
    the USB registry and its records; allocated configurations stay
    allocated, the net registry is the same. *)
Definition net_frame (st st' : hotplug_state) : Prop :=
  usbdevs st' = usbdevs st
  ∧ hotplug_container_dev_mapping_list st' = hotplug_container_dev_mapping_list st
  ∧ hotplug_container_netdev_mapping_list st' = hotplug_container_netdev_mapping_list st
  ∧ ∀ l, is_Some (pnet_cfgs st !! l) → is_Some (pnet_cfgs st' !! l).

(** What [hotplug_netdev_move] leaves alone: everything but the rename
    counters and the heap of configurations, in which every allocated
    configuration but the ephemeral one stays allocated. *)
Definition move_frame (pnet_cfg_c0 : option loc) (st st' : hotplug_state) : Prop :=
  usbdevs st' = usbdevs st
  ∧ hotplug_container_dev_mapping_list st' = hotplug_container_dev_mapping_list st
  ∧ hotplug_container_netdev_mapping_list st' = hotplug_container_netdev_mapping_list st
  ∧ retries st' = retries st
  ∧ timers st' = timers st
  ∧ ∀ l, pnet_cfg_c0 ≠ Some l → is_Some (pnet_cfgs st !! l) → is_Some (pnet_cfgs st' !! l).

(** The mappings are the same and their records keep kind and serial. *)
Definition tokens_preserved (st st' : hotplug_state) : Prop :=
  hotplug_container_dev_mapping_list st' = hotplug_container_dev_mapping_list st
  ∧ ∀ m u', m ∈ hotplug_container_dev_mapping_list st →
            usbdevs st' !! dm_usbdev m = Some u' →
            ∃ u, usbdevs st !! dm_usbdev m = Some u
                 ∧ type u = type u' ∧ i_serial u = i_serial u'.

(** Does the remove loop act on the mapping?  The test of the loop, on
    the record the mapping points to. *)
Definition mapping_removed (st : hotplug_state) (event : uevent_event)
    (m : hotplug_container_dev_mapping) : bool :=
  match mapping_usbdev st m with
  | Some u => (ev_major event =? major u) && (ev_minor event =? minor u)
  | None => false
  end.

Definition mapping_is_token (st : hotplug_state) (m : hotplug_container_dev_mapping) : bool :=
  match mapping_usbdev st m with
  | Some u => bool_decide (type u = HOTPLUG_USBDEV_TYPE_TOKEN)
  | None => false
  end.

(** Selections of a trace. *)
Definition is_device_allow (e : effect) : bool :=
  match e with Call_container_device_allow _ _ _ _ _ => true | _ => false end.

Definition is_device_deny (e : effect) : bool :=
  match e with Call_container_device_deny _ _ _ _ => true | _ => false end.

Definition is_token_detach (e : effect) : bool :=
  match e with Call_container_token_detach _ => true | _ => false end.

Definition is_token_attach (e : effect) : bool :=
  match e with Call_container_token_attach _ => true | _ => false end.

Definition is_rename_ifi (e : effect) : bool :=
  match e with Call_network_rename_ifi _ _ => true | _ => false end.

Definition is_add_net_iface (e : effect) : bool :=
  match e with Call_cmld_container_add_net_iface _ _ _ => true | _ => false end.

Definition is_inject (e : effect) : bool :=
  match e with Call_uevent_event_inject_into_netns _ _ _ => true | _ => false end.

Definition device_allows (tr : list effect) : list effect := List.filter is_device_allow tr.
Definition injections (tr : list effect) : list effect := List.filter is_inject tr.

(** The allow that the add loop issues for a mapping. *)
Definition allow_of_mapping (event : uevent_event) (m : hotplug_container_dev_mapping)
    : effect :=
  Call_container_device_allow (dm_container m) "c" (ev_major event) (ev_minor event)
    (dm_assign m).

(** The container an interface is to be moved to: the container of the
    first mapping with the MAC of the interface, the default container
    otherwise; nothing when the interface has no MAC. *)
Definition netdev_move_target (w : world) (event : uevent_event) (st : hotplug_state)
    : option container_t :=
  match network_get_mac_by_ifname w (ev_interface event) with
  | None => None
  | Some iface_mac =>
      match netdev_mapping_lookup iface_mac (hotplug_container_netdev_mapping_list st) with
      | Some mapping => Some (nm_container mapping)
      | None => cmld_containers_get_c0 w
      end
  end.

(** The two families of interface names: the [wlan] counter serves the
    infix [wlan], the [eth] counter every other infix. *)
Definition is_wlan_family (infix : string) : bool := String.eqb infix "wlan".

(** A name of the form [cmleth<n>] or [cmlwlan<n>]. *)
Definition cml_eth_or_wlan_name (name : string) : Prop :=
  ∃ n : Z, 0 ≤ n ∧ (name = "cmleth" +:+ pretty n ∨ name = "cmlwlan" +:+ pretty n).

(** The index [hotplug_rename_ifi_new] reads for an infix, the name it
    builds from it, and the state once the index has been advanced. *)
Definition rename_idx (infix : string) (st : hotplug_state) : Z :=
  if is_wlan_family infix then cmld_wlan_idx st else cmld_eth_idx st.

Definition rename_newname (infix : string) (st : hotplug_state) : string :=
  "cml" +:+ infix +:+ pretty (int_wrap (rename_idx infix st)).

Definition advance_idx (infix : string) (st : hotplug_state) : hotplug_state :=
  if is_wlan_family infix
  then set_cmld_wlan_idx (uint_wrap (cmld_wlan_idx st + 1)) st
  else set_cmld_eth_idx (uint_wrap (cmld_eth_idx st + 1)) st.

(** The prefix [hotplug_rename_interface] passes on: the devtype of the
    uevent, [eth] when the uevent has none. *)
Definition rename_prefix (event : uevent_event) : string :=
  if String.eqb (ev_devtype event) "" then "eth" else ev_devtype event.

(** A trace without move requests and without uevent injections. *)
Definition quiet (tr : list effect) : Prop :=
  List.filter is_add_net_iface tr = [] ∧ injections tr = [].

(** The uevent [hotplug_netdev_move] goes on with after the rename: the
    renamed copy, or the uevent as it is when the rename failed. *)
Definition renamed_event
    (uevent_replace_member : uevent_event → string → string → option uevent_event)
    (w : world) (event : uevent_event) (st : hotplug_state) : uevent_event :=
  match hotplug_rename_interface uevent_replace_member w event st with
  | Some (Some newevent, _, _) => newevent
  | _ => event
  end.

(** A sequence of calls of [hotplug_rename_ifi_new], each with the
    world it runs in, the old name and the infix; the results in order. *)
Fixpoint rename_all (calls : list (world * string * string)) : M (list (option string)) :=
  match calls with
  | [] => mret []
  | (w, oldname, infix) :: calls' =>
      r ← hotplug_rename_ifi_new w oldname infix;
      rs ← rename_all calls';
      mret (r :: rs)
  end.

(** The indices a sequence of renames uses, given the values of the
    [eth] and the [wlan] counter before the first of them. *)
Fixpoint rename_indices (calls : list (world * string * string)) (eth wlan : Z) : list Z :=
  match calls with
  | [] => []
  | (_, _, infix) :: calls' =>
      if is_wlan_family infix then wlan :: rename_indices calls' eth (wlan + 1)
      else eth :: rename_indices calls' (eth + 1) wlan
  end.

(** The result of one rename that uses index [n]: the new name, or
    nothing when the kernel refuses the rename. *)
Definition rename_result (w : world) (oldname infix : string) (n : Z) : option string :=
  if bool_decide (network_rename_ifi w oldname ("cml" +:+ infix +:+ pretty n) ≠ 0)
  then None else Some ("cml" +:+ infix +:+ pretty n).

(** The renames [hotplug_init] performs, as a sequence of calls of
    [hotplug_rename_ifi_new]. *)
Definition hotplug_init_renames (w : world) : list (world * string * string) :=
  if cmld_is_hostedmode_active w then []
  else (λ ifname, (w, ifname, if network_interface_is_wifi w ifname then "wlan" else "eth"))
       <$> cmld_get_netif_phys_list w.

Definition renames (tr : list effect) : list effect := List.filter is_rename_ifi tr.

(** ** Executions of the coordinator

    The entry points of the coordinator as its callers and the event
    loop invoke them, and the states a daemon can reach through them. *)
Inductive hotplug_call :=
| init_call (w : world)
| usbdev_new_call (ty : hotplug_usbdev_type_t) (vendor product : Z) (serial : string)
    (assign_flag : bool)
| usbdev_set_major_call (usbdev : loc) (v : Z)
| usbdev_set_minor_call (usbdev : loc) (v : Z)
| register_usbdevice_call (c : container_t) (usbdev : loc)
| unregister_usbdevice_call (c : container_t) (usbdev : loc)
| pnet_cfg_new_call (name : string) (filter : bool) (whitelist : list mac_addr)
| register_netdev_call (c : container_t) (pnet_cfg : loc)
| unregister_netdev_call (c : container_t) (mac : mac_addr)
| uevent_call (w : world) (actions : Z) (event : uevent_event)
| timer_fire_call (w : world) (timer : timer_id).

Section executions.

Variable UEVENT_ACTION_ADD : Z.
Variable UEVENT_ACTION_REMOVE : Z.
Variable network_str_to_mac_addr : string → option mac_addr.
Variable uevent_replace_member : uevent_event → string → string → option uevent_event.

Definition exec_call (c : hotplug_call) : M unit :=
  match c with
  | init_call w => hotplug_init w;; mret tt
  | usbdev_new_call ty vendor product serial assign_flag =>
      hotplug_usbdev_new ty vendor product serial assign_flag;; mret tt
  | usbdev_set_major_call usbdev v => hotplug_usbdev_set_major usbdev v
  | usbdev_set_minor_call usbdev v => hotplug_usbdev_set_minor usbdev v
  | register_usbdevice_call c usbdev => hotplug_register_usbdevice c usbdev;; mret tt
  | unregister_usbdevice_call c usbdev => hotplug_unregister_usbdevice c usbdev;; mret tt
  | pnet_cfg_new_call name filter whitelist =>
      container_pnet_cfg_new name filter whitelist;; mret tt
  | register_netdev_call c pnet_cfg =>
      hotplug_register_netdev network_str_to_mac_addr c pnet_cfg;; mret tt
  | unregister_netdev_call c mac => hotplug_unregister_netdev c mac;; mret tt
  | uevent_call w actions event =>
      hotplug_handle_uevent_cb UEVENT_ACTION_ADD UEVENT_ACTION_REMOVE w actions event
  | timer_fire_call w timer => event_timer_fire uevent_replace_member w timer
  end.

Definition exec (calls : list hotplug_call) : M unit := foreach exec_call calls.

(** A state is reachable when some sequence of calls leads to it from
    the initial state. *)
Definition reachable (st : hotplug_state) : Prop :=
  ∃ calls tr, exec calls hotplug_state_init = Some (tt, st, tr).

(** The registrations of an execution respect the token discipline when
    no call registers a token whose serial another container holds at
    that moment. *)
Definition registers_fresh_token (st : hotplug_state) (c : hotplug_call) : Prop :=
  match c with
  | register_usbdevice_call container usbdev =>
      ∀ u, usbdevs st !! usbdev = Some u → type u = HOTPLUG_USBDEV_TYPE_TOKEN →
           ∀ c', holds_token st c' (i_serial u) → c' = container
  | _ => True
  end.

Fixpoint disciplined (calls : list hotplug_call) (st : hotplug_state) : Prop :=
  match calls with
  | [] => True
  | c :: calls' =>
      registers_fresh_token st c
      ∧ match exec_call c st with
        | Some (_, st', _) => disciplined calls' st'
        | None => True
        end
  end.

End executions.

(** ** Callbacks that leave the record of a mapping alone *)

(** Is the uevent an add that the add loop matches with the record [u]?
    The tests of [hotplug_handle_usb_device] on the way to the stores
    of major and minor: subsystem, devtype, the add action, the serial
    read from sysfs, and vendor id, product id and serial of [u]. *)
Definition matching_add (UEVENT_ACTION_ADD : Z) (w : world) (actions : Z)
    (event : uevent_event) (u : hotplug_usbdev) : bool :=
  String.prefix "usb" (ev_subsystem event)
  && String.prefix "usb_device" (ev_devtype event)
  && bool_decide (Z.land actions UEVENT_ACTION_ADD ≠ 0)
  && match usb_read_serial w event with
     | Some serial => usb_mapping_matches event serial u
     | None => false
     end.

(** A callback of the event loop, a uevent or a firing timer, that is
    not an add uevent matching [u]. *)
Definition callback_without_matching_add (UEVENT_ACTION_ADD : Z) (u : hotplug_usbdev)
    (c : hotplug_call) : Prop :=
  match c with
  | uevent_call w actions event => matching_add UEVENT_ACTION_ADD w actions event u = false
  | timer_fire_call _ _ => True
  | _ => False
  end.

(** ** A concrete setting

    Sample values for what the sources at hand leave open, used to run
    the coordinator on the scenarios of the specification. *)
Module Scenario.

(** Sample action bits: distinct single bits. *)
Definition UEVENT_ACTION_ADD : Z := 1.
Definition UEVENT_ACTION_CHANGE : Z := 2.
Definition UEVENT_ACTION_REMOVE : Z := 4.

Definition hex_digit (c : ascii) : option Z :=
  let n := Z.of_nat (nat_of_ascii c) in
  if (48 <=? n) && (n <=? 57) then Some (n - 48)
  else if (97 <=? n) && (n <=? 102) then Some (n - 87)
  else if (65 <=? n) && (n <=? 70) then Some (n - 55)
  else None.

Definition hex_byte (a b : ascii) : option Z :=
  h ← hex_digit a; l ← hex_digit b; Some (16 * h + l).

Fixpoint mac_bytes (n : nat) (s : string) : option mac_addr :=
  match n, s with
  | 1%nat, String a (String b EmptyString) => x ← hex_byte a b; Some [x]
  | S n', String a (String b (String ":" rest)) =>
      x ← hex_byte a b; xs ← mac_bytes n' rest; Some (x :: xs)
  | _, _ => None
  end.

(** Modelled from the spec: MAC addresses are written as six
    colon-separated hexadecimal bytes ([02:00:00:00:00:01]); the parser
    of the network module is not part of the sources at hand. *)
Definition network_str_to_mac_addr (s : string) : option mac_addr := mac_bytes 6 s.

(** Modelled from the spec: rename helpers produce a copy of the uevent
    with the fields that hold the old string substituted; the function
    of the uevent module is not part of the sources at hand. *)
Definition uevent_replace_member (event : uevent_event) (oldstr newstr : string)
    : option uevent_event :=
  let subst (s : string) := if String.eqb s oldstr then newstr else s in
  Some {| ev_subsystem := ev_subsystem event; ev_devtype := ev_devtype event;
          ev_devpath := subst (ev_devpath event); ev_devname := ev_devname event;
          ev_interface := subst (ev_interface event);
          ev_major := ev_major event; ev_minor := ev_minor event;
          ev_usb_vendor := ev_usb_vendor event; ev_usb_product := ev_usb_product event |}.

(** A host on which every file in [present] exists, the serial file of
    a USB device reads [serial], every interface has the MAC [mac],
    renames and moves succeed, and every container is in [state]. *)
Definition host (present : string → bool) (serial : string) (mac : mac_addr)
    (state : compartment_state_t) : world :=
  {| file_exists := present;
     file_read_new := λ _ _, Some serial;
     network_get_mac_by_ifname := λ _, Some mac;
     network_interface_is_wifi := λ _, false;
     network_rename_ifi := λ _ _, 0;
     cmld_containers_get_c0 := Some 0%nat;
     cmld_netif_phys_remove_by_name := λ _, true;
     cmld_container_add_net_iface := λ _ _ _, 0;
     container_get_state := λ _, state;
     container_get_pid := λ _, 4711;
     container_has_userns := λ _, true;
     uevent_event_inject_into_netns := λ _ _ _, 0;
     cmld_is_hostedmode_active := false;
     cmld_get_netif_phys_list := ["eth0"; "wlp2s0"];
     uevent_add_uev := 0 |}.

Definition c1 : container_t := 1%nat.
Definition c2 : container_t := 2%nat.

(** Scenario S1: the token [1050:0407] with serial [0001]. *)
Definition token_serial_file : string := "/sys//devices/pci0/usb1/1-2/serial".
Definition token_devnode : string := "/dev/bus/usb/001/004".

Definition usb_event : uevent_event :=
  {| ev_subsystem := "usb"; ev_devtype := "usb_device";
     ev_devpath := "/devices/pci0/usb1/1-2"; ev_devname := "bus/usb/001/004";
     ev_interface := ""; ev_major := 189; ev_minor := 3;
     ev_usb_vendor := 0x1050; ev_usb_product := 0x0407 |}.

(** The serial file exists; the device node exists when [node] says so. *)
Definition usb_host (node : bool) : world :=
  host (λ p, String.eqb p token_serial_file || (node && String.eqb p token_devnode))
       ("0001" +:+ String newline "") [2; 0; 0; 0; 0; 1] COMPARTMENT_STATE_RUNNING.

(** Scenario S2: the interface [eth7] with MAC [02:00:00:00:00:01]. *)
Definition net_event (devtype : string) : uevent_event :=
  {| ev_subsystem := "net"; ev_devtype := devtype;
     ev_devpath := "/devices/pci0/net/eth7"; ev_devname := "";
     ev_interface := "eth7"; ev_major := 0; ev_minor := 0;
     ev_usb_vendor := 0; ev_usb_product := 0 |}.

Definition net_host (state : compartment_state_t) : world :=
  host (λ _, false) "" [2; 0; 0; 0; 0; 1] state.

(** The coordinator with the sample constants filled in. *)
Definition uevent (w : world) (actions : Z) (event : uevent_event) : M unit :=
  hotplug_handle_uevent_cb UEVENT_ACTION_ADD UEVENT_ACTION_REMOVE w actions event.

Definition fire (w : world) (timer : timer_id) : M unit :=
  event_timer_fire uevent_replace_member w timer.

(** The timer fires [n] times in the same world. *)
Fixpoint fire_n (n : nat) (w : world) (timer : timer_id) : M unit :=
  match n with
  | O => mret tt
  | S n' => fire w timer;; fire_n n' w timer
  end.

(** The token of S1 is registered for [c1]. *)
Definition register_token (c : container_t) (serial : string) : M unit :=
  u ← hotplug_usbdev_new HOTPLUG_USBDEV_TYPE_TOKEN 0x1050 0x0407 serial false;
  hotplug_register_usbdevice c u;;
  mret tt.

(** The token is plugged in: the add uevent arrives and the debounce
    timer it schedules (the only timer, handle 0) fires [ticks] times;
    [node] tells whether the device node exists meanwhile. *)
Definition token_plugged (node : bool) (ticks : nat) : M unit :=
  uevent (usb_host node) UEVENT_ACTION_ADD usb_event;;
  fire_n ticks (usb_host node) 0%nat.

(** The token is unplugged: the remove uevent arrives. *)
Definition token_unplugged : M unit :=
  uevent (usb_host false) UEVENT_ACTION_REMOVE usb_event.

(** The state in which the token of S1 is registered for [c1], and the
    state after its add uevent. *)
Definition st_token_registered : hotplug_state :=
  default hotplug_state_init (state_of (register_token c1 "0001") hotplug_state_init).

Definition st_token_present : hotplug_state :=
  default hotplug_state_init (state_of (token_plugged true 1) st_token_registered).

(** The net mapping of S2 is registered for [c2]; [filter] is the MAC
    filter flag of its configuration. *)
Definition register_net (filter : bool) : M unit :=
  cfg ← container_pnet_cfg_new "02:00:00:00:00:01" filter [];
  hotplug_register_netdev network_str_to_mac_addr c2 cfg;;
  mret tt.

Definition st_net_registered (filter : bool) : hotplug_state :=
  default hotplug_state_init (state_of (register_net filter) hotplug_state_init).

(** A configuration with a MAC name is allocated, nothing registered. *)
Definition st_cfg_allocated : hotplug_state :=
  default hotplug_state_init
    (state_of (container_pnet_cfg_new "02:00:00:00:00:01" false []) hotplug_state_init).

(** A host whose interfaces have a MAC that is in no mapping. *)
Definition stranger_host : world :=
  host (λ _, false) "" [2; 0; 0; 0; 0; 9] COMPARTMENT_STATE_RUNNING.

(** Two registrations of two different tokens, and two registrations
    of the same token for two containers. *)
Definition two_tokens : list hotplug_call :=
  [usbdev_new_call HOTPLUG_USBDEV_TYPE_TOKEN 0x1050 0x0407 "0001" false;
   register_usbdevice_call c1 0%nat;
   usbdev_new_call HOTPLUG_USBDEV_TYPE_TOKEN 0x1050 0x0407 "0002" false;
   register_usbdevice_call c2 2%nat].

Definition same_token_twice : list hotplug_call :=
  [usbdev_new_call HOTPLUG_USBDEV_TYPE_TOKEN 0x1050 0x0407 "0001" false;
   register_usbdevice_call c1 0%nat;
   usbdev_new_call HOTPLUG_USBDEV_TYPE_TOKEN 0x1050 0x0407 "0001" false;
   register_usbdevice_call c2 2%nat].

Definition run (calls : list hotplug_call) : M unit :=
  exec UEVENT_ACTION_ADD UEVENT_ACTION_REMOVE network_str_to_mac_addr
    uevent_replace_member calls.

Definition st_two_tokens : hotplug_state :=
  default hotplug_state_init (state_of (run two_tokens) hotplug_state_init).

Definition tr_two_tokens : list effect :=
  default [] (trace_of (run two_tokens) hotplug_state_init).

(** A record of a generic device is given the numbers 189:3 through the
    setters and is registered afterwards; no uevent has arrived. *)
Definition numbers_set_before_registration : list hotplug_call :=
  [usbdev_new_call HOTPLUG_USBDEV_TYPE_GENERIC 0x1050 0x0407 "0001" false;
   usbdev_set_major_call 0%nat 189;
   usbdev_set_minor_call 0%nat 3;
   register_usbdevice_call c1 0%nat].

(** Three renames: an ethernet card, a wifi card, a cellular modem. *)
Definition three_renames : list (world * string * string) :=
  [(net_host COMPARTMENT_STATE_RUNNING, "eth7", "eth");
   (net_host COMPARTMENT_STATE_RUNNING, "wlp2s0", "wlan");
   (net_host COMPARTMENT_STATE_RUNNING, "wwan0", "wwan")].

(** The devtype of a cellular modem, as the kernel reports it. *)
Definition wwan_event : uevent_event := net_event "wwan".

End Scenario.

(** ** Further notions: the registries *)

(** The key [hotplug_unregister_usbdevice] compares: the container and
    vendor id, product id and serial of the caller's record; neither the
    kind nor major and minor take part. *)
Definition unregister_key_matches (st : hotplug_state) (container : container_t)
    (caller : hotplug_usbdev) (m : hotplug_container_dev_mapping) : bool :=
  match mapping_usbdev st m with
  | Some u =>
      bool_decide (dm_container m = container)
      && (id_vendor u =? id_vendor caller)
      && (id_product u =? id_product caller)
      && String.eqb (i_serial u) (i_serial caller)
  | None => false
  end.

(** The key [hotplug_unregister_netdev] compares. *)
Definition netdev_key_matches (container : container_t) (mac : mac_addr)
    (m : hotplug_container_netdev_mapping) : bool :=
  bool_decide (nm_container m = container) && bool_decide (nm_mac m = mac).

(** A search loop that runs to the end of the list and keeps the last
    element that passes the test, with its position. *)
Fixpoint last_match {A} (test : A → bool) (l : list A) (pos : nat)
    (found : option (nat * A)) : option (nat * A) :=
  match l with
  | [] => found
  | x :: l' => last_match test l' (S pos) (if test x then Some (pos, x) else found)
  end.

(** The state with another USB registry, another usbdev heap. *)
Definition with_dev_mappings (l : list hotplug_container_dev_mapping)
    (st : hotplug_state) : hotplug_state :=
  set_dev_mapping_list (λ _, l) st.

Definition with_netdev_mappings (l : list hotplug_container_netdev_mapping)
    (st : hotplug_state) : hotplug_state :=
  set_netdev_mapping_list (λ _, l) st.

(** ** Further notions: the move of interfaces *)

(** The configuration of the target after [hotplug_netdev_move] has
    gone past the state test: it carries the name of the renamed
    interface when the rename succeeded, and is as before otherwise. *)
Definition moved_cfg
    (uevent_replace_member : uevent_event → string → string → option uevent_event)
    (w : world) (event : uevent_event) (st : hotplug_state) (cfg : container_pnet_cfg)
    : container_pnet_cfg :=
  match hotplug_rename_interface uevent_replace_member w event st with
  | Some (Some newevent, _, _) =>
      mk_pnet_cfg (ev_interface newevent) (mac_filter cfg) (mac_whitelist cfg)
  | _ => cfg
  end.

(** Does the target of a move permit it? *)
Definition target_permits_move (w : world) (container : option container_t) : bool :=
  match container with
  | Some container => state_permits_move (container_get_state w container)
  | None => false
  end.

(** ** Further notions: renames *)

(** The renames a trace requests from the kernel: old and new name. *)
Definition rename_requests (tr : list effect) : list (string * string) :=
  omap (λ e, match e with
             | Call_network_rename_ifi oldname newname => Some (oldname, newname)
             | _ => None
             end) tr.

(** The request of a call of [hotplug_rename_ifi_new] that uses index [n]. *)
Definition rename_request (c : world * string * string) (n : Z) : string * string :=
  (c.1.2, "cml" +:+ c.2 +:+ pretty n).

(** ** The search of a USB device in sysfs *)

(** What [sscanf(buf, "%hx", &v)] yields: end of input before any
    conversion (result below 0), no conversion (result 0, [v] is not
    written), or the value. *)
Inductive scan_hx :=
| scan_hx_eof
| scan_hx_none
| scan_hx_value (v : Z).

(** What [sscanf(buf, "%d:%d", &dev[0], &dev[1])] yields: end of input
    (result below 0), no conversion, the first number only, or both. *)
Inductive scan_dev :=
| scan_dev_eof
| scan_dev_none
| scan_dev_first (a : Z)
| scan_dev_both (a b : Z).

(** The use of a variable that was never written. *)
Definition undefined {A} : M A := λ _, None.

Section sysfs.

(** Helpers whose sources are not at hand: [file_read(file, buf, size)]
    of the file module, as a function of the file name, the content of
    the buffer before the call and the size, to the result and the
    content of the buffer after the call; and the two conversions of
    the C library. *)
Variable file_read : string → string → Z → Z * string.
Variable sscanf_hx : string → scan_hx.
Variable sscanf_dev : string → scan_dev.

(** [hotplug_usbdev_sysfs_foreach_cb], the callback of the walk through
    [/sys/bus/usb/devices]: [buf0] is what the buffer on the stack holds
    on entry.  The handle is a location, so the NULL case of the C
    function does not arise.  The label [out:] returns [found] as it is
    at the time of the jump. *)
Definition hotplug_usbdev_sysfs_foreach_cb (w : world) (buf0 : string)
    (path name : string) (usbdev : loc) : M Z :=
  let out (found : bool) : M Z := mret (if found then 1 else 0) in
  let found := false in
  let id_product_file := path +:+ "/" +:+ name +:+ "/idProduct" in
  let id_vendor_file := path +:+ "/" +:+ name +:+ "/idVendor" in
  let i_serial_file := path +:+ "/" +:+ name +:+ "/serial" in
  let dev_file := path +:+ "/" +:+ name +:+ "/dev" in
  if negb (file_exists w id_product_file) then out found
  else if negb (file_exists w id_vendor_file) then out found
  else if negb (file_exists w dev_file) then out found
  else
    let '(len, buf) := file_read id_product_file buf0 256 in
    if len <? 4 then out found
    else
      match sscanf_hx buf with
      | scan_hx_eof => out found
      | scan_hx_none => undefined
      | scan_hx_value id_product =>
          p ← hotplug_usbdev_get_id_product usbdev;
          let found := id_product =? p in
          let '(len, buf) := file_read id_vendor_file buf 256 in
          if len <? 4 then out found
          else
            match sscanf_hx buf with
            | scan_hx_eof => out found
            | scan_hx_none => undefined
            | scan_hx_value id_vendor =>
                v ← hotplug_usbdev_get_id_vendor usbdev;
                let found := found && (id_vendor =? v) in
                '(found, buf) ←
                  (if file_exists w i_serial_file then
                     let '(len, buf) := file_read i_serial_file buf 256 in
                     serial ← hotplug_usbdev_get_i_serial usbdev;
                     (* strncmp over the length of the serial of the record *)
                     mret (found && String.prefix serial buf, buf)
                   else mret (found, ""));
                if negb found then out found
                else
                  let found := false in
                  let '(len, buf) := file_read dev_file buf 256 in
                  if len <? 0 then out found
                  else
                    match sscanf_dev buf with
                    | scan_dev_eof => out found
                    | scan =>
                        let '(dev0, dev1) :=
                          match scan with
                          | scan_dev_both a b => (a, b)
                          | scan_dev_first a => (a, -1)
                          | _ => (-1, -1)
                          end in
                        if negb ((dev0 >? -1) && (dev1 >? -1)) then out found
                        else
                          hotplug_usbdev_set_major usbdev dev0;;
                          hotplug_usbdev_set_minor usbdev dev1;;
                          out true
                    end
            end
      end.

End sysfs.

(** ** Further notions: the timers of tokens *)

(** The timer the add loop registers for a token mapping. *)
Definition token_timer_of (event : uevent_event) (m : hotplug_container_dev_mapping)
    : event_timer :=
  {| timer_timeout := 100; timer_repeats := EVENT_TIMER_REPEAT_FOREVER;
     timer_cb := token_timer_closure
       {| td_container := dm_container m; td_devname := token_devname event |} |}.

(** Does the add loop register a timer for the mapping?  It does for a
    mapping of kind token that matches the added device. *)
Definition mapping_schedules (st : hotplug_state) (event : uevent_event) (serial : string)
    (m : hotplug_container_dev_mapping) : bool :=
  mapping_matches st event serial m && mapping_is_token st m.

(** ** Further sample values

    More inputs in the concrete setting of the scenarios. *)
Module Samples.
Import Scenario.

(** The record the caller keeps of the token of S1, its mapping for
    [c1], and the net mapping of S2 with its configuration. *)
Definition token_record : hotplug_usbdev :=
  {| i_serial := "0001"; id_vendor := 0x1050; id_product := 0x0407;
     major := -1; minor := -1; assign := false; type := HOTPLUG_USBDEV_TYPE_TOKEN |}.

Definition token_mapping : hotplug_container_dev_mapping :=
  {| dm_container := c1; dm_usbdev := 1%nat; dm_assign := false |}.

Definition net_mapping : hotplug_container_netdev_mapping :=
  {| nm_container := c2; nm_pnet_cfg := 0%nat; nm_mac := [2; 0; 0; 0; 0; 1] |}.

Definition net_cfg (filter : bool) : container_pnet_cfg :=
  {| pnet_name := "02:00:00:00:00:01"; mac_filter := filter; mac_whitelist := [] |}.

(** The token of S1 has been plugged in and its device node is not
    there yet: the timer (handle 0) waits. *)
Definition st_token_waiting : hotplug_state :=
  default hotplug_state_init (state_of (token_plugged false 0) st_token_registered).

(** A wifi interface has been added that sysfs does not show as
    wireless: the debounce timer (handle 0) waits. *)
Definition st_wlan_waiting : hotplug_state :=
  default hotplug_state_init
    (state_of (uevent (net_host COMPARTMENT_STATE_RUNNING) UEVENT_ACTION_ADD
                 (net_event "wlan")) hotplug_state_init).

Definition wlan_timer : event_timer :=
  {| timer_timeout := 100; timer_repeats := EVENT_TIMER_REPEAT_FOREVER;
     timer_cb := sysfs_netif_timer_closure (net_event "wlan") |}.

(** Two renames: an ethernet card and a wifi card. *)
Definition two_renames : list (world * string * string) :=
  [(net_host COMPARTMENT_STATE_RUNNING, "eth7", "eth");
   (net_host COMPARTMENT_STATE_RUNNING, "wlp2s0", "wlan")].

(** A uevent whose devpath does not hold the name of the interface. *)
Definition odd_event : uevent_event :=
  {| ev_subsystem := "net"; ev_devtype := "";
     ev_devpath := "/devices/pci0/net/lan"; ev_devname := "";
     ev_interface := "eth7"; ev_major := 0; ev_minor := 0;
     ev_usb_vendor := 0; ev_usb_product := 0 |}.

(** The entry of the token of S1 in [/sys/bus/usb/devices]: a host on
    which the files of the entry exist, a [file_read] that yields their
    content ([vendor] is what it yields for [idVendor]), and conversions
    that know these contents. *)
Definition sysfs_path : string := "/sys/bus/usb/devices".
Definition sysfs_name : string := "1-2".

Definition sysfs_host : world :=
  host (String.prefix "/sys/bus/usb/devices/1-2/") "" [2; 0; 0; 0; 0; 1]
       COMPARTMENT_STATE_RUNNING.

Definition line (s : string) : string := s +:+ String newline "".

Definition sysfs_file_read (vendor : Z * string) (file old : string) (size : Z)
    : Z * string :=
  if String.eqb file "/sys/bus/usb/devices/1-2/idProduct" then (5, line "0407")
  else if String.eqb file "/sys/bus/usb/devices/1-2/idVendor" then vendor
  else if String.eqb file "/sys/bus/usb/devices/1-2/serial" then (5, line "0001")
  else if String.eqb file "/sys/bus/usb/devices/1-2/dev" then (6, line "189:3")
  else (-1, old).

Definition sysfs_sscanf_hx (buf : string) : scan_hx :=
  if String.eqb buf (line "0407") then scan_hx_value 0x0407
  else if String.eqb buf (line "1050") then scan_hx_value 0x1050
  else if String.eqb buf "" then scan_hx_eof
  else scan_hx_none.

Definition sysfs_sscanf_dev (buf : string) : scan_dev :=
  if String.eqb buf (line "189:3") then scan_dev_both 189 3
  else if String.eqb buf "" then scan_dev_eof
  else scan_dev_none.

End Samples.

(** * Properties *)

(** ** Running the monad *)

(** Expose the state-passing behind the binds, and behind the
    primitives that neither read nor write the heaps. *)
Ltac unfold_bind := unfold mbind, M_bind.
Ltac unfold_monad := unfold mbind, M_bind, get, modify, log, call.

(** A freshly chosen location is not allocated. *)
Lemma fresh_usbdev_None st : usbdevs st !! fresh (dom (usbdevs st)) = None.
Proof. apply not_elem_of_dom, is_fresh. Qed.

Lemma fresh_pnet_cfg_None st : pnet_cfgs st !! fresh (dom (pnet_cfgs st)) = None.
Proof. apply not_elem_of_dom, is_fresh. Qed.

(** A loop over two lists in a row. *)
Lemma foreach_app {A} (body : A → M unit) (l1 l2 : list A) st :
  foreach body (l1 ++ l2) st = (foreach body l1;; foreach body l2) st.
Proof.
  revert st. induction l1 as [|x l1 IH]; intros st; cbn.
  - unfold_bind. cbn. by destruct (foreach body l2 st) as [[[[] ?] ?]|].
  - unfold mbind, M_bind in *. destruct (body x st) as [[[[] st1] tr1]|]; [|done].
    rewrite IH. destruct (foreach body l1 st1) as [[[[] st2] tr2]|]; [|done].
    destruct (foreach body l2 st2) as [[[[] st3] tr3]|]; [|done].
    by rewrite app_assoc.
Qed.

(** ** Renaming of interfaces *)

(** [hotplug_rename_ifi_new] in closed form.  The heap of
    configurations plays no role. *)
Lemma hotplug_rename_ifi_new_run w oldname infix f st :
  hotplug_rename_ifi_new w oldname infix (set_pnet_cfgs f st)
  = Some (if bool_decide (network_rename_ifi w oldname (rename_newname infix st) ≠ 0)
          then None else Some (rename_newname infix st),
          set_pnet_cfgs f (advance_idx infix st),
          [Log LOG_INFO "Renaming %s to %s";
           Call_network_rename_ifi oldname (rename_newname infix st)]
          ++ if bool_decide (network_rename_ifi w oldname (rename_newname infix st) ≠ 0)
             then [Log LOG_ERROR "Failed to rename interface %s"] else []).
Proof.
  unfold hotplug_rename_ifi_new, rename_newname, rename_idx, advance_idx, is_wlan_family,
    mbind, M_bind, get, modify, log, call.
  destruct (String.eqb infix "wlan"); cbn -[pretty int_wrap uint_wrap];
    by case_bool_decide.
Qed.

Lemma set_pnet_cfgs_id st : set_pnet_cfgs (λ h, h) st = st.
Proof. by destruct st. Qed.

Lemma hotplug_rename_ifi_new_eq w oldname infix st :
  hotplug_rename_ifi_new w oldname infix st
  = Some (if bool_decide (network_rename_ifi w oldname (rename_newname infix st) ≠ 0)
          then None else Some (rename_newname infix st),
          advance_idx infix st,
          [Log LOG_INFO "Renaming %s to %s";
           Call_network_rename_ifi oldname (rename_newname infix st)]
          ++ if bool_decide (network_rename_ifi w oldname (rename_newname infix st) ≠ 0)
             then [Log LOG_ERROR "Failed to rename interface %s"] else []).
Proof.
  pose proof (hotplug_rename_ifi_new_run w oldname infix (λ h, h) st) as H.
  by rewrite !set_pnet_cfgs_id in H.
Qed.

Lemma advance_idx_pnet_cfgs infix st : pnet_cfgs (advance_idx infix st) = pnet_cfgs st.
Proof. unfold advance_idx. by destruct (is_wlan_family infix). Qed.

Lemma advance_idx_usbdevs infix st : usbdevs (advance_idx infix st) = usbdevs st.
Proof. unfold advance_idx. by destruct (is_wlan_family infix). Qed.

Lemma advance_idx_dev_mappings infix st :
  hotplug_container_dev_mapping_list (advance_idx infix st)
  = hotplug_container_dev_mapping_list st.
Proof. unfold advance_idx. by destruct (is_wlan_family infix). Qed.

Lemma advance_idx_netdev_mappings infix st :
  hotplug_container_netdev_mapping_list (advance_idx infix st)
  = hotplug_container_netdev_mapping_list st.
Proof. unfold advance_idx. by destruct (is_wlan_family infix). Qed.

Lemma advance_idx_retries infix st : retries (advance_idx infix st) = retries st.
Proof. unfold advance_idx. by destruct (is_wlan_family infix). Qed.

Lemma advance_idx_timers infix st : timers (advance_idx infix st) = timers st.
Proof. unfold advance_idx. by destruct (is_wlan_family infix). Qed.

Lemma move_frame_refl c0 st : move_frame c0 st st.
Proof. by repeat split. Qed.

Lemma move_frame_trans c0 st1 st2 st3 :
  move_frame c0 st1 st2 → move_frame c0 st2 st3 → move_frame c0 st1 st3.
Proof.
  intros (?&?&?&?&?&Hp1) (?&?&?&?&?&Hp2). repeat split; try congruence.
  intros l Hne Hl. by apply Hp2, Hp1.
Qed.

Lemma move_frame_advance c0 infix st : move_frame c0 st (advance_idx infix st).
Proof.
  unfold move_frame.
  rewrite advance_idx_usbdevs, advance_idx_dev_mappings, advance_idx_netdev_mappings,
    advance_idx_retries, advance_idx_timers, advance_idx_pnet_cfgs. by repeat split.
Qed.

Lemma move_frame_insert c0 l cfg st : move_frame c0 st (set_pnet_cfgs (insert l cfg) st).
Proof.
  repeat split. intros l' _ Hl'. cbn. destruct (decide (l = l')) as [->|Hne].
  - rewrite lookup_insert_eq. eauto.
  - by rewrite lookup_insert_ne.
Qed.

Lemma move_frame_delete l st : move_frame (Some l) st (set_pnet_cfgs (delete l) st).
Proof.
  repeat split. intros l' Hne Hl'. cbn. rewrite lookup_delete_ne; [done|congruence].
Qed.

Lemma quiet_nil : quiet [].
Proof. done. Qed.

Lemma quiet_app tr1 tr2 : quiet tr1 → quiet tr2 → quiet (tr1 ++ tr2).
Proof.
  unfold quiet, injections. intros [H1 H2] [H3 H4].
  by rewrite !List.filter_app, H1, H2, H3, H4.
Qed.

Section rename_interface.

Variable uevent_replace_member : uevent_event → string → string → option uevent_event.

(** [hotplug_rename_interface] is defined on every state, changes
    nothing but the counter of the family, and neither requests a move
    nor injects a uevent.  Its result and trace do not depend on the
    heap of configurations. *)
Lemma hotplug_rename_interface_run w event st :
  ∃ r tr,
    quiet tr
    ∧ ∀ f, hotplug_rename_interface uevent_replace_member w event (set_pnet_cfgs f st)
           = Some (r, set_pnet_cfgs f (advance_idx (rename_prefix event) st), tr).
Proof.
  unfold hotplug_rename_interface. fold (rename_prefix event).
  set (infix := rename_prefix event).
  set (newname := rename_newname infix st).
  assert (Hrun : ∀ f, hotplug_rename_ifi_new w (ev_interface event) infix (set_pnet_cfgs f st)
    = Some (if bool_decide (network_rename_ifi w (ev_interface event) newname ≠ 0)
            then None else Some newname,
            set_pnet_cfgs f (advance_idx infix st),
            [Log LOG_INFO "Renaming %s to %s";
             Call_network_rename_ifi (ev_interface event) newname]
            ++ if bool_decide (network_rename_ifi w (ev_interface event) newname ≠ 0)
               then [Log LOG_ERROR "Failed to rename interface %s"] else []))
    by (intros f; apply hotplug_rename_ifi_new_run).
  unfold_bind.
  destruct (bool_decide (network_rename_ifi w (ev_interface event) newname ≠ 0)) eqn:Hren.
  { eexists _, _. split; [|intros f; rewrite Hrun; reflexivity]. done. }
  destruct (cmld_netif_phys_remove_by_name w (ev_interface event)) eqn:Hphys;
    (destruct (hotplug_replace_devpath_new (ev_devpath event) (ev_interface event) newname)
       as [new_devpath|] eqn:Hpath;
     [destruct (uevent_replace_member event (ev_interface event) newname)
        as [uev_chname|] eqn:Hname;
      [destruct (uevent_replace_member uev_chname (ev_devpath uev_chname) new_devpath)
         eqn:Hdevpath|]|]);
    eexists _, _;
    (split; [|intros f; rewrite Hrun; cbn; rewrite ?Hphys; cbn; rewrite ?Hpath; cbn;
              rewrite ?Hname; cbn; rewrite ?Hdevpath; reflexivity]);
    done.
Qed.

End rename_interface.

(** *** Sequences of renames *)

Lemma int_wrap_small z : 0 ≤ z < 2 ^ 31 → int_wrap z = z.
Proof. intros Hz. unfold int_wrap. rewrite Z.mod_small; lia. Qed.

Lemma uint_wrap_small z : 0 ≤ z < 2 ^ 32 → uint_wrap z = z.
Proof. intros Hz. unfold uint_wrap. by rewrite Z.mod_small. Qed.

Lemma rename_indices_length calls eth wlan :
  length (rename_indices calls eth wlan) = length calls.
Proof.
  revert eth wlan. induction calls as [|[[w old] infix] calls IH]; intros eth wlan; [done|].
  cbn. destruct (is_wlan_family infix); cbn; by rewrite IH.
Qed.

(** An index is at least the value its counter had at the start. *)
Lemma rename_indices_lower calls eth wlan i w old infix n :
  calls !! i = Some (w, old, infix) →
  rename_indices calls eth wlan !! i = Some n →
  (if is_wlan_family infix then wlan else eth) ≤ n.
Proof.
  revert eth wlan i. induction calls as [|[[w0 old0] infix0] calls IH]; intros eth wlan i;
    [done|].
  destruct i as [|i]; cbn.
  - intros [= -> -> ->]. destruct (is_wlan_family infix); cbn; intros [= <-]; lia.
  - intros Hi. destruct (is_wlan_family infix0); cbn; intros Hn;
      pose proof (IH _ _ _ Hi Hn); destruct (is_wlan_family infix); lia.
Qed.

(** Within a family the indices increase strictly. *)
Lemma rename_indices_increasing calls eth wlan i j w_i old_i infix_i w_j old_j infix_j n_i n_j :
  (i < j)%nat →
  calls !! i = Some (w_i, old_i, infix_i) →
  calls !! j = Some (w_j, old_j, infix_j) →
  is_wlan_family infix_i = is_wlan_family infix_j →
  rename_indices calls eth wlan !! i = Some n_i →
  rename_indices calls eth wlan !! j = Some n_j →
  n_i < n_j.
Proof.
  revert eth wlan i j. induction calls as [|[[w0 old0] infix0] calls IH];
    intros eth wlan i j Hij; [done|].
  destruct j as [|j]; [lia|]. destruct i as [|i]; cbn.
  - intros [= -> -> ->] Hj Hfam.
    destruct (is_wlan_family infix_i) eqn:Hfi; cbn; intros [= <-] Hnj;
      pose proof (rename_indices_lower _ _ _ _ _ _ _ _ Hj Hnj) as Hlow;
      rewrite <- Hfam in Hlow; lia.
  - intros Hi Hj Hfam. destruct (is_wlan_family infix0); cbn; intros Hni Hnj;
      eapply (IH _ _ i j); eauto; lia.
Qed.

(** C4, as amended.  A sequence of renames, run while each counter
    stays below 2^31: every rename is defined; the rename of a call with
    infix [infix] uses an index [n ≥ 0] and yields the name
    [cml<infix><n>], or nothing when the kernel refuses; the infix is
    whatever the caller passes (the devtype of the uevent, [eth] when
    there is none), so the name is of the form [cmleth<n>] or
    [cmlwlan<n>] when the infix is [eth] or [wlan]; and the indices of
    any two renames of the same family (infix [wlan], or any other
    infix) increase strictly in the order of the calls. *)
Theorem C4_rename_indices_increase_per_family
    (calls : list (world * string * string)) st :
  0 ≤ cmld_eth_idx st → 0 ≤ cmld_wlan_idx st →
  cmld_eth_idx st + Z.of_nat (length calls) < 2 ^ 31 →
  cmld_wlan_idx st + Z.of_nat (length calls) < 2 ^ 31 →
  ∃ results st' tr indices,
    rename_all calls st = Some (results, st', tr)
    ∧ length results = length calls
    ∧ length indices = length calls
    ∧ (∀ i w oldname infix, calls !! i = Some (w, oldname, infix) →
         ∃ n, indices !! i = Some n ∧ 0 ≤ n
              ∧ results !! i = Some (rename_result w oldname infix n)
              ∧ (infix = "eth" ∨ infix = "wlan" →
                 cml_eth_or_wlan_name ("cml" +:+ infix +:+ pretty n)))
    ∧ (∀ i j w_i old_i infix_i w_j old_j infix_j n_i n_j,
         (i < j)%nat →
         calls !! i = Some (w_i, old_i, infix_i) →
         calls !! j = Some (w_j, old_j, infix_j) →
         is_wlan_family infix_i = is_wlan_family infix_j →
         indices !! i = Some n_i → indices !! j = Some n_j →
         n_i < n_j).
Proof.
  intros Heth Hwlan Hbe Hbw.
  assert (Hrun : ∃ results st' tr,
    rename_all calls st = Some (results, st', tr)
    ∧ length results = length calls
    ∧ ∀ i w oldname infix, calls !! i = Some (w, oldname, infix) →
        ∃ n, rename_indices calls (cmld_eth_idx st) (cmld_wlan_idx st) !! i = Some n
             ∧ results !! i = Some (rename_result w oldname infix n)).
  { revert st Heth Hwlan Hbe Hbw.
    induction calls as [|[[w old] infix] calls IH]; intros st Heth Hwlan Hbe Hbw.
    { exists [], st, []. split; [done|]. split; [done|]. intros i ? ? ? Hi. done. }
    cbn [rename_all length] in *. unfold_bind.
    rewrite hotplug_rename_ifi_new_eq.
    destruct (IH (advance_idx infix st)) as (results & st' & tr & Hrest & Hlen & Hres).
    { unfold advance_idx. destruct (is_wlan_family infix); cbn; [done|].
      rewrite uint_wrap_small; lia. }
    { unfold advance_idx. destruct (is_wlan_family infix); cbn; [|done].
      rewrite uint_wrap_small; lia. }
    { unfold advance_idx. destruct (is_wlan_family infix); cbn; [lia|].
      rewrite uint_wrap_small; lia. }
    { unfold advance_idx. destruct (is_wlan_family infix); cbn; [|lia].
      rewrite uint_wrap_small; lia. }
    rewrite Hrest. eexists _, _, _. split; [reflexivity|]. split; [cbn; by rewrite Hlen|].
    intros i w' old' infix' Hi. destruct i as [|i].
    - injection Hi as -> -> ->. cbn [rename_indices].
      unfold rename_result, rename_newname, rename_idx.
      destruct (is_wlan_family infix').
      + exists (cmld_wlan_idx st). split; [done|]. cbn. by rewrite int_wrap_small by lia.
      + exists (cmld_eth_idx st). split; [done|]. cbn. by rewrite int_wrap_small by lia.
    - cbn in Hi. destruct (Hres _ _ _ _ Hi) as (n & Hn & Hr). exists n. split; [|done].
      cbn [rename_indices]. unfold advance_idx in Hn.
      destruct (is_wlan_family infix); cbn in *; rewrite uint_wrap_small in Hn by lia; done. }
  destruct Hrun as (results & st' & tr & Hrun & Hlen & Hres).
  exists results, st', tr, (rename_indices calls (cmld_eth_idx st) (cmld_wlan_idx st)).
  split; [done|]. split; [done|]. split; [apply rename_indices_length|]. split.
  - intros i w old infix Hi. destruct (Hres _ _ _ _ Hi) as (n & Hn & Hr).
    assert (0 ≤ n).
    { pose proof (rename_indices_lower _ _ _ _ _ _ _ _ Hi Hn).
      destruct (is_wlan_family infix); lia. }
    exists n. split; [done|]. split; [done|]. split; [done|].
    intros [->| ->]; exists n; (split; [done|]); [by left|by right].
  - intros. by eapply rename_indices_increasing.
Qed.

(** One iteration of the loop of [hotplug_init], in closed form. *)
Lemma hotplug_init_rename_eq w ifname st :
  let infix := if network_interface_is_wifi w ifname then "wlan" else "eth" in
  hotplug_init_rename w ifname st
  = Some (tt, advance_idx infix st,
          [Log LOG_INFO "Renaming %s to %s";
           Call_network_rename_ifi ifname (rename_newname infix st)]
          ++ if bool_decide (network_rename_ifi w ifname (rename_newname infix st) ≠ 0)
             then [Log LOG_ERROR "Failed to rename interface %s"]
             else [Store_netif_phys_name ifname (rename_newname infix st)]).
Proof.
  intros infix. unfold hotplug_init_rename, mbind, M_bind. fold infix.
  rewrite hotplug_rename_ifi_new_eq.
  by destruct (bool_decide (network_rename_ifi w ifname (rename_newname infix st) ≠ 0)).
Qed.

(** The renames of [hotplug_init] are a sequence of calls of
    [hotplug_rename_ifi_new] with the infixes [wlan] and [eth]: same
    final state, same renames in the trace.  [hotplug_init] is defined
    on every state and touches nothing but the two counters. *)
Lemma hotplug_init_run w st :
  ∃ st' tr results tr0,
    hotplug_init w st = Some (uevent_add_uev w, st', tr)
    ∧ rename_all (hotplug_init_renames w) st = Some (results, st', tr0)
    ∧ renames tr = renames tr0
    ∧ move_frame None st st'.
Proof.
  assert (Hloop : ∀ (l : list string) st,
    ∃ st' tr results tr0,
      foreach (hotplug_init_rename w) l st = Some (tt, st', tr)
      ∧ rename_all ((λ ifname, (w, ifname,
                       if network_interface_is_wifi w ifname then "wlan" else "eth")) <$> l) st
        = Some (results, st', tr0)
      ∧ renames tr = renames tr0
      ∧ move_frame None st st').
  { clear st. induction l as [|ifname l IH]; intros st.
    { exists st, [], [], []. repeat split; done. }
    set (infix := if network_interface_is_wifi w ifname then "wlan" else "eth").
    destruct (IH (advance_idx infix st)) as (st' & tr & results & tr0 & Hrun & Hall & Htr & Hfr).
    cbn [foreach rename_all fmap list_fmap]. fold infix.
    unfold_bind.
    rewrite hotplug_init_rename_eq, hotplug_rename_ifi_new_eq. cbn zeta. fold infix.
    cbv beta iota. rewrite Hrun, Hall.
    eexists _, _, _, _. split; [reflexivity|]. split; [reflexivity|].
    split; [|eapply move_frame_trans; [apply move_frame_advance|done]].
    unfold renames in *. rewrite !List.filter_app, Htr, app_nil_r.
    by destruct (bool_decide (network_rename_ifi w ifname (rename_newname infix st) ≠ 0)). }
  unfold hotplug_init, hotplug_init_renames.
  destruct (cmld_is_hostedmode_active w); cbn [negb].
  { exists st, [Call_uevent_add_uev], [], []. repeat split; done. }
  destruct (Hloop (cmld_get_netif_phys_list w) st)
    as (st' & tr & results & tr0 & Hrun & Hall & Htr & Hfr).
  unfold mbind, M_bind, call. rewrite Hrun. eexists st', _, results, tr0.
  split; [reflexivity|]. split; [done|]. split; [|done].
  unfold renames in *. rewrite List.filter_app. cbn. by rewrite app_nil_r.
Qed.

(** ** The net registry and the move of interfaces *)

Section net_properties.

Variable network_str_to_mac_addr : string → option mac_addr.
Variable uevent_replace_member : uevent_event → string → string → option uevent_event.

(** [hotplug_register_netdev] on a configuration whose name is not a MAC
    string: -1, nothing changes, nothing is logged. *)
Lemma hotplug_register_netdev_reject container pnet_cfg cfg st :
  pnet_cfgs st !! pnet_cfg = Some cfg →
  network_str_to_mac_addr (pnet_name cfg) = None →
  hotplug_register_netdev network_str_to_mac_addr container pnet_cfg st = Some (-1, st, []).
Proof.
  intros Hcfg Hmac.
  unfold hotplug_register_netdev, hotplug_container_netdev_mapping_new,
    mbind, M_bind, pnet_cfg_load.
  by rewrite Hcfg, Hmac.
Qed.

(** [hotplug_register_netdev] on a configuration whose name parses: 0,
    and the mapping with the parsed MAC is appended. *)
Lemma hotplug_register_netdev_accept container pnet_cfg cfg mac st :
  pnet_cfgs st !! pnet_cfg = Some cfg →
  network_str_to_mac_addr (pnet_name cfg) = Some mac →
  hotplug_register_netdev network_str_to_mac_addr container pnet_cfg st
  = Some (0,
          set_netdev_mapping_list
            (λ l, l ++ [{| nm_container := container; nm_pnet_cfg := pnet_cfg;
                           nm_mac := mac |}]) st,
          [Log LOG_INFO "Registered netdev '%s' for container %s"]).
Proof.
  intros Hcfg Hmac.
  unfold hotplug_register_netdev, hotplug_container_netdev_mapping_new,
    mbind, M_bind, pnet_cfg_load.
  by rewrite Hcfg, Hmac.
Qed.

(** C9. [hotplug_register_netdev] on a valid configuration handle: when
    the name of the configuration does not parse as a MAC address the
    call returns -1 and the state, hence the net registry, is
    unchanged; when it parses, the call returns 0, the registry grows by
    exactly one mapping at its end, and the MAC stored in that mapping is
    the parsed value of the name. *)
Theorem C9_register_netdev_mac container pnet_cfg cfg st :
  pnet_cfgs st !! pnet_cfg = Some cfg →
  (network_str_to_mac_addr (pnet_name cfg) = None →
     hotplug_register_netdev network_str_to_mac_addr container pnet_cfg st
     = Some (-1, st, []))
  ∧ (∀ mac, network_str_to_mac_addr (pnet_name cfg) = Some mac →
       ∃ st' tr mapping,
         hotplug_register_netdev network_str_to_mac_addr container pnet_cfg st
         = Some (0, st', tr)
         ∧ hotplug_container_netdev_mapping_list st'
           = hotplug_container_netdev_mapping_list st ++ [mapping]
         ∧ nm_mac mapping = mac
         ∧ nm_container mapping = container
         ∧ nm_pnet_cfg mapping = pnet_cfg).
Proof.
  intros Hcfg. split.
  - by apply hotplug_register_netdev_reject.
  - intros mac Hmac. eexists _, _, _. split.
    + by eapply hotplug_register_netdev_accept.
    + done.
Qed.

(** The ephemeral configuration that is released at the [error:] exit
    leaves no trace in the heap. *)
Lemma pnet_cfg_new_free st cfg :
  set_pnet_cfgs (delete (fresh (dom (pnet_cfgs st))))
    (set_pnet_cfgs (insert (fresh (dom (pnet_cfgs st))) cfg) st) = st.
Proof.
  destruct st as [ud pc dl nl wi ei r ti]; unfold set_pnet_cfgs; simpl. f_equal.
  rewrite delete_insert_eq. apply delete_id, not_elem_of_dom, is_fresh.
Qed.

Lemma netdev_move_error_ephemeral st cfg :
  netdev_move_error (Some (fresh (dom (pnet_cfgs st))))
    (set_pnet_cfgs (insert (fresh (dom (pnet_cfgs st))) cfg) st)
  = Some (-1, st, []).
Proof.
  unfold netdev_move_error, mbind, M_bind, pnet_cfg_free.
  cbn [pnet_cfgs set_pnet_cfgs]. rewrite lookup_insert_eq.
  by rewrite pnet_cfg_new_free.
Qed.

Lemma netdev_move_error_mapped st : netdev_move_error None st = Some (-1, st, []).
Proof. done. Qed.

Lemma state_permits_move_false s :
  s ≠ COMPARTMENT_STATE_STARTING → s ≠ COMPARTMENT_STATE_BOOTING →
  s ≠ COMPARTMENT_STATE_RUNNING → state_permits_move s = false.
Proof. by destruct s. Qed.

Lemma state_permits_move_true s :
  state_permits_move s = true ↔
  s = COMPARTMENT_STATE_STARTING ∨ s = COMPARTMENT_STATE_BOOTING
  ∨ s = COMPARTMENT_STATE_RUNNING.
Proof. destruct s; vm_compute; split; intros; try done; tauto || (destruct_or!; done). Qed.

(** C3. When the container an interface is to be moved to (the
    container of the mapping with the MAC of the interface, else c0) is
    not starting, booting or running, [hotplug_netdev_move] returns -1,
    leaves the state as it was, and does nothing but warn: no rename, no
    move request and no uevent injection appear in the trace.  The
    debounce timer that called it (for a wifi interface: once sysfs
    shows it as wireless) warns a second time and cancels itself, so
    the uevent is dropped. *)
Theorem C3_move_refused_unless_running w event st container :
  netdev_move_target w event st = Some container →
  container_get_state w container ≠ COMPARTMENT_STATE_STARTING →
  container_get_state w container ≠ COMPARTMENT_STATE_BOOTING →
  container_get_state w container ≠ COMPARTMENT_STATE_RUNNING →
  hotplug_netdev_move uevent_replace_member w event st
  = Some (-1, st, [Log LOG_WARN "Target container '%s' is not running, skip moving %s"])
  ∧ ∀ timer,
      String.eqb (ev_devtype event) "wlan"
      && negb (network_interface_is_wifi w (ev_interface event)) = false →
      hotplug_sysfs_netif_timer_cb uevent_replace_member w timer event st
      = Some (tt, set_timers (delete timer) st,
              [Log LOG_WARN "Target container '%s' is not running, skip moving %s";
               Log LOG_WARN "Did not move net interface!"]).
Proof.
  intros Htarget Hs Hb Hr.
  pose proof (state_permits_move_false _ Hs Hb Hr) as Hperm.
  assert (Hmove : hotplug_netdev_move uevent_replace_member w event st
    = Some (-1, st, [Log LOG_WARN "Target container '%s' is not running, skip moving %s"])).
  { unfold netdev_move_target in Htarget. unfold hotplug_netdev_move.
    destruct (network_get_mac_by_ifname w (ev_interface event)) as [iface_mac|]; [|done].
    unfold mbind, M_bind, get.
    destruct (netdev_mapping_lookup iface_mac (hotplug_container_netdev_mapping_list st))
      as [mapping|].
    - injection Htarget as <-. unfold netdev_move_to. by rewrite Hperm.
    - rewrite Htarget. unfold netdev_move_to, container_pnet_cfg_new. rewrite Hperm. simpl.
      unfold mbind, M_bind, log, call. by rewrite netdev_move_error_ephemeral. }
  split; [exact Hmove|].
  intros timer Hready. unfold hotplug_sysfs_netif_timer_cb. rewrite Hready.
  unfold mbind, M_bind. by rewrite Hmove.
Qed.

(** [netdev_move_to] on a target that permits moves: the rename is
    attempted, exactly one move is requested, and what follows depends
    on the answer of the network module and on the MAC filter flag. *)
Lemma netdev_move_to_run w event container pnet_cfg pnet_cfg_c0 cfg st :
  state_permits_move (container_get_state w container) = true →
  pnet_cfgs st !! pnet_cfg = Some cfg →
  pnet_cfg_c0 = None ∨ pnet_cfg_c0 = Some pnet_cfg →
  ∃ newevent tr1 r st' tr,
    hotplug_rename_interface uevent_replace_member w event st
    = Some (newevent, advance_idx (rename_prefix event) st, tr1)
    ∧ netdev_move_to uevent_replace_member w event (Some container) pnet_cfg pnet_cfg_c0 st
      = Some (r, st', tr)
    ∧ move_frame pnet_cfg_c0 st st'
    ∧ List.filter is_add_net_iface tr
      = [Call_cmld_container_add_net_iface container pnet_cfg false]
    ∧ if bool_decide (cmld_container_add_net_iface w container pnet_cfg false ≠ 0)
      then r = -1 ∧ injections tr = []
      else r = 0
           ∧ pnet_cfgs st' !! pnet_cfg
             = Some {| pnet_name := match newevent with
                                    | Some ne => ev_interface ne
                                    | None => pnet_name cfg
                                    end;
                       mac_filter := mac_filter cfg;
                       mac_whitelist := mac_whitelist cfg |}
           ∧ injections tr
             = if mac_filter cfg then []
               else [Call_uevent_event_inject_into_netns (default event newevent)
                       (container_get_pid w container) (container_has_userns w container)].
Proof.
  intros Hperm Hcfg Hc0.
  destruct (hotplug_rename_interface_run uevent_replace_member w event st)
    as (newevent & tr1 & [Hq1 Hq2] & Hrun).
  pose proof (Hrun (λ h, h)) as Hrun0. rewrite !set_pnet_cfgs_id in Hrun0.
  exists newevent, tr1.
  unfold netdev_move_to. rewrite Hperm. cbn [negb].
  unfold mbind at 1, M_bind at 1. rewrite Hrun0.
  assert (Hcfg1 : pnet_cfgs (advance_idx (rename_prefix event) st) !! pnet_cfg = Some cfg)
    by by rewrite advance_idx_pnet_cfgs.
  pose proof (move_frame_advance pnet_cfg_c0 (rename_prefix event) st) as Hframe.
  generalize dependent (advance_idx (rename_prefix event) st). intros st1 _ _ Hcfg1 Hframe.
  unfold injections in *. destruct cfg as [name filter whitelist]. cbn [mac_filter].
  destruct newevent as [ne|];
    destruct (bool_decide (cmld_container_add_net_iface w container pnet_cfg false ≠ 0));
    destruct filter eqn:Hfilter;
    destruct Hc0 as [-> | ->];
    repeat (progress (unfold mbind, M_bind, container_pnet_cfg_set_pnet_name, log, call,
                        pnet_cfg_load, netdev_move_error, pnet_cfg_free;
                      cbn; rewrite ?Hcfg1, ?lookup_insert_eq, ?Hfilter));
    try (destruct (uevent_event_inject_into_netns w _ _ _ <? 0); cbn);
    eexists _, _, _; (split; [reflexivity|]); (split; [reflexivity|]);
    (split; [eauto 6 using move_frame_trans, move_frame_insert, move_frame_delete|]);
    rewrite !List.filter_app, ?Hq1, ?Hq2; cbn; rewrite ?lookup_insert_eq, ?Hcfg1;
    done.
Qed.

Lemma netdev_mapping_lookup_None iface_mac l :
  (∀ m, m ∈ l → nm_mac m ≠ iface_mac) → netdev_mapping_lookup iface_mac l = None.
Proof.
  intros Hne. unfold netdev_mapping_lookup. induction l as [|m l IH]; [done|].
  cbn. case_bool_decide as Heq.
  - destruct (Hne m); [left|done].
  - apply IH. intros m' Hm'. apply Hne. by right.
Qed.

(** C6. An interface whose MAC is in no mapping of the net registry goes
    to the default container: when c0 exists and is starting, booting or
    running, [hotplug_netdev_move] allocates a fresh configuration (not
    in the heap before), requests exactly one move, into c0 under that
    configuration, and returns 0 exactly when the network module
    accepts the move; then the configuration carries the name of the
    interface after the rename, has no MAC filter and no whitelist, and
    the uevent is injected into the net namespace of c0. *)
Theorem C6_unmapped_interface_moves_to_c0 w event st iface_mac c0 :
  network_get_mac_by_ifname w (ev_interface event) = Some iface_mac →
  (∀ m, m ∈ hotplug_container_netdev_mapping_list st → nm_mac m ≠ iface_mac) →
  cmld_containers_get_c0 w = Some c0 →
  container_get_state w c0 = COMPARTMENT_STATE_STARTING
  ∨ container_get_state w c0 = COMPARTMENT_STATE_BOOTING
  ∨ container_get_state w c0 = COMPARTMENT_STATE_RUNNING →
  ∃ r st' tr pnet_cfg_c0,
    hotplug_netdev_move uevent_replace_member w event st = Some (r, st', tr)
    ∧ pnet_cfgs st !! pnet_cfg_c0 = None
    ∧ List.filter is_add_net_iface tr
      = [Call_cmld_container_add_net_iface c0 pnet_cfg_c0 false]
    ∧ (r = 0 ↔ cmld_container_add_net_iface w c0 pnet_cfg_c0 false = 0)
    ∧ (r = 0 →
       pnet_cfgs st' !! pnet_cfg_c0
       = Some {| pnet_name := ev_interface (renamed_event uevent_replace_member w event st);
                 mac_filter := false; mac_whitelist := [] |}
       ∧ injections tr
         = [Call_uevent_event_inject_into_netns
              (renamed_event uevent_replace_member w event st)
              (container_get_pid w c0) (container_has_userns w c0)]).
Proof.
  intros Hmac Hnone Hc0 Hstate.
  apply netdev_mapping_lookup_None in Hnone. apply state_permits_move_true in Hstate.
  set (l := fresh (dom (pnet_cfgs st))).
  set (st0 := set_pnet_cfgs (insert l (mk_pnet_cfg (ev_interface event) false [])) st).
  destruct (netdev_move_to_run w event c0 l (Some l)
              (mk_pnet_cfg (ev_interface event) false []) st0 Hstate)
    as (newevent & tr1 & r & st' & tr & Hren & Hrun & _ & Hadd & Hres).
  { subst st0. cbn. apply lookup_insert_eq. }
  { by right. }
  assert (Hev : renamed_event uevent_replace_member w event st = default event newevent).
  { unfold renamed_event.
    destruct (hotplug_rename_interface_run uevent_replace_member w event st)
      as (r0 & tr0 & _ & Hrun0).
    pose proof (Hrun0 (λ h, h)) as H1. rewrite !set_pnet_cfgs_id in H1.
    pose proof (Hrun0 (insert l (mk_pnet_cfg (ev_interface event) false []))) as H2.
    fold st0 in H2. rewrite H2 in Hren. injection Hren as -> _ _.
    rewrite H1. by destruct newevent. }
  exists r, st', tr, l. split; [|split; [|split; [|split]]].
  - unfold hotplug_netdev_move. rewrite Hmac. unfold mbind at 1, M_bind at 1, get.
    rewrite Hnone. unfold mbind, M_bind, container_pnet_cfg_new. fold l st0.
    rewrite Hc0, Hrun. by rewrite app_nil_l.
  - apply fresh_pnet_cfg_None.
  - done.
  - case_bool_decide as Hmove; [destruct Hres as [-> _]|destruct Hres as [-> _]].
    + split; [done|]. intros. done.
    + split; [|done]. intros _. lia.
  - intros ->. case_bool_decide as Hmove; [by destruct Hres|].
    destruct Hres as (_ & Hcfg & Hinj). cbn in Hcfg, Hinj. rewrite Hev, Hcfg, Hinj.
    by destruct newevent.
Qed.

(** C7. An interface that is moved into the container of its mapping:
    when the target permits moves and the network module accepts the
    move, [hotplug_netdev_move] returns 0, and the uevent (the renamed
    copy when the rename succeeded) is injected into the net namespace
    of the target exactly when the configuration of the mapping has no
    MAC filter; with the MAC filter set nothing is injected. *)
Theorem C7_reinjection_iff_not_mac_filtered w event st iface_mac mapping cfg :
  network_get_mac_by_ifname w (ev_interface event) = Some iface_mac →
  netdev_mapping_lookup iface_mac (hotplug_container_netdev_mapping_list st) = Some mapping →
  pnet_cfgs st !! nm_pnet_cfg mapping = Some cfg →
  state_permits_move (container_get_state w (nm_container mapping)) = true →
  cmld_container_add_net_iface w (nm_container mapping) (nm_pnet_cfg mapping) false = 0 →
  ∃ st' tr,
    hotplug_netdev_move uevent_replace_member w event st = Some (0, st', tr)
    ∧ List.filter is_add_net_iface tr
      = [Call_cmld_container_add_net_iface (nm_container mapping) (nm_pnet_cfg mapping) false]
    ∧ injections tr
      = if mac_filter cfg then []
        else [Call_uevent_event_inject_into_netns
                (renamed_event uevent_replace_member w event st)
                (container_get_pid w (nm_container mapping))
                (container_has_userns w (nm_container mapping))].
Proof.
  intros Hmac Hfound Hcfg Hstate Hmove.
  destruct (netdev_move_to_run w event (nm_container mapping) (nm_pnet_cfg mapping) None
              cfg st Hstate Hcfg)
    as (newevent & tr1 & r & st' & tr & Hren & Hrun & _ & Hadd & Hres); [by left|].
  rewrite bool_decide_eq_false_2 in Hres by (intros Hne; by apply Hne).
  destruct Hres as (-> & _ & Hinj).
  exists st', tr. split; [|split; [done|]].
  - unfold hotplug_netdev_move. rewrite Hmac. unfold mbind, M_bind, get.
    rewrite Hfound, Hrun. by rewrite app_nil_l.
  - rewrite Hinj. unfold renamed_event. rewrite Hren. by destruct newevent.
Qed.

End net_properties.

(** ** The USB registry and the USB handler *)

Lemma enrich_matches event serial u :
  usb_mapping_matches event serial (enrich event u) = usb_mapping_matches event serial u.
Proof. done. Qed.

Lemma enrich_idemp event u : enrich event (enrich event u) = enrich event u.
Proof. done. Qed.

Lemma usb_frame_refl st : usb_frame st st.
Proof. done. Qed.

Lemma usb_frame_trans st1 st2 st3 : usb_frame st1 st2 → usb_frame st2 st3 → usb_frame st1 st3.
Proof. unfold usb_frame. intros (?&?&?&?&?&?) (?&?&?&?&?&?). repeat split; congruence. Qed.

Lemma enriched_from_refl event serial st : enriched_from event serial st st.
Proof. intros l u ?. by left. Qed.

Lemma enriched_from_trans event serial st1 st2 st3 :
  enriched_from event serial st1 st2 → enriched_from event serial st2 st3 →
  enriched_from event serial st1 st3.
Proof.
  intros H12 H23 l u Hl. destruct (H12 l u Hl) as [H2|[Hm H2]].
  - apply H23, H2.
  - destruct (H23 _ _ H2) as [H3|[_ H3]]; right; split; try done.
Qed.

(** A record that has been enriched stays enriched. *)
Lemma enriched_from_keeps event serial st st' l u :
  enriched_from event serial st st' →
  usbdevs st !! l = Some (enrich event u) → usbdevs st' !! l = Some (enrich event u).
Proof.
  intros H Hl. destruct (H _ _ Hl) as [?|[_ ?]]; [done|]. by rewrite enrich_idemp in *.
Qed.

Lemma enriched_from_valid event serial st st' l :
  enriched_from event serial st st' →
  is_Some (usbdevs st !! l) → is_Some (usbdevs st' !! l).
Proof. intros H [u Hu]. destruct (H _ _ Hu) as [?|[_ ?]]; eauto. Qed.

(** One iteration of the add loop on a mapping whose record is [u]. *)
Lemma usb_add_mapping_run event serial m u st :
  usbdevs st !! dm_usbdev m = Some u →
  ∃ st' tr,
    usb_add_mapping event serial m st = Some (tt, st', tr)
    ∧ usb_frame st st'
    ∧ usbdevs st'
      = (if usb_mapping_matches event serial u
         then <[dm_usbdev m := enrich event u]> (usbdevs st) else usbdevs st)
    ∧ device_allows tr
      = (if usb_mapping_matches event serial u then [allow_of_mapping event m] else [])
    ∧ timers st'
      = (if usb_mapping_matches event serial u
            && bool_decide (type u = HOTPLUG_USBDEV_TYPE_TOKEN)
         then <[fresh (dom (timers st)) :=
                  {| timer_timeout := 100; timer_repeats := EVENT_TIMER_REPEAT_FOREVER;
                     timer_cb := token_timer_closure
                       {| td_container := dm_container m;
                          td_devname := token_devname event |} |}]> (timers st)
         else timers st).
Proof.
  intros Hu. unfold usb_add_mapping, mbind, M_bind, log, call, usbdev_load, usbdev_store,
    event_add_timer.
  rewrite Hu. destruct (usb_mapping_matches event serial u); [|by eexists _, _].
  cbn. rewrite Hu. destruct (bool_decide (type u = HOTPLUG_USBDEV_TYPE_TOKEN));
    by eexists _, _.
Qed.

(** The add loop over a list of mappings with allocated records. *)
Lemma usb_add_loop_run event serial (l : list hotplug_container_dev_mapping) st :
  (∀ m, m ∈ l → is_Some (usbdevs st !! dm_usbdev m)) →
  ∃ st' tr,
    foreach (usb_add_mapping event serial) l st = Some (tt, st', tr)
    ∧ usb_frame st st'
    ∧ enriched_from event serial st st'
    ∧ (∀ m u, m ∈ l → usbdevs st !! dm_usbdev m = Some u →
              usb_mapping_matches event serial u = true →
              usbdevs st' !! dm_usbdev m = Some (enrich event u))
    ∧ device_allows tr
      = allow_of_mapping event <$> List.filter (mapping_matches st event serial) l.
Proof.
  revert st. induction l as [|m l IH]; intros st Hvalid.
  { exists st, []. split; [done|]. split; [done|]. split; [apply enriched_from_refl|].
    split; [|done]. intros m u Hm. by apply elem_of_nil in Hm. }
  destruct (Hvalid m) as [u Hu]; [by left|].
  destruct (usb_add_mapping_run event serial m u st Hu)
    as (st1 & tr1 & Hrun1 & Hframe1 & Hheap1 & Hallow1 & _).
  assert (Hstep : enriched_from event serial st st1).
  { intros l0 u0 Hl0. rewrite Hheap1.
    destruct (usb_mapping_matches event serial u) eqn:Hm; [|by left].
    destruct (decide (l0 = dm_usbdev m)) as [->|Hne].
    - right. rewrite lookup_insert_eq. by simplify_eq.
    - left. by rewrite lookup_insert_ne. }
  destruct (IH st1) as (st' & tr & Hrun & Hframe & Hrest & Hdone & Hallow).
  { intros m' Hm'. eapply enriched_from_valid; [done|]. apply Hvalid. by right. }
  exists st', (tr1 ++ tr). split; [|split; [|split; [|split]]].
  - cbn. unfold_bind. by rewrite Hrun1, Hrun.
  - by eapply usb_frame_trans.
  - by eapply enriched_from_trans.
  - intros m' u' Hm' Hu' Hmatch. apply elem_of_cons in Hm' as [->|Hm'].
    + eapply enriched_from_keeps; [done|]. rewrite Hheap1.
      assert (u' = u) as -> by congruence. by rewrite Hmatch, lookup_insert_eq.
    + destruct (Hstep _ _ Hu') as [Hsame|[_ Hen]].
      * by apply Hdone.
      * by eapply enriched_from_keeps.
  - unfold device_allows in *. rewrite List.filter_app, Hallow1, Hallow. cbn.
    unfold mapping_matches at 2, mapping_usbdev. rewrite Hu.
    assert (Hsame : List.filter (mapping_matches st1 event serial) l
                    = List.filter (mapping_matches st event serial) l).
    { apply List.filter_ext_in. intros m' Hin. unfold mapping_matches, mapping_usbdev.
      destruct (Hvalid m') as [u' Hu']; [right; by apply list_elem_of_In|].
      rewrite Hu'. destruct (Hstep _ _ Hu') as [->|[Hm ->]]; [done|].
      by rewrite enrich_matches. }
    rewrite Hsame. by destruct (usb_mapping_matches event serial u).
Qed.

(** One iteration of the remove loop, in closed form: the state is not
    touched. *)
Lemma usb_remove_mapping_run event m u st :
  usbdevs st !! dm_usbdev m = Some u →
  usb_remove_mapping event m st
  = Some (tt, st,
          if (ev_major event =? major u) && (ev_minor event =? minor u) then
            (if bool_decide (type u = HOTPLUG_USBDEV_TYPE_TOKEN)
             then [Log LOG_INFO "HOTPLUG USB TOKEN removed";
                   Call_container_token_detach (dm_container m)]
             else [Call_container_device_deny (dm_container m) "c" (major u) (minor u)])
            ++ [Log LOG_INFO
                  "Denied access to unbound device node %d:%d mapped in container %s"]
          else []).
Proof.
  intros Hu. unfold usb_remove_mapping, mbind, M_bind, log, call, usbdev_load.
  rewrite Hu. destruct ((ev_major event =? major u) && (ev_minor event =? minor u)); [|done].
  by destruct (bool_decide (type u = HOTPLUG_USBDEV_TYPE_TOKEN)).
Qed.

(** The remove loop is defined on valid mappings, leaves the state as
    it is and issues no allow. *)
Lemma usb_remove_loop_run event (l : list hotplug_container_dev_mapping) st :
  (∀ m, m ∈ l → is_Some (usbdevs st !! dm_usbdev m)) →
  ∃ tr, foreach (usb_remove_mapping event) l st = Some (tt, st, tr)
        ∧ device_allows tr = [].
Proof.
  induction l as [|m l IH]; intros Hvalid; [by exists []|].
  destruct (Hvalid m) as [u Hu]; [by left|].
  destruct IH as (tr & Hrun & Hallow); [intros; apply Hvalid; by right|].
  eexists. cbn. unfold_bind.
  rewrite (usb_remove_mapping_run _ _ _ _ Hu), Hrun. split; [done|].
  unfold device_allows in *. rewrite List.filter_app, Hallow.
  destruct ((ev_major event =? major u) && (ev_minor event =? minor u)); [|done].
  by destruct (bool_decide (type u = HOTPLUG_USBDEV_TYPE_TOKEN)).
Qed.

(** What the remove loop calls: a deny for every mapping of kind
    generic with the major and minor of the event, a token detach for
    every such mapping of kind token, in registry order. *)
Lemma usb_remove_loop_calls event (l : list hotplug_container_dev_mapping) st :
  (∀ m, m ∈ l → is_Some (usbdevs st !! dm_usbdev m)) →
  ∃ tr, foreach (usb_remove_mapping event) l st = Some (tt, st, tr)
        ∧ List.filter is_device_deny tr
          = (λ m, Call_container_device_deny (dm_container m) "c"
                    (ev_major event) (ev_minor event))
            <$> List.filter (λ m, mapping_removed st event m && negb (mapping_is_token st m)) l
        ∧ List.filter is_token_detach tr
          = (λ m, Call_container_token_detach (dm_container m))
            <$> List.filter (λ m, mapping_removed st event m && mapping_is_token st m) l.
Proof.
  induction l as [|m l IH]; intros Hvalid; [by exists []|].
  destruct (Hvalid m) as [u Hu]; [by left|].
  destruct IH as (tr & Hrun & Hdeny & Hdetach); [intros; apply Hvalid; by right|].
  eexists. cbn [foreach]. unfold_bind.
  rewrite (usb_remove_mapping_run _ _ _ _ Hu), Hrun. split; [done|].
  assert (Hrm : mapping_removed st event m
                = (ev_major event =? major u) && (ev_minor event =? minor u))
    by (unfold mapping_removed, mapping_usbdev; by rewrite Hu).
  assert (Htk : mapping_is_token st m = bool_decide (type u = HOTPLUG_USBDEV_TYPE_TOKEN))
    by (unfold mapping_is_token, mapping_usbdev; by rewrite Hu).
  rewrite !List.filter_app, Hdeny, Hdetach. cbn [List.filter]. rewrite Hrm, Htk.
  destruct ((ev_major event =? major u) && (ev_minor event =? minor u)) eqn:Hrem; [|done].
  apply andb_true_iff in Hrem as [Hmaj Hmin].
  apply Z.eqb_eq in Hmaj, Hmin. rewrite <- Hmaj, <- Hmin.
  by destruct (bool_decide (type u = HOTPLUG_USBDEV_TYPE_TOKEN)).
Qed.

(** *** The token timer *)

(** The callback with the counter used up: the timer is cancelled,
    whether the device node exists or not. *)
Lemma hotplug_token_timer_cb_exhausted w timer data st :
  retries st < 0 →
  hotplug_token_timer_cb w timer data st
  = Some (tt, set_timers (delete timer) (set_retries (int_wrap (retries st - 1)) st), []).
Proof.
  intros Hr. unfold hotplug_token_timer_cb, mbind, M_bind, get, modify, event_remove_timer.
  by replace (0 >? retries st) with true by lia.
Qed.

(** The callback with the counter not used up and no device node: the
    timer stays. *)
Lemma hotplug_token_timer_cb_waits w timer data st :
  0 ≤ retries st → file_exists w (td_devname data) = false →
  hotplug_token_timer_cb w timer data st
  = Some (tt, set_retries (int_wrap (retries st - 1)) st, []).
Proof.
  intros Hr Hnode. unfold hotplug_token_timer_cb, mbind, M_bind, get, modify.
  replace (0 >? retries st) with false by lia. by rewrite Hnode.
Qed.

(** The callback with the counter not used up and the device node in
    place: the token is attached and the timer is cancelled. *)
Lemma hotplug_token_timer_cb_attaches w timer data st :
  0 ≤ retries st → file_exists w (td_devname data) = true →
  hotplug_token_timer_cb w timer data st
  = Some (tt, set_timers (delete timer) (set_retries (int_wrap (retries st - 1)) st),
          [Call_container_token_attach (td_container data);
           Log LOG_INFO "Processed token attachment of token %s for container %s"]).
Proof.
  intros Hr Hnode. unfold hotplug_token_timer_cb, mbind, M_bind, get, modify, log, call,
    event_remove_timer.
  replace (0 >? retries st) with false by lia. by rewrite Hnode.
Qed.

(** Once the counter is used up it stays used up (for the next 2^31
    ticks): no later token timer ever attaches. *)
Lemma hotplug_token_timer_cb_stays_exhausted w timer data st r st' tr :
  - 2 ^ 31 < retries st < 0 →
  hotplug_token_timer_cb w timer data st = Some (r, st', tr) →
  retries st' = retries st - 1 ∧ List.filter is_token_attach tr = [].
Proof.
  intros Hr. rewrite hotplug_token_timer_cb_exhausted by lia. intros [= _ <- <-].
  split; [|done]. cbn. unfold int_wrap. rewrite Z.mod_small; lia.
Qed.

Section usb_properties.

Variable UEVENT_ACTION_ADD : Z.
Variable UEVENT_ACTION_REMOVE : Z.

(** C1. A USB add uevent (subsystem [usb], devtype [usb_device]) whose
    serial was read from sysfs, handled in a state whose mappings have
    allocated records: the handler is defined and returns [false]; every
    mapping whose vendor id, product id and serial equal those of the
    event ends up with the (major, minor) of the event in its record; and
    the allows in the trace are, in registry order, exactly one per
    matching mapping, each on the container of its mapping for the
    character device (major, minor) of the event, and none for any other
    mapping. *)
Theorem C1_usb_add_enriches_and_allows_once w actions event serial st :
  dev_mappings_valid st →
  ev_subsystem event = "usb" →
  ev_devtype event = "usb_device" →
  Z.land actions UEVENT_ACTION_ADD ≠ 0 →
  usb_read_serial w event = Some serial →
  ∃ st' tr,
    hotplug_handle_usb_device UEVENT_ACTION_ADD UEVENT_ACTION_REMOVE w actions event st
    = Some (false, st', tr)
    ∧ hotplug_container_dev_mapping_list st' = hotplug_container_dev_mapping_list st
    ∧ (∀ m u, m ∈ hotplug_container_dev_mapping_list st →
              mapping_usbdev st m = Some u →
              id_vendor u = ev_usb_vendor event →
              id_product u = ev_usb_product event →
              i_serial u = serial →
              ∃ u', mapping_usbdev st' m = Some u'
                    ∧ major u' = ev_major event ∧ minor u' = ev_minor event
                    ∧ u' = enrich event u)
    ∧ device_allows tr
      = allow_of_mapping event
        <$> List.filter (mapping_matches st event serial)
              (hotplug_container_dev_mapping_list st).
Proof.
  intros Hvalid Hsub Hdev Hadd Hserial.
  unfold hotplug_handle_usb_device. rewrite Hsub, Hdev. cbn [String.prefix negb orb].
  replace (String.prefix "usb" "usb") with true by done.
  replace (String.prefix "usb_device" "usb_device") with true by done.
  cbn [negb orb]. rewrite (bool_decide_eq_true_2 _ Hadd), Hserial.
  destruct (usb_remove_loop_run event (hotplug_container_dev_mapping_list st) st Hvalid)
    as (tr0 & Hrun0 & Hallow0).
  destruct (usb_add_loop_run event serial (hotplug_container_dev_mapping_list st) st Hvalid)
    as (st' & tr & Hrun & Hframe & _ & Hdone & Hallow).
  exists st'.
  exists ((if bool_decide (Z.land actions UEVENT_ACTION_REMOVE ≠ 0) then tr0 else [])
          ++ tr ++ []).
  split; [|split; [|split]].
  - unfold mbind, M_bind, get.
    destruct (bool_decide (Z.land actions UEVENT_ACTION_REMOVE ≠ 0));
      cbn; rewrite ?Hrun0; cbn; by rewrite Hrun.
  - apply Hframe.
  - intros m u Hm Hu Hv Hp Hs. exists (enrich event u). split; [|done].
    apply Hdone; [done..|]. unfold usb_mapping_matches.
    rewrite Hv, Hp, Hs, !Z.eqb_refl. by rewrite String.eqb_refl.
  - unfold device_allows in *. rewrite !List.filter_app, Hallow. cbn.
    destruct (bool_decide (Z.land actions UEVENT_ACTION_REMOVE ≠ 0));
      by rewrite ?Hallow0, app_nil_r.
Qed.

(** On valid mappings the USB handler is defined and returns [false];
    it keeps the registry and the rest of the state but the records and
    the timers; the records change only by the add loop, run with the
    serial read from sysfs. *)
Lemma hotplug_handle_usb_device_run w actions event st :
  dev_mappings_valid st →
  ∃ st' tr,
    hotplug_handle_usb_device UEVENT_ACTION_ADD UEVENT_ACTION_REMOVE w actions event st
    = Some (false, st', tr)
    ∧ usb_frame st st'
    ∧ ∃ serial, enriched_from event serial st st'
                ∧ (usbdevs st' = usbdevs st
                   ∨ (Z.land actions UEVENT_ACTION_ADD ≠ 0
                      ∧ usb_read_serial w event = Some serial)).
Proof.
  intros Hv. unfold hotplug_handle_usb_device.
  destruct (negb (String.prefix "usb" (ev_subsystem event))
            || negb (String.prefix "usb_device" (ev_devtype event))).
  { exists st, []. split; [done|]. split; [done|]. exists "".
    split; [apply enriched_from_refl|by left]. }
  destruct (usb_remove_loop_run event (hotplug_container_dev_mapping_list st) st Hv)
    as (tr0 & Hrun0 & _).
  assert (Hrem : ∃ tr0',
    (if bool_decide (Z.land actions UEVENT_ACTION_REMOVE ≠ 0)
     then st0 ← get; foreach (usb_remove_mapping event) (hotplug_container_dev_mapping_list st0)
     else mret tt) st = Some (tt, st, tr0')).
  { destruct (bool_decide (Z.land actions UEVENT_ACTION_REMOVE ≠ 0)); [|by exists []].
    exists tr0. unfold mbind, M_bind, get. cbn. by rewrite Hrun0. }
  destruct Hrem as (tr0' & Hrem).
  unfold mbind at 1, M_bind at 1. rewrite Hrem.
  destruct (bool_decide (Z.land actions UEVENT_ACTION_ADD ≠ 0)) eqn:Hadd.
  2:{ eexists st, _. split; [reflexivity|]. split; [done|].
      exists "". split; [apply enriched_from_refl|by left]. }
  apply bool_decide_eq_true in Hadd.
  destruct (usb_read_serial w event) as [serial|].
  2:{ eexists st, _. split; [reflexivity|]. split; [done|].
      exists "". split; [apply enriched_from_refl|by left]. }
  destruct (usb_add_loop_run event serial (hotplug_container_dev_mapping_list st) st Hv)
    as (st' & tr & Hrun & Hframe & Hen & _).
  eexists st', _. split; [|split; [done|exists serial; split; [done|by right]]].
  unfold mbind, M_bind, get. cbn. by rewrite Hrun.
Qed.



(** *** Registration *)

(** [hotplug_register_usbdevice] in closed form: the caller's record is
    copied to a fresh location and the mapping is appended. *)
Lemma hotplug_register_usbdevice_run container usbdev u st :
  usbdevs st !! usbdev = Some u →
  let copy := fresh (dom (usbdevs st)) in
  hotplug_register_usbdevice container usbdev st
  = Some (0,
          set_dev_mapping_list
            (λ l, l ++ [{| dm_container := container; dm_usbdev := copy;
                           dm_assign := false |}])
            (set_usbdevs (insert copy u) st),
          [Log LOG_INFO "Registered usbdevice %04x:%04x '%s' [c %d:%d] for container %s"]).
Proof.
  intros Hu. unfold hotplug_register_usbdevice, hotplug_container_dev_mapping_new,
    mbind, M_bind, usbdev_load, usbdev_alloc, modify, log, call.
  rewrite Hu. destruct u. reflexivity.
Qed.

Lemma hotplug_usbdev_set_major_run usbdev u v st :
  usbdevs st !! usbdev = Some u →
  hotplug_usbdev_set_major usbdev v st
  = Some (tt, set_usbdevs (insert usbdev (with_major u v)) st, []).
Proof.
  intros Hu. unfold hotplug_usbdev_set_major, mbind, M_bind, usbdev_load, usbdev_store.
  rewrite Hu. cbn. by rewrite Hu.
Qed.

Lemma hotplug_usbdev_set_minor_run usbdev u v st :
  usbdevs st !! usbdev = Some u →
  hotplug_usbdev_set_minor usbdev v st
  = Some (tt, set_usbdevs (insert usbdev (with_minor u v)) st, []).
Proof.
  intros Hu. unfold hotplug_usbdev_set_minor, mbind, M_bind, usbdev_load, usbdev_store.
  rewrite Hu. cbn. by rewrite Hu.
Qed.

(** The remove loop reads nothing but the records of the mappings it
    runs over: on heaps that agree there, it produces the same trace. *)
Lemma usb_remove_loop_agree event (l : list hotplug_container_dev_mapping) st st' tr :
  (∀ m, m ∈ l → is_Some (usbdevs st !! dm_usbdev m)) →
  (∀ m, m ∈ l → usbdevs st' !! dm_usbdev m = usbdevs st !! dm_usbdev m) →
  foreach (usb_remove_mapping event) l st = Some (tt, st, tr) →
  foreach (usb_remove_mapping event) l st' = Some (tt, st', tr).
Proof.
  revert tr. induction l as [|m l IH]; intros tr Hvalid Hagree Hrun.
  { change (Some (tt, st, @nil effect) = Some (tt, st, tr)) in Hrun.
    injection Hrun as <-. reflexivity. }
  destruct (Hvalid m) as [u Hu]; [by left|].
  assert (Hu' : usbdevs st' !! dm_usbdev m = Some u) by (rewrite Hagree; [done|by left]).
  destruct (usb_remove_loop_run event l st) as (tr2 & Hrun2 & _);
    [intros; apply Hvalid; by right|].
  cbn in *. unfold mbind, M_bind in *.
  rewrite (usb_remove_mapping_run _ _ _ _ Hu), Hrun2 in Hrun. injection Hrun as <-.
  rewrite (usb_remove_mapping_run _ _ _ _ Hu').
  rewrite (IH tr2); [done|intros; apply Hvalid; by right|intros; apply Hagree; by right|done].
Qed.

End usb_properties.

(** ** Invariants of the registries *)

Lemma net_frame_refl st : net_frame st st.
Proof. done. Qed.

Lemma net_frame_trans st1 st2 st3 : net_frame st1 st2 → net_frame st2 st3 → net_frame st1 st3.
Proof.
  intros (?&?&?&Hp1) (?&?&?&Hp2). repeat split; try congruence.
  intros l Hl. by apply Hp2, Hp1.
Qed.

Lemma net_frame_wf st st' : net_frame st st' → wf st → wf st'.
Proof.
  intros (Hu & Hd & Hn & Hp) (Hv & Hnd & Hnv). unfold wf, dev_mappings_valid,
    netdev_mappings_valid. rewrite Hu, Hd, Hn. repeat split; try done.
  intros m Hm. by apply Hp, Hnv.
Qed.

Lemma net_frame_tokens st st' : net_frame st st' → tokens_preserved st st'.
Proof. intros (Hu & Hd & _). split; [done|]. intros m u' _. rewrite Hu. eauto. Qed.

Lemma tokens_preserved_holds st st' c serial :
  tokens_preserved st st' → holds_token st' c serial → holds_token st c serial.
Proof.
  intros [Hl Hrec] (m & u' & Hm & Hu' & Hc & Hty & Hser). rewrite Hl in Hm.
  destruct (Hrec m u' Hm Hu') as (u & Hu & Hty' & Hser').
  exists m, u. repeat split; try done; congruence.
Qed.

Lemma tokens_preserved_exclusive st st' :
  tokens_preserved st st' → token_serial_exclusive st → token_serial_exclusive st'.
Proof.
  intros Hpres Hex c1 c2 serial H1 H2.
  eapply Hex; eapply tokens_preserved_holds; eauto.
Qed.

(** *** Allocation and stores in the usbdev heap *)

Lemma wf_usbdev_insert l u st :
  wf st → wf (set_usbdevs (insert l u) st).
Proof.
  intros (Hv & Hnd & Hnv). repeat split; try done.
  intros m Hm. cbn. destruct (decide (l = dm_usbdev m)) as [->|Hne].
  - rewrite lookup_insert_eq. eauto.
  - rewrite lookup_insert_ne by done. by apply Hv.
Qed.

Lemma tokens_preserved_alloc u st :
  dev_mappings_valid st →
  tokens_preserved st (set_usbdevs (insert (fresh (dom (usbdevs st))) u) st).
Proof.
  intros Hv. split; [done|]. intros m u' Hm. cbn.
  destruct (Hv m Hm) as [u0 Hu0].
  rewrite lookup_insert_ne; [eauto|].
  intros Heq. pose proof (fresh_usbdev_None st) as Hf. rewrite Heq in Hf. congruence.
Qed.

Lemma tokens_preserved_store l u u0 st :
  usbdevs st !! l = Some u0 → type u = type u0 → i_serial u = i_serial u0 →
  tokens_preserved st (set_usbdevs (insert l u) st).
Proof.
  intros Hl Hty Hser. split; [done|]. intros m u' Hm. cbn.
  destruct (decide (l = dm_usbdev m)) as [->|Hne].
  - rewrite lookup_insert_eq. intros [= <-]. eauto.
  - rewrite lookup_insert_ne by done. eauto.
Qed.

(** *** Registration of a USB mapping *)

Lemma wf_register container u st :
  wf st →
  wf (set_dev_mapping_list
        (λ l, l ++ [{| dm_container := container; dm_usbdev := fresh (dom (usbdevs st));
                       dm_assign := false |}])
        (set_usbdevs (insert (fresh (dom (usbdevs st))) u) st)).
Proof.
  intros (Hv & Hnd & Hnv). split; [|split; [|done]].
  - intros m Hm. cbn in *. apply elem_of_app in Hm as [Hm|Hm].
    + destruct (decide (fresh (dom (usbdevs st)) = dm_usbdev m)) as [->|Hne].
      * rewrite lookup_insert_eq. eauto.
      * rewrite lookup_insert_ne by done. by apply Hv.
    + apply list_elem_of_singleton in Hm as ->. cbn. rewrite lookup_insert_eq. eauto.
  - cbn. rewrite fmap_app. apply NoDup_app. split; [done|]. split; [|apply NoDup_singleton].
    intros l Hl Hl'. cbn in Hl'. apply list_elem_of_singleton in Hl' as ->.
    apply list_elem_of_fmap in Hl as (m & Heq & Hm).
    destruct (Hv m Hm) as [u0 Hu0]. rewrite <- Heq in Hu0.
    pose proof (fresh_usbdev_None st). congruence.
Qed.

(** After a registration a container holds a token exactly when it held
    it before or the registered record is that token. *)
Lemma holds_token_register container u st c serial :
  dev_mappings_valid st →
  holds_token
    (set_dev_mapping_list
       (λ l, l ++ [{| dm_container := container; dm_usbdev := fresh (dom (usbdevs st));
                      dm_assign := false |}])
       (set_usbdevs (insert (fresh (dom (usbdevs st))) u) st)) c serial
  ↔ holds_token st c serial
    ∨ (c = container ∧ type u = HOTPLUG_USBDEV_TYPE_TOKEN ∧ i_serial u = serial).
Proof.
  intros Hv. set (copy := fresh (dom (usbdevs st))).
  assert (Hother : ∀ m, m ∈ hotplug_container_dev_mapping_list st →
            <[copy:=u]> (usbdevs st) !! dm_usbdev m = usbdevs st !! dm_usbdev m).
  { intros m Hm. destruct (Hv m Hm) as [u0 Hu0]. rewrite lookup_insert_ne; [done|].
    intros Heq. pose proof (fresh_usbdev_None st) as Hf. fold copy in Hf.
    rewrite Heq in Hf. congruence. }
  unfold holds_token, mapping_usbdev. cbn. split.
  - intros (m & u' & Hm & Hu' & Hc & Hty & Hser).
    apply elem_of_app in Hm as [Hm|Hm].
    + left. rewrite Hother in Hu' by done. by exists m, u'.
    + right. apply list_elem_of_singleton in Hm as ->. cbn in *.
      rewrite lookup_insert_eq in Hu'. by simplify_eq.
  - intros [(m & u' & Hm & Hu' & Hc & Hty & Hser)|(-> & Hty & Hser)].
    + exists m, u'. rewrite Hother by done. repeat split; try done.
      apply elem_of_app. by left.
    + eexists _, u. split; [apply elem_of_app; right; by apply list_elem_of_singleton|].
      cbn. by rewrite lookup_insert_eq.
Qed.

(** The registration of a usbdev record, seen on the token sets: the
    exclusivity of token serials survives exactly when the record is
    not a token whose serial another container holds. *)
Lemma token_serial_exclusive_register container u st :
  dev_mappings_valid st →
  token_serial_exclusive st →
  token_serial_exclusive
    (set_dev_mapping_list
       (λ l, l ++ [{| dm_container := container; dm_usbdev := fresh (dom (usbdevs st));
                      dm_assign := false |}])
       (set_usbdevs (insert (fresh (dom (usbdevs st))) u) st))
  ↔ (type u = HOTPLUG_USBDEV_TYPE_TOKEN →
     ∀ c', holds_token st c' (i_serial u) → c' = container).
Proof.
  intros Hv Hex. split.
  - intros Hex' Hty c' Hc'. apply (Hex' c' container (i_serial u)).
    + apply holds_token_register; [done|]. by left.
    + apply holds_token_register; [done|]. by right.
  - intros Hfresh c1 c2 serial H1 H2.
    destruct (proj1 (holds_token_register _ _ _ _ _ Hv) H1) as [H1'|(-> & Hty1 & Hs1)];
      destruct (proj1 (holds_token_register _ _ _ _ _ Hv) H2) as [H2'|(-> & Hty2 & Hs2)].
    + by eapply Hex.
    + subst serial. by apply Hfresh.
    + subst serial. symmetry. by apply Hfresh.
    + done.
Qed.

(** *** Unregistration of a USB mapping *)

Lemma usb_mapping_to_remove_run container u (l : list hotplug_container_dev_mapping)
    pos found st :
  (∀ m, m ∈ l → is_Some (usbdevs st !! dm_usbdev m)) →
  ∃ r, usb_mapping_to_remove container u l pos found st = Some (r, st, [])
       ∧ (r = found ∨ ∃ i m, r = Some ((pos + i)%nat, m) ∧ l !! i = Some m).
Proof.
  revert pos found. induction l as [|m l IH]; intros pos found Hv.
  { exists found. split; [done|by left]. }
  destruct (Hv m) as [um Hum]; [by left|].
  cbn. unfold mbind, M_bind, usbdev_load. rewrite Hum.
  match goal with
  | |- context [usb_mapping_to_remove _ _ _ _ ?f _] => set (found' := f)
  end.
  destruct (IH (S pos) found') as (r & Hrun & Hr); [intros; apply Hv; by right|].
  exists r. rewrite Hrun. split; [done|].
  destruct Hr as [->|(i & m' & -> & Hi)].
  - subst found'.
    destruct (bool_decide (dm_container m = container) && (id_vendor um =? id_vendor u)
              && (id_product um =? id_product u)
              && String.eqb (i_serial um) (i_serial u)); [|by left].
    right. exists 0%nat, m. split; [f_equal; f_equal; lia|done].
  - right. exists (S i), m'. split; [f_equal; f_equal; lia|done].
Qed.

(** [hotplug_unregister_usbdevice] either finds nothing and changes
    nothing, or removes one mapping of the registry together with its
    record. *)
Lemma hotplug_unregister_usbdevice_inv container usbdev st r st' tr :
  dev_mappings_valid st →
  hotplug_unregister_usbdevice container usbdev st = Some (r, st', tr) →
  (r = -1 ∧ st' = st)
  ∨ ∃ i m, hotplug_container_dev_mapping_list st !! i = Some m
           ∧ r = 0
           ∧ st' = set_usbdevs (delete (dm_usbdev m)) (set_dev_mapping_list (delete i) st).
Proof.
  intros Hv. unfold hotplug_unregister_usbdevice, mbind, M_bind, get, usbdev_load.
  destruct (usbdevs st !! usbdev) as [u|]; [|done].
  destruct (usb_mapping_to_remove_run container u
              (hotplug_container_dev_mapping_list st) 0 None st Hv) as (found & Hrun & Hfound).
  rewrite Hrun.
  destruct Hfound as [->|(i & m & -> & Hi)].
  { cbn. intros [= <- <- <-]. by left. }
  cbn. unfold mbind, M_bind, hotplug_container_dev_mapping_free, usbdev_free. cbn.
  destruct (Hv m) as [um Hum]; [by eapply list_elem_of_lookup_2|].
  rewrite Hum. intros [= <- <- <-]. right. by exists i, m.
Qed.

Lemma wf_unregister i m st :
  wf st → hotplug_container_dev_mapping_list st !! i = Some m →
  wf (set_usbdevs (delete (dm_usbdev m)) (set_dev_mapping_list (delete i) st)).
Proof.
  intros (Hv & Hnd & Hnv) Hi.
  pose proof (take_drop_middle _ _ _ Hi) as Hsplit.
  rewrite <- Hsplit in Hnd. rewrite fmap_app, fmap_cons in Hnd.
  apply NoDup_app in Hnd as (Hnd1 & Hdisj & Hnd2).
  apply NoDup_cons in Hnd2 as (Hnotin2 & Hnd2).
  assert (Hnotin1 : dm_usbdev m ∉ dm_usbdev <$> take i (hotplug_container_dev_mapping_list st)).
  { intros Hin. apply (Hdisj _ Hin). by left. }
  split; [|split; [|done]].
  - intros m' Hm'. cbn in *. rewrite delete_take_drop in Hm'.
    assert (dm_usbdev m' ≠ dm_usbdev m).
    { intros Heq. apply elem_of_app in Hm' as [Hm'|Hm'].
      - apply Hnotin1. rewrite <- Heq. by apply list_elem_of_fmap_2.
      - apply Hnotin2. rewrite <- Heq. by apply list_elem_of_fmap_2. }
    rewrite lookup_delete_ne by done. apply Hv. rewrite <- Hsplit.
    apply elem_of_app in Hm' as [Hm'|Hm']; apply elem_of_app; [by left|right; by right].
  - cbn. rewrite delete_take_drop, fmap_app. apply NoDup_app. split; [done|]. split; [|done].
    intros l Hl Hl'. apply (Hdisj _ Hl). by right.
Qed.

Lemma holds_token_unregister i m st c serial :
  hotplug_container_dev_mapping_list st !! i = Some m →
  holds_token (set_usbdevs (delete (dm_usbdev m)) (set_dev_mapping_list (delete i) st))
    c serial →
  holds_token st c serial.
Proof.
  intros Hi (m' & u' & Hm' & Hu' & Hrest). unfold mapping_usbdev in *. cbn in *.
  exists m', u'. split; [|split; [|done]].
  - by eapply list_elem_of_delete_inv.
  - apply lookup_delete_Some in Hu'. by destruct Hu'.
Qed.

(** *** The USB handler *)

Section usb_handler_invariants.

Variable UEVENT_ACTION_ADD : Z.
Variable UEVENT_ACTION_REMOVE : Z.

Lemma enriched_from_tokens event serial st st' :
  dev_mappings_valid st → usb_frame st st' → enriched_from event serial st st' →
  tokens_preserved st st'.
Proof.
  intros Hv (Hl & _) Hen. split; [done|]. intros m u' Hm Hu'.
  destruct (Hv m Hm) as [u Hu]. exists u. split; [done|].
  destruct (Hen _ _ Hu) as [Hsame|[_ Hrich]]; by simplify_eq.
Qed.

Lemma enriched_from_wf event serial st st' :
  usb_frame st st' → enriched_from event serial st st' → wf st → wf st'.
Proof.
  intros (Hl & Hp & Hn & _) Hen (Hv & Hnd & Hnv).
  unfold wf, dev_mappings_valid, netdev_mappings_valid. rewrite Hl, Hp, Hn.
  split; [|done]. intros m Hm. eapply enriched_from_valid; [done|]. by apply Hv.
Qed.

(** [hotplug_handle_uevent_cb] from a well-formed state: defined, and
    the state stays well formed with the same mappings, kinds and
    serials. *)
Lemma hotplug_handle_uevent_cb_run w actions event st :
  wf st →
  ∃ st' tr,
    hotplug_handle_uevent_cb UEVENT_ACTION_ADD UEVENT_ACTION_REMOVE w actions event st
    = Some (tt, st', tr)
    ∧ wf st' ∧ tokens_preserved st st'.
Proof.
  intros Hwf. pose proof Hwf as (Hv & _).
  destruct (hotplug_handle_usb_device_run UEVENT_ACTION_ADD UEVENT_ACTION_REMOVE
              w actions event st Hv)
    as (st1 & tr1 & Hrun1 & Hframe & serial & Hen & _).
  pose proof (enriched_from_wf _ _ _ _ Hframe Hen Hwf) as Hwf1.
  pose proof (enriched_from_tokens _ _ _ _ Hv Hframe Hen) as Htok1.
  unfold hotplug_handle_uevent_cb. unfold mbind at 1, M_bind at 1. rewrite Hrun1.
  destruct (bool_decide (Z.land actions UEVENT_ACTION_ADD ≠ 0)
            && String.eqb (ev_subsystem event) "net"
            && negb (strstr_found (ev_devpath event) "virtual")).
  - eexists _, _. split; [reflexivity|]. split.
    + destruct Hwf1 as (? & ? & ?). by repeat split.
    + destruct Htok1 as [? ?]. by split.
  - eexists _, _. split; [reflexivity|]. by rewrite ?app_nil_r.
Qed.

End usb_handler_invariants.

(** *** The move of interfaces and the timers *)

Section net_invariants.

Variable network_str_to_mac_addr : string → option mac_addr.
Variable uevent_replace_member : uevent_event → string → string → option uevent_event.

Lemma netdev_move_error_run pnet_cfg_c0 st :
  (∀ l, pnet_cfg_c0 = Some l → is_Some (pnet_cfgs st !! l)) →
  ∃ st', netdev_move_error pnet_cfg_c0 st = Some (-1, st', [])
         ∧ move_frame pnet_cfg_c0 st st'.
Proof.
  intros Hc0. destruct pnet_cfg_c0 as [l|].
  - destruct (Hc0 l eq_refl) as [cfg Hcfg].
    unfold netdev_move_error, mbind, M_bind, pnet_cfg_free. rewrite Hcfg.
    eexists. split; [reflexivity|]. apply move_frame_delete.
  - exists st. split; [done|]. apply move_frame_refl.
Qed.

(** From the test of the target on, [hotplug_netdev_move] is defined
    whenever the configuration it works on is allocated. *)
Lemma netdev_move_to_total w event container pnet_cfg pnet_cfg_c0 cfg st :
  pnet_cfgs st !! pnet_cfg = Some cfg →
  pnet_cfg_c0 = None ∨ pnet_cfg_c0 = Some pnet_cfg →
  ∃ r st' tr,
    netdev_move_to uevent_replace_member w event container pnet_cfg pnet_cfg_c0 st
    = Some (r, st', tr)
    ∧ move_frame pnet_cfg_c0 st st'.
Proof.
  intros Hcfg Hc0.
  assert (Herr : ∃ st', netdev_move_error pnet_cfg_c0 st = Some (-1, st', [])
                        ∧ move_frame pnet_cfg_c0 st st').
  { apply netdev_move_error_run. intros l ->. destruct Hc0 as [|[= ->]]; [done|eauto]. }
  destruct Herr as (st' & Herr & Hframe).
  destruct container as [container|].
  2:{ exists (-1), st'. eexists. unfold netdev_move_to, mbind, M_bind, log, call.
      cbn -[netdev_move_error]. by rewrite Herr. }
  destruct (state_permits_move (container_get_state w container)) eqn:Hperm.
  2:{ exists (-1), st'. eexists. unfold netdev_move_to, mbind, M_bind, log, call.
      rewrite Hperm. cbn -[netdev_move_error]. by rewrite Herr. }
  destruct (netdev_move_to_run uevent_replace_member w event container pnet_cfg pnet_cfg_c0
              cfg st Hperm Hcfg Hc0)
    as (_ & _ & r & st2 & tr & _ & Hrun & Hframe2 & _).
  by exists r, st2, tr.
Qed.

(** [hotplug_netdev_move] from a state whose net mappings have
    allocated configurations. *)
Lemma hotplug_netdev_move_total w event st :
  netdev_mappings_valid st →
  ∃ r st' tr,
    hotplug_netdev_move uevent_replace_member w event st = Some (r, st', tr)
    ∧ move_frame None st st'.
Proof.
  intros Hv. unfold hotplug_netdev_move.
  destruct (network_get_mac_by_ifname w (ev_interface event)) as [iface_mac|].
  2:{ eexists _, st, _. split; [reflexivity|]. apply move_frame_refl. }
  unfold mbind at 1, M_bind at 1, get.
  destruct (netdev_mapping_lookup iface_mac (hotplug_container_netdev_mapping_list st))
    as [mapping|] eqn:Hfind.
  - destruct (Hv mapping) as [cfg Hcfg].
    { apply List.find_some in Hfind as [Hin _]. by apply list_elem_of_In. }
    destruct (netdev_move_to_total w event (Some (nm_container mapping))
                (nm_pnet_cfg mapping) None cfg st Hcfg)
      as (r & st' & tr & Hrun & Hframe); [by left|].
    exists r, st', tr. by rewrite Hrun.
  - set (l := fresh (dom (pnet_cfgs st))).
    set (st0 := set_pnet_cfgs (insert l (mk_pnet_cfg (ev_interface event) false [])) st).
    destruct (netdev_move_to_total w event (cmld_containers_get_c0 w) l (Some l)
                (mk_pnet_cfg (ev_interface event) false []) st0)
      as (r & st' & tr & Hrun & Hframe); [apply lookup_insert_eq|by right|].
    exists r, st', tr. split.
    + unfold mbind, M_bind, container_pnet_cfg_new. fold l st0. by rewrite Hrun.
    + destruct Hframe as (?&?&?&?&?&Hp). repeat split; try done.
      intros l' _ Hl'. apply Hp.
      * intros [= Heq]. pose proof (fresh_pnet_cfg_None st) as Hf. fold l in Hf.
        rewrite Heq in Hf. destruct Hl'. congruence.
      * subst st0. cbn. destruct (decide (l = l')) as [->|Hne].
        -- rewrite lookup_insert_eq. eauto.
        -- by rewrite lookup_insert_ne.
Qed.

Lemma move_frame_net_frame st st' : move_frame None st st' → net_frame st st'.
Proof. intros (?&?&?&?&?&Hp). repeat split; try done. intros l. by apply Hp. Qed.

(** Firing a timer from a well-formed state. *)
Lemma event_timer_fire_run w timer st :
  netdev_mappings_valid st →
  ∃ st' tr, event_timer_fire uevent_replace_member w timer st = Some (tt, st', tr)
            ∧ net_frame st st'.
Proof.
  intros Hv. unfold event_timer_fire, mbind at 1, M_bind at 1, get.
  destruct (timers st !! timer) as [[timeout repeats cb]|].
  2:{ by exists st, []. }
  destruct cb as [data|event]; cbn [timer_cb].
  - unfold hotplug_token_timer_cb, mbind, M_bind, get, modify, event_remove_timer, log, call.
    cbn. destruct (0 >? retries st); [by eexists _, _|].
    destruct (negb (file_exists w (td_devname data))); by eexists _, _.
  - unfold hotplug_sysfs_netif_timer_cb.
    destruct (String.eqb (ev_devtype event) "wlan"
              && negb (network_interface_is_wifi w (ev_interface event))).
    { by exists st, []. }
    destruct (hotplug_netdev_move_total w event st Hv) as (r & st1 & tr1 & Hrun & Hframe).
    unfold mbind, M_bind, event_remove_timer, modify, log, call. rewrite Hrun.
    apply move_frame_net_frame in Hframe. destruct Hframe as (?&?&?&?).
    destruct (r =? -1); by eexists _, _.
Qed.

Lemma wf_netdev_append container pnet_cfg mac st :
  is_Some (pnet_cfgs st !! pnet_cfg) → wf st →
  wf (set_netdev_mapping_list
        (λ l, l ++ [{| nm_container := container; nm_pnet_cfg := pnet_cfg; nm_mac := mac |}])
        st).
Proof.
  intros Hcfg (Hv & Hnd & Hnv). repeat split; try done.
  intros m Hm. cbn in *. apply elem_of_app in Hm as [Hm|Hm]; [by apply Hnv|].
  by apply list_elem_of_singleton in Hm as ->.
Qed.

Lemma wf_netdev_delete pos st : wf st → wf (set_netdev_mapping_list (delete pos) st).
Proof.
  intros (Hv & Hnd & Hnv). repeat split; try done.
  intros m Hm. cbn in *. apply Hnv. by eapply list_elem_of_delete_inv.
Qed.

End net_invariants.

(** *** Executions *)

Section execution_invariants.

Variable UEVENT_ACTION_ADD : Z.
Variable UEVENT_ACTION_REMOVE : Z.
Variable network_str_to_mac_addr : string → option mac_addr.
Variable uevent_replace_member : uevent_event → string → string → option uevent_event.

Local Abbreviation exec_call :=
  (exec_call UEVENT_ACTION_ADD UEVENT_ACTION_REMOVE network_str_to_mac_addr
     uevent_replace_member).
Local Abbreviation exec :=
  (exec UEVENT_ACTION_ADD UEVENT_ACTION_REMOVE network_str_to_mac_addr
     uevent_replace_member).
Local Abbreviation reachable :=
  (reachable UEVENT_ACTION_ADD UEVENT_ACTION_REMOVE network_str_to_mac_addr
     uevent_replace_member).
Local Abbreviation disciplined :=
  (disciplined UEVENT_ACTION_ADD UEVENT_ACTION_REMOVE network_str_to_mac_addr
     uevent_replace_member).

(** Every entry point keeps the state well formed; all but the
    registration of a USB mapping keep the token sets within what they
    were. *)
Lemma exec_call_inv c st r st' tr :
  wf st →
  exec_call c st = Some (r, st', tr) →
  wf st'
  ∧ (token_serial_exclusive st → registers_fresh_token st c → token_serial_exclusive st').
Proof.
  intros Hwf. pose proof Hwf as (Hv & Hnd & Hnv).
  destruct c as [w|ty vendor product serial assign_flag|usbdev v|usbdev v|container usbdev
                |container usbdev|name filter whitelist|container pnet_cfg|container mac
                |w actions event|w timer]; cbn [exec_call registers_fresh_token].
  - (* hotplug_init *)
    destruct (hotplug_init_run w st) as (st1 & tr1 & _ & _ & Hrun & _ & _ & Hframe).
    unfold_bind. rewrite Hrun. intros [= _ <- _].
    apply move_frame_net_frame in Hframe.
    split; [by eapply net_frame_wf|]. intros Hex _.
    eapply tokens_preserved_exclusive; [|done]. by apply net_frame_tokens.
  - (* hotplug_usbdev_new *)
    intros [= _ <- _]. split; [by apply wf_usbdev_insert|].
    intros Hex _. eapply tokens_preserved_exclusive; [|done]. by apply tokens_preserved_alloc.
  - (* hotplug_usbdev_set_major *)
    destruct (usbdevs st !! usbdev) as [u|] eqn:Hu.
    2:{ unfold hotplug_usbdev_set_major, mbind, M_bind, usbdev_load. by rewrite Hu. }
    rewrite (hotplug_usbdev_set_major_run _ _ _ _ Hu). intros [= _ <- _].
    split; [by apply wf_usbdev_insert|].
    intros Hex _. eapply tokens_preserved_exclusive; [|done].
    by eapply tokens_preserved_store.
  - (* hotplug_usbdev_set_minor *)
    destruct (usbdevs st !! usbdev) as [u|] eqn:Hu.
    2:{ unfold hotplug_usbdev_set_minor, mbind, M_bind, usbdev_load. by rewrite Hu. }
    rewrite (hotplug_usbdev_set_minor_run _ _ _ _ Hu). intros [= _ <- _].
    split; [by apply wf_usbdev_insert|].
    intros Hex _. eapply tokens_preserved_exclusive; [|done].
    by eapply tokens_preserved_store.
  - (* hotplug_register_usbdevice *)
    destruct (usbdevs st !! usbdev) as [u|] eqn:Hu.
    2:{ unfold hotplug_register_usbdevice, hotplug_container_dev_mapping_new, mbind, M_bind,
          usbdev_load. by rewrite Hu. }
    unfold_bind. rewrite (hotplug_register_usbdevice_run _ _ _ _ Hu).
    intros [= _ <- _]. split; [by apply wf_register|].
    intros Hex Hfresh. apply token_serial_exclusive_register; [done..|].
    intros Hty c' Hc'. by eapply Hfresh.
  - (* hotplug_unregister_usbdevice *)
    unfold_bind.
    destruct (hotplug_unregister_usbdevice container usbdev st) as [[[r0 st0] tr0]|] eqn:Hrun;
      [|done].
    intros [= _ <- _].
    apply hotplug_unregister_usbdevice_inv in Hrun as [[_ ->]|(i & m & Hi & _ & ->)];
      [done| |done].
    split; [by apply wf_unregister|].
    intros Hex _ c1 c2 serial H1 H2.
    eapply Hex; eapply holds_token_unregister; eauto.
  - (* container_pnet_cfg_new *)
    intros [= _ <- _]. split; [|done]. repeat split; try done.
    intros m Hm. cbn. destruct (decide (fresh (dom (pnet_cfgs st)) = nm_pnet_cfg m)) as [->|?].
    + rewrite lookup_insert_eq. eauto.
    + rewrite lookup_insert_ne by done. by apply Hnv.
  - (* hotplug_register_netdev *)
    destruct (pnet_cfgs st !! pnet_cfg) as [cfg|] eqn:Hcfg.
    2:{ unfold hotplug_register_netdev, hotplug_container_netdev_mapping_new, mbind, M_bind,
          pnet_cfg_load. by rewrite Hcfg. }
    unfold_bind.
    destruct (network_str_to_mac_addr (pnet_name cfg)) as [mac|] eqn:Hmac.
    + rewrite (hotplug_register_netdev_accept _ _ _ _ _ _ Hcfg Hmac). intros [= _ <- _].
      split; [|done]. apply wf_netdev_append; [|done]. eauto.
    + rewrite (hotplug_register_netdev_reject _ _ _ _ _ Hcfg Hmac). by intros [= _ <- _].
  - (* hotplug_unregister_netdev *)
    unfold hotplug_unregister_netdev, mbind, M_bind, get, modify, log, call.
    destruct (netdev_mapping_to_remove container mac
                (hotplug_container_netdev_mapping_list st) 0 None).
    + intros [= _ <- _]. split; [|done]. by apply wf_netdev_delete.
    + by intros [= _ <- _].
  - (* hotplug_handle_uevent_cb *)
    destruct (hotplug_handle_uevent_cb_run UEVENT_ACTION_ADD UEVENT_ACTION_REMOVE
                w actions event st Hwf) as (st1 & tr1 & -> & Hwf1 & Htok).
    intros [= _ <- _]. split; [done|]. intros Hex _.
    by eapply tokens_preserved_exclusive.
  - (* event_timer_fire *)
    destruct (event_timer_fire_run uevent_replace_member w timer st Hnv)
      as (st1 & tr1 & -> & Hframe).
    intros [= _ <- _]. split; [by eapply net_frame_wf|]. intros Hex _.
    eapply tokens_preserved_exclusive; [|done]. by apply net_frame_tokens.
Qed.

Lemma wf_init : wf hotplug_state_init.
Proof.
  repeat split.
  - intros m Hm. by apply elem_of_nil in Hm.
  - apply NoDup_nil_2.
  - intros m Hm. by apply elem_of_nil in Hm.
Qed.

Lemma token_serial_exclusive_init : token_serial_exclusive hotplug_state_init.
Proof. intros c1 c2 serial (m & u & Hm & _). by apply elem_of_nil in Hm. Qed.

Lemma exec_inv calls st0 st tr :
  wf st0 →
  exec calls st0 = Some (tt, st, tr) →
  wf st
  ∧ (token_serial_exclusive st0 → disciplined calls st0 → token_serial_exclusive st).
Proof.
  revert st0 tr. induction calls as [|c calls IH]; intros st0 tr Hwf0.
  { intros [= <- <-]. done. }
  cbn. unfold_bind.
  destruct (exec_call c st0) as [[[[] st1] tr1]|] eqn:Hcall; [|done].
  destruct (exec_call_inv _ _ _ _ _ Hwf0 Hcall) as [Hwf1 Htok1].
  destruct (foreach exec_call calls st1) as [[[[] st2] tr2]|] eqn:Hrest; [|done].
  intros [= <- <-]. destruct (IH _ _ Hwf1 Hrest) as [Hwf2 Htok2].
  split; [done|]. intros Hex0 [Hc Hd]. apply Htok2; [by apply Htok1|done].
Qed.

(** Every state the daemon reaches is well formed: the mappings of both
    registries point to allocated objects, and no two USB mappings share
    their record. *)
Lemma reachable_wf st : reachable st → wf st.
Proof. intros (calls & tr & Hexec). by eapply exec_inv; [apply wf_init|]. Qed.

(** C8, as amended.  Along an execution from the initial state in
    which every registration is of a record that is not a token whose
    serial another container holds at that moment, at most one container
    holds a token mapping with a given serial in the final state.  The
    registry itself performs no check: in such a state every
    registration of an allocated record is accepted (result 0, one
    mapping more), and afterwards token serials are still exclusive
    exactly when the record is not a token whose serial another
    container holds. *)
Theorem C8_token_serial_exclusive_if_disciplined calls st tr :
  exec calls hotplug_state_init = Some (tt, st, tr) →
  disciplined calls hotplug_state_init →
  token_serial_exclusive st
  ∧ ∀ container usbdev u,
      usbdevs st !! usbdev = Some u →
      ∃ st' tr',
        hotplug_register_usbdevice container usbdev st = Some (0, st', tr')
        ∧ length (hotplug_container_dev_mapping_list st')
          = S (length (hotplug_container_dev_mapping_list st))
        ∧ (token_serial_exclusive st'
           ↔ (type u = HOTPLUG_USBDEV_TYPE_TOKEN →
              ∀ c', holds_token st c' (i_serial u) → c' = container)).
Proof.
  intros Hexec Hd.
  destruct (exec_inv _ _ _ _ wf_init Hexec) as [(Hv & _) Hex].
  specialize (Hex token_serial_exclusive_init Hd). split; [done|].
  intros container usbdev u Hu.
  rewrite (hotplug_register_usbdevice_run _ _ _ _ Hu). eexists _, _.
  split; [reflexivity|]. split.
  - cbn. rewrite length_app. cbn. lia.
  - by apply token_serial_exclusive_register.
Qed.

End execution_invariants.

(** *** The record of a freshly registered mapping *)

Section copy_properties.

Variable UEVENT_ACTION_ADD : Z.
Variable UEVENT_ACTION_REMOVE : Z.
Variable network_str_to_mac_addr : string → option mac_addr.
Variable uevent_replace_member : uevent_event → string → string → option uevent_event.

(** The USB handler leaves a record as it is unless the uevent is an
    add that matches it. *)
Lemma hotplug_handle_usb_device_keeps w actions event loc u st :
  dev_mappings_valid st →
  usbdevs st !! loc = Some u →
  matching_add UEVENT_ACTION_ADD w actions event u = false →
  ∃ st' tr,
    hotplug_handle_usb_device UEVENT_ACTION_ADD UEVENT_ACTION_REMOVE w actions event st
    = Some (false, st', tr)
    ∧ usbdevs st' !! loc = Some u.
Proof.
  intros Hv Hu Hno.
  destruct (hotplug_handle_usb_device_run UEVENT_ACTION_ADD UEVENT_ACTION_REMOVE
              w actions event st Hv)
    as (st' & tr & Hrun & _ & serial & Hen & Hcase).
  exists st', tr. split; [done|].
  destruct Hcase as [Heq|[Hadd Hread]]; [by rewrite Heq|].
  destruct (Hen _ _ Hu) as [Hsame|[Hmatch _]]; [done|].
  unfold matching_add in Hno.
  rewrite Hread, Hmatch, (bool_decide_eq_true_2 _ Hadd), !andb_true_r in Hno.
  unfold hotplug_handle_usb_device in Hrun.
  destruct (String.prefix "usb" (ev_subsystem event));
    destruct (String.prefix "usb_device" (ev_devtype event));
    try discriminate Hno; cbn in Hrun; by injection Hrun as <- _.
Qed.

Lemma hotplug_handle_uevent_cb_keeps w actions event loc u st :
  wf st →
  usbdevs st !! loc = Some u →
  matching_add UEVENT_ACTION_ADD w actions event u = false →
  ∃ st' tr,
    hotplug_handle_uevent_cb UEVENT_ACTION_ADD UEVENT_ACTION_REMOVE w actions event st
    = Some (tt, st', tr)
    ∧ wf st'
    ∧ usbdevs st' !! loc = Some u.
Proof.
  intros Hwf Hu Hno. pose proof Hwf as (Hv & _).
  destruct (hotplug_handle_uevent_cb_run UEVENT_ACTION_ADD UEVENT_ACTION_REMOVE
              w actions event st Hwf) as (st' & tr & Hrun & Hwf' & _).
  exists st', tr. split; [done|]. split; [done|].
  destruct (hotplug_handle_usb_device_keeps w actions event loc u st Hv Hu Hno)
    as (st1 & tr1 & Hrun1 & Hu1).
  revert Hrun. unfold hotplug_handle_uevent_cb. unfold mbind at 1, M_bind at 1.
  rewrite Hrun1.
  destruct (bool_decide (Z.land actions UEVENT_ACTION_ADD ≠ 0)
            && String.eqb (ev_subsystem event) "net"
            && negb (strstr_found (ev_devpath event) "virtual"));
    cbn; by intros [= <- _].
Qed.

(** A sequence of uevents and timer firings without an add uevent that
    matches a record is defined from every well formed state and leaves
    the record as it is. *)
Lemma exec_keeps_record (calls : list hotplug_call) loc u st :
  wf st →
  usbdevs st !! loc = Some u →
  Forall (callback_without_matching_add UEVENT_ACTION_ADD u) calls →
  ∃ st' tr,
    exec UEVENT_ACTION_ADD UEVENT_ACTION_REMOVE network_str_to_mac_addr
      uevent_replace_member calls st = Some (tt, st', tr)
    ∧ wf st'
    ∧ usbdevs st' !! loc = Some u.
Proof.
  revert st. induction calls as [|c calls IH]; intros st Hwf Hu Hcalls.
  { by exists st, []. }
  apply Forall_cons in Hcalls as [Hc Hcalls].
  assert (Hstep : ∃ st1 tr1,
    exec_call UEVENT_ACTION_ADD UEVENT_ACTION_REMOVE network_str_to_mac_addr
      uevent_replace_member c st = Some (tt, st1, tr1)
    ∧ wf st1 ∧ usbdevs st1 !! loc = Some u).
  { destruct c; cbn in Hc; try done.
    - by apply hotplug_handle_uevent_cb_keeps.
    - pose proof Hwf as (_ & _ & Hnv).
      destruct (event_timer_fire_run uevent_replace_member w timer st Hnv)
        as (st1 & tr1 & Hrun1 & Hframe).
      exists st1, tr1. split; [done|]. split; [by eapply net_frame_wf|].
      destruct Hframe as (Heq & _). by rewrite Heq. }
  destruct Hstep as (st1 & tr1 & Hrun1 & Hwf1 & Hu1).
  destruct (IH st1 Hwf1 Hu1 Hcalls) as (st' & tr & Hrun & Hwf' & Hu').
  exists st', (tr1 ++ tr). split; [|done].
  unfold exec in *. cbn [foreach]. unfold_bind. by rewrite Hrun1, Hrun.
Qed.

(** C10, as amended.  The registry stores a deep copy of the caller's
    record as it is at the time of the registration, major and minor
    included.  [hotplug_usbdev_new] makes a record with major = minor
    = -1; the registration of an allocated record [u] returns 0 and
    appends one mapping whose record lives at a location of its own and
    equals [u], so it has major = minor = -1 exactly when [u] has.  The
    remove loop acts on the mapping exactly for a uevent with the major
    and minor of [u] (token detach for a token, deny otherwise); for
    every other remove uevent it does nothing for the mapping, and the
    handler produces the trace it produced before the registration.
    Through every sequence of uevents and timer firings without an add
    uevent matching [u] the record of the mapping stays equal to [u];
    with major -1 no remove uevent with a non-negative major makes the
    loop act on the mapping in the state so reached.  Setting major or
    minor through the caller's handle changes the caller's record and
    leaves the record of the mapping as it was. *)
Theorem C10_mapping_copies_record_at_registration container usbdev u st :
  wf st →
  usbdevs st !! usbdev = Some u →
  (∀ ty vendor product serial assign_flag, ∃ handle st1,
      hotplug_usbdev_new ty vendor product serial assign_flag st = Some (handle, st1, [])
      ∧ usbdevs st !! handle = None
      ∧ usbdevs st1 !! handle
        = Some {| i_serial := serial; id_vendor := vendor; id_product := product;
                  major := -1; minor := -1; assign := assign_flag; type := ty |})
  ∧ ∃ st2 tr m,
      hotplug_register_usbdevice container usbdev st = Some (0, st2, tr)
      ∧ hotplug_container_dev_mapping_list st2
        = hotplug_container_dev_mapping_list st ++ [m]
      ∧ dm_container m = container
      ∧ dm_usbdev m ≠ usbdev
      ∧ usbdevs st !! dm_usbdev m = None
      ∧ mapping_usbdev st2 m = Some u
      ∧ usbdevs st2 !! usbdev = Some u
      ∧ (∀ event,
           usb_remove_mapping event m st2
           = Some (tt, st2,
                   if (ev_major event =? major u) && (ev_minor event =? minor u) then
                     (if bool_decide (type u = HOTPLUG_USBDEV_TYPE_TOKEN)
                      then [Log LOG_INFO "HOTPLUG USB TOKEN removed";
                            Call_container_token_detach container]
                      else [Call_container_device_deny container "c" (major u) (minor u)])
                     ++ [Log LOG_INFO
                           "Denied access to unbound device node %d:%d mapped in container %s"]
                   else []))
      ∧ (∀ w actions event,
           Z.land actions UEVENT_ACTION_ADD = 0 →
           ev_major event ≠ major u ∨ ev_minor event ≠ minor u →
           trace_of (hotplug_handle_usb_device UEVENT_ACTION_ADD UEVENT_ACTION_REMOVE
                       w actions event) st2
           = trace_of (hotplug_handle_usb_device UEVENT_ACTION_ADD UEVENT_ACTION_REMOVE
                         w actions event) st)
      ∧ (∀ calls,
           Forall (callback_without_matching_add UEVENT_ACTION_ADD u) calls →
           ∃ st' tr',
             exec UEVENT_ACTION_ADD UEVENT_ACTION_REMOVE network_str_to_mac_addr
               uevent_replace_member calls st2 = Some (tt, st', tr')
             ∧ mapping_usbdev st' m = Some u
             ∧ (major u = -1 →
                ∀ event, 0 ≤ ev_major event →
                         usb_remove_mapping event m st' = Some (tt, st', [])))
      ∧ (∀ v, ∃ st3,
           hotplug_usbdev_set_major usbdev v st2 = Some (tt, st3, [])
           ∧ usbdevs st3 !! usbdev = Some (with_major u v)
           ∧ mapping_usbdev st3 m = Some u)
      ∧ (∀ v, ∃ st3,
           hotplug_usbdev_set_minor usbdev v st2 = Some (tt, st3, [])
           ∧ usbdevs st3 !! usbdev = Some (with_minor u v)
           ∧ mapping_usbdev st3 m = Some u).
Proof.
  intros Hwf Hu. pose proof Hwf as (Hvalid & _). split.
  { intros ty vendor product serial assign_flag. eexists _, _.
    split; [reflexivity|]. split; [apply fresh_usbdev_None|]. cbn. apply lookup_insert_eq. }
  set (copy := fresh (dom (usbdevs st))).
  set (m := {| dm_container := container; dm_usbdev := copy; dm_assign := false |}).
  assert (Hcopy : usbdevs st !! copy = None) by apply fresh_usbdev_None.
  assert (Hne : copy ≠ usbdev) by (intros Heq; rewrite Heq in Hcopy; congruence).
  pose proof (hotplug_register_usbdevice_run container usbdev u st Hu) as Hreg.
  cbn zeta in Hreg. fold copy m in Hreg.
  pose proof (wf_register container u st Hwf) as Hwf2. fold copy m in Hwf2.
  set (st2 := set_dev_mapping_list (λ l, l ++ [m]) (set_usbdevs (insert copy u) st)) in *.
  assert (Hm2 : usbdevs st2 !! copy = Some u) by apply lookup_insert_eq.
  assert (Hu2 : usbdevs st2 !! usbdev = Some u).
  { subst st2. cbn. by rewrite lookup_insert_ne. }
  assert (Hl2 : hotplug_container_dev_mapping_list st2
                = hotplug_container_dev_mapping_list st ++ [m]) by done.
  assert (Hagree : ∀ m', m' ∈ hotplug_container_dev_mapping_list st →
            usbdevs st2 !! dm_usbdev m' = usbdevs st !! dm_usbdev m').
  { intros m' Hm'. destruct (Hvalid m' Hm') as [u' Hu'].
    subst st2. cbn. rewrite lookup_insert_ne; [done|]. intros Heq. congruence. }
  assert (Hbody : ∀ event,
            ev_major event ≠ major u ∨ ev_minor event ≠ minor u →
            usb_remove_mapping event m st2 = Some (tt, st2, [])).
  { intros event Hdiff. rewrite (usb_remove_mapping_run event m u st2 Hm2).
    by replace ((ev_major event =? major u) && (ev_minor event =? minor u))
      with false by lia. }
  assert (Hloop : ∀ event tr0,
            ev_major event ≠ major u ∨ ev_minor event ≠ minor u →
            foreach (usb_remove_mapping event) (hotplug_container_dev_mapping_list st) st
            = Some (tt, st, tr0) →
            foreach (usb_remove_mapping event) (hotplug_container_dev_mapping_list st2) st2
            = Some (tt, st2, tr0)).
  { intros event tr0 Hdiff Hrun. rewrite Hl2, foreach_app. unfold_bind.
    rewrite (usb_remove_loop_agree event _ st st2 tr0 Hvalid Hagree Hrun).
    cbn [foreach]. unfold_bind. rewrite (Hbody event Hdiff).
    cbn. by rewrite !app_nil_r. }
  eexists st2, _, m.
  split; [exact Hreg|]. split; [done|]. split; [done|]. split; [done|]. split; [done|].
  split; [exact Hm2|]. split; [exact Hu2|].
  split; [|split; [|split; [|split]]].
  - intros event. exact (usb_remove_mapping_run event m u st2 Hm2).
  - intros w actions event Hnoadd Hdiff. clearbody st2.
    unfold trace_of, hotplug_handle_usb_device.
    destruct (negb (String.prefix "usb" (ev_subsystem event))
              || negb (String.prefix "usb_device" (ev_devtype event))); [done|].
    rewrite (bool_decide_eq_false_2 (Z.land actions UEVENT_ACTION_ADD ≠ 0))
      by (intros Hc; by apply Hc).
    destruct (bool_decide (Z.land actions UEVENT_ACTION_REMOVE ≠ 0)); [|done].
    destruct (usb_remove_loop_run event (hotplug_container_dev_mapping_list st) st Hvalid)
      as (tr0 & Hrun0 & _).
    unfold mbind, M_bind, get. cbn.
    by rewrite Hrun0, (Hloop event tr0 Hdiff Hrun0).
  - intros calls Hcalls. clearbody st2.
    destruct (exec_keeps_record calls copy u st2 Hwf2 Hm2 Hcalls)
      as (st' & tr' & Hrun & _ & Hu').
    exists st', tr'. split; [done|]. split; [done|].
    intros Hmajor event Hnonneg.
    rewrite (usb_remove_mapping_run event m u st' Hu').
    by replace (ev_major event =? major u) with false by lia.
  - intros v. eexists. split; [by apply hotplug_usbdev_set_major_run|].
    unfold mapping_usbdev. cbn. rewrite lookup_insert_eq.
    by rewrite lookup_insert_ne, lookup_insert_eq.
  - intros v. eexists. split; [by apply hotplug_usbdev_set_minor_run|].
    unfold mapping_usbdev. cbn. rewrite lookup_insert_eq.
    by rewrite lookup_insert_ne, lookup_insert_eq.
Qed.

End copy_properties.

(** ** More on the registries: unregistration and round trips *)

Lemma last_match_app {A} (test : A → bool) (l1 l2 : list A) pos found :
  last_match test (l1 ++ l2) pos found
  = last_match test l2 (pos + length l1) (last_match test l1 pos found).
Proof.
  revert pos found. induction l1 as [|x l1 IH]; intros pos found; cbn.
  - by rewrite Nat.add_0_r.
  - rewrite IH. f_equal. lia.
Qed.

Lemma last_match_none {A} (test : A → bool) (l : list A) pos found :
  (∀ x, x ∈ l → test x = false) → last_match test l pos found = found.
Proof.
  revert pos found. induction l as [|x l IH]; intros pos found Hnone; [done|].
  cbn. rewrite (Hnone x) by by left. apply IH. intros y Hy. apply Hnone. by right.
Qed.

(** The last element that passes the test is the one the loop keeps. *)
Lemma last_match_last {A} (test : A → bool) (l1 l2 : list A) x pos found :
  test x = true → (∀ y, y ∈ l2 → test y = false) →
  last_match test (l1 ++ x :: l2) pos found = Some ((pos + length l1)%nat, x).
Proof.
  intros Hx Hnone. rewrite last_match_app. cbn. rewrite Hx. by apply last_match_none.
Qed.

(** The search loop of [hotplug_unregister_usbdevice] on mappings with
    allocated records: it reads, changes nothing, and yields the last
    mapping with the key. *)
Lemma usb_mapping_to_remove_last container caller
    (l : list hotplug_container_dev_mapping) pos found st :
  (∀ m, m ∈ l → is_Some (usbdevs st !! dm_usbdev m)) →
  usb_mapping_to_remove container caller l pos found st
  = Some (last_match (unregister_key_matches st container caller) l pos found, st, []).
Proof.
  revert pos found. induction l as [|m l IH]; intros pos found Hv; [done|].
  destruct (Hv m) as [um Hum]; [by left|].
  cbn. unfold_bind. unfold usbdev_load. rewrite Hum.
  rewrite IH by (intros; apply Hv; by right).
  unfold unregister_key_matches, mapping_usbdev. by rewrite Hum, app_nil_l.
Qed.

Lemma netdev_mapping_to_remove_last container mac
    (l : list hotplug_container_netdev_mapping) pos found :
  netdev_mapping_to_remove container mac l pos (fst <$> found)
  = fst <$> last_match (netdev_key_matches container mac) l pos found.
Proof.
  revert pos found. induction l as [|m l IH]; intros pos found; [done|].
  cbn. rewrite <- IH. unfold netdev_key_matches.
  by destruct (bool_decide (nm_container m = container) && bool_decide (nm_mac m = mac)).
Qed.

(** X1. [hotplug_unregister_usbdevice] for a key that no mapping has
    (container, vendor id, product id, serial): the result is -1, the
    state is unchanged and nothing is logged. *)
Theorem X1_unregister_usbdevice_absent container usbdev caller st :
  dev_mappings_valid st →
  usbdevs st !! usbdev = Some caller →
  (∀ m, m ∈ hotplug_container_dev_mapping_list st →
        unregister_key_matches st container caller m = false) →
  hotplug_unregister_usbdevice container usbdev st = Some (-1, st, []).
Proof.
  intros Hv Hu Hnone. unfold hotplug_unregister_usbdevice, mbind, M_bind, get, usbdev_load.
  rewrite Hu, (usb_mapping_to_remove_last _ _ _ _ _ _ Hv), last_match_none by done.
  done.
Qed.

(** X2. [hotplug_unregister_usbdevice] removes one mapping: the last
    one in the registry that has the key.  The result is 0, the mappings
    before and after it stay in their order, its record is released,
    and every other record, the caller's included, is as it was.  Kind,
    major and minor of the caller's record play no role. *)
Theorem X2_unregister_usbdevice_removes_last container usbdev caller st l1 m l2 :
  wf st →
  usbdevs st !! usbdev = Some caller →
  hotplug_container_dev_mapping_list st = l1 ++ m :: l2 →
  unregister_key_matches st container caller m = true →
  (∀ m', m' ∈ l2 → unregister_key_matches st container caller m' = false) →
  let st' := set_usbdevs (delete (dm_usbdev m)) (with_dev_mappings (l1 ++ l2) st) in
  hotplug_unregister_usbdevice container usbdev st
  = Some (0, st', [Log LOG_INFO "Unregistered usbdevice %04x:%04x '%s' for container %s"])
  ∧ (∀ m', m' ∈ l1 ++ l2 → usbdevs st' !! dm_usbdev m' = usbdevs st !! dm_usbdev m')
  ∧ wf st'.
Proof.
  intros Hwf Hu Hl Hm Hnone st'. pose proof Hwf as (Hv & Hnd & _).
  assert (Hi : hotplug_container_dev_mapping_list st !! length l1 = Some m).
  { rewrite Hl. by apply list_lookup_middle. }
  assert (Hdel : delete (length l1) (hotplug_container_dev_mapping_list st) = l1 ++ l2).
  { rewrite Hl. by apply delete_middle. }
  assert (Hst' : st' = set_usbdevs (delete (dm_usbdev m))
                         (set_dev_mapping_list (delete (length l1)) st)).
  { subst st'. unfold with_dev_mappings, set_dev_mapping_list. cbn. by rewrite Hdel. }
  split; [|split].
  - rewrite Hst'. unfold hotplug_unregister_usbdevice, mbind, M_bind, get, usbdev_load.
    rewrite Hu, (usb_mapping_to_remove_last _ _ _ _ _ _ Hv), Hl.
    rewrite (last_match_last _ l1 l2 m 0 None Hm Hnone). cbn.
    unfold hotplug_container_dev_mapping_free, usbdev_free. cbn.
    destruct (Hv m) as [um Hum]; [rewrite Hl; apply elem_of_app; right; by left|].
    by rewrite Hum.
  - intros m' Hm'. cbn. apply lookup_delete_ne. intros Heq.
    rewrite Hl, fmap_app, fmap_cons in Hnd.
    apply NoDup_app in Hnd as (_ & Hdisj & Hnd2). apply NoDup_cons in Hnd2 as [Hnotin _].
    apply elem_of_app in Hm' as [Hm'|Hm'].
    + apply (Hdisj (dm_usbdev m')); [by apply list_elem_of_fmap_2|]. rewrite <- Heq. by left.
    + apply Hnotin. rewrite Heq. by apply list_elem_of_fmap_2.
  - rewrite Hst'. by apply wf_unregister.
Qed.

(** X3. Registration and unregistration of a USB mapping compose to the
    identity: for an allocated record [hotplug_register_usbdevice]
    followed by [hotplug_unregister_usbdevice] with the same container
    and handle returns 0 twice and leaves the state exactly as it was;
    the copy that the registration made is released again. *)
Theorem X3_register_unregister_usbdevice container usbdev caller st :
  dev_mappings_valid st →
  usbdevs st !! usbdev = Some caller →
  (r1 ← hotplug_register_usbdevice container usbdev;
   r2 ← hotplug_unregister_usbdevice container usbdev;
   mret (r1, r2)) st
  = Some ((0, 0), st,
          [Log LOG_INFO "Registered usbdevice %04x:%04x '%s' [c %d:%d] for container %s";
           Log LOG_INFO "Unregistered usbdevice %04x:%04x '%s' for container %s"]).
Proof.
  intros Hv Hu. unfold mbind at 1, M_bind at 1.
  rewrite (hotplug_register_usbdevice_run _ _ _ _ Hu).
  set (copy := fresh (dom (usbdevs st))).
  set (m := {| dm_container := container; dm_usbdev := copy; dm_assign := false |}).
  set (st2 := set_dev_mapping_list (λ l, l ++ [m]) (set_usbdevs (insert copy caller) st)).
  assert (Hcopy : usbdevs st !! copy = None) by apply fresh_usbdev_None.
  assert (Hv2 : dev_mappings_valid st2).
  { intros m' Hm'. cbn in Hm'. apply elem_of_app in Hm' as [Hm'|Hm'].
    - cbn. destruct (decide (copy = dm_usbdev m')) as [->|Hne].
      + rewrite lookup_insert_eq. eauto.
      + rewrite lookup_insert_ne by done. by apply Hv.
    - apply list_elem_of_singleton in Hm' as ->. cbn. rewrite lookup_insert_eq. eauto. }
  assert (Hu2 : usbdevs st2 !! usbdev = Some caller).
  { cbn. rewrite lookup_insert_ne; [done|]. intros Heq. rewrite Heq in Hcopy. congruence. }
  assert (Hrun : hotplug_unregister_usbdevice container usbdev st2
    = Some (0, st, [Log LOG_INFO "Unregistered usbdevice %04x:%04x '%s' for container %s"])).
  { unfold hotplug_unregister_usbdevice, mbind, M_bind, get, usbdev_load.
    rewrite Hu2, (usb_mapping_to_remove_last _ _ _ _ _ _ Hv2).
    replace (hotplug_container_dev_mapping_list st2)
      with (hotplug_container_dev_mapping_list st ++ m :: []) by done.
    rewrite (last_match_last _ _ [] m 0 None).
    - cbn. unfold hotplug_container_dev_mapping_free, usbdev_free. cbn.
      rewrite lookup_insert_eq. do 3 f_equal.
      destruct st as [ud pc dl nl wi ei r ti]. unfold set_usbdevs, set_dev_mapping_list. cbn.
      f_equal.
      + rewrite delete_insert_eq. by apply delete_id.
      + by rewrite delete_middle, app_nil_r.
    - unfold unregister_key_matches, mapping_usbdev. cbn. rewrite lookup_insert_eq.
      rewrite bool_decide_eq_true_2 by done. by rewrite !Z.eqb_refl, String.eqb_refl.
    - intros y Hy. by apply elem_of_nil in Hy. }
  unfold mbind, M_bind. by rewrite Hrun.
Qed.

(** X4. [hotplug_unregister_netdev] for a container and MAC that no
    mapping has: the result is -1, the state is unchanged and nothing is
    logged. *)
Theorem X4_unregister_netdev_absent container mac st :
  (∀ m, m ∈ hotplug_container_netdev_mapping_list st →
        netdev_key_matches container mac m = false) →
  hotplug_unregister_netdev container mac st = Some (-1, st, []).
Proof.
  intros Hnone. unfold hotplug_unregister_netdev, mbind, M_bind, get.
  change (@None nat) with (fst <$> @None (nat * hotplug_container_netdev_mapping)).
  by rewrite netdev_mapping_to_remove_last, last_match_none.
Qed.

Lemma hotplug_unregister_netdev_last container mac st l1 m l2 :
  hotplug_container_netdev_mapping_list st = l1 ++ m :: l2 →
  netdev_key_matches container mac m = true →
  (∀ m', m' ∈ l2 → netdev_key_matches container mac m' = false) →
  hotplug_unregister_netdev container mac st
  = Some (0, with_netdev_mappings (l1 ++ l2) st,
          [Log LOG_INFO "Unregistered netdev '%s' for container %s"])
  ∧ pnet_cfgs (with_netdev_mappings (l1 ++ l2) st) = pnet_cfgs st.
Proof.
  intros Hl Hm Hnone. split; [|done].
  unfold hotplug_unregister_netdev, mbind, M_bind, get.
  change (@None nat) with (fst <$> @None (nat * hotplug_container_netdev_mapping)).
  rewrite netdev_mapping_to_remove_last, Hl, (last_match_last _ l1 l2 m 0 None Hm Hnone).
  cbn. unfold with_netdev_mappings, set_netdev_mapping_list. cbn.
  by rewrite Hl, delete_middle.
Qed.

(** X5. [hotplug_unregister_netdev] removes one mapping: the last one
    in the registry with the container and the MAC.  The result is 0,
    the other mappings stay in their order, and the configuration the
    mapping points to is not released: the heap of configurations is as
    it was. *)
Theorem X5_unregister_netdev_removes_last container mac st l1 m l2 :
  hotplug_container_netdev_mapping_list st = l1 ++ m :: l2 →
  netdev_key_matches container mac m = true →
  (∀ m', m' ∈ l2 → netdev_key_matches container mac m' = false) →
  hotplug_unregister_netdev container mac st
  = Some (0, with_netdev_mappings (l1 ++ l2) st,
          [Log LOG_INFO "Unregistered netdev '%s' for container %s"])
  ∧ pnet_cfgs (with_netdev_mappings (l1 ++ l2) st) = pnet_cfgs st.
Proof. apply hotplug_unregister_netdev_last. Qed.

Section netdev_round_trip.
Variable network_str_to_mac_addr : string → option mac_addr.

(** X6. Registration and unregistration of a net mapping compose to
    the identity: when the name of the configuration parses as the MAC,
    [hotplug_register_netdev] followed by [hotplug_unregister_netdev]
    with the container and that MAC returns 0 twice and leaves the state
    exactly as it was, whatever else is registered. *)
Theorem X6_register_unregister_netdev container pnet_cfg cfg mac st :
  pnet_cfgs st !! pnet_cfg = Some cfg →
  network_str_to_mac_addr (pnet_name cfg) = Some mac →
  (r1 ← hotplug_register_netdev network_str_to_mac_addr container pnet_cfg;
   r2 ← hotplug_unregister_netdev container mac;
   mret (r1, r2)) st
  = Some ((0, 0), st,
          [Log LOG_INFO "Registered netdev '%s' for container %s";
           Log LOG_INFO "Unregistered netdev '%s' for container %s"]).
Proof.
  intros Hcfg Hmac.
  set (m := {| nm_container := container; nm_pnet_cfg := pnet_cfg; nm_mac := mac |}).
  assert (Hreg : hotplug_register_netdev network_str_to_mac_addr container pnet_cfg st
    = Some (0, with_netdev_mappings (hotplug_container_netdev_mapping_list st ++ [m]) st,
            [Log LOG_INFO "Registered netdev '%s' for container %s"])).
  { unfold hotplug_register_netdev, hotplug_container_netdev_mapping_new, pnet_cfg_load.
    unfold_monad. by rewrite Hcfg, Hmac. }
  destruct (hotplug_unregister_netdev_last container mac
    (with_netdev_mappings (hotplug_container_netdev_mapping_list st ++ [m]) st)
    (hotplug_container_netdev_mapping_list st) m []) as [Hun _].
  - done.
  - unfold netdev_key_matches. cbn. by rewrite !bool_decide_eq_true_2.
  - intros y Hy. by apply elem_of_nil in Hy.
  - unfold mbind at 1, M_bind at 1. rewrite Hreg.
    unfold mbind, M_bind. rewrite Hun. cbn. rewrite app_nil_r.
    by destruct st.
Qed.

End netdev_round_trip.

(** ** More on the add loop: records and timers *)

Lemma string_app_cons_l c (s1 s2 : string) : String c s1 +:+ s2 = String c (s1 +:+ s2).
Proof. reflexivity. Qed.

Lemma string_app_nil (s : string) : "" +:+ s = s.
Proof. reflexivity. Qed.

Lemma usb_add_mapping_no_attach event serial m st st' tr :
  usb_add_mapping event serial m st = Some (tt, st', tr) →
  List.filter is_token_attach tr = [].
Proof.
  unfold usb_add_mapping, mbind, M_bind, log, call, usbdev_load, usbdev_store,
    event_add_timer.
  destruct (usbdevs st !! dm_usbdev m) as [u|] eqn:Hu; [|done].
  destruct (usb_mapping_matches event serial u); [|by intros [= <- <-]].
  cbn. rewrite Hu. destruct (bool_decide (type u = HOTPLUG_USBDEV_TYPE_TOKEN));
    by intros [= <- <-].
Qed.

Lemma usb_remove_loop_no_attach event (l : list hotplug_container_dev_mapping) st st' tr :
  foreach (usb_remove_mapping event) l st = Some (tt, st', tr) →
  List.filter is_token_attach tr = [].
Proof.
  revert st tr. induction l as [|m l IH]; intros st tr; [by intros [= <- <-]|].
  cbn [foreach]. unfold_bind.
  destruct (usb_remove_mapping event m st) as [[[[] st1] tr1]|] eqn:Hstep; [|done].
  destruct (foreach (usb_remove_mapping event) l st1) as [[[[] st2] tr2]|] eqn:Hrest; [|done].
  intros [= <- <-]. rewrite List.filter_app, (IH _ _ Hrest), app_nil_r.
  revert Hstep. unfold usb_remove_mapping, mbind, M_bind, log, call, usbdev_load.
  destruct (usbdevs st !! dm_usbdev m) as [u|]; [|done].
  destruct ((ev_major event =? major u) && (ev_minor event =? minor u));
    [|by intros [= <- <-]].
  destruct (bool_decide (type u = HOTPLUG_USBDEV_TYPE_TOKEN)); by intros [= <- <-].
Qed.

Lemma mapping_schedules_enriched event serial st st1 m :
  enriched_from event serial st st1 →
  is_Some (usbdevs st !! dm_usbdev m) →
  mapping_schedules st1 event serial m = mapping_schedules st event serial m.
Proof.
  intros Hen [u Hu]. unfold mapping_schedules, mapping_matches, mapping_is_token,
    mapping_usbdev.
  rewrite Hu. by destruct (Hen _ _ Hu) as [->|[_ ->]].
Qed.

(** The add loop over mappings with allocated records: which records
    it touches and which timers it registers. *)
Lemma usb_add_loop_timers event serial (l : list hotplug_container_dev_mapping) st :
  (∀ m, m ∈ l → is_Some (usbdevs st !! dm_usbdev m)) →
  ∃ st' tr,
    foreach (usb_add_mapping event serial) l st = Some (tt, st', tr)
    ∧ enriched_from event serial st st'
    ∧ (∀ loc, loc ∉ dm_usbdev <$> l → usbdevs st' !! loc = usbdevs st !! loc)
    ∧ dom (usbdevs st') = dom (usbdevs st)
    ∧ size (timers st')
      = (size (timers st) + length (List.filter (mapping_schedules st event serial) l))%nat
    ∧ timers st ⊆ timers st'
    ∧ (∀ id t, timers st' !! id = Some t → timers st !! id = None →
               ∃ m, m ∈ l ∧ mapping_schedules st event serial m = true
                    ∧ t = token_timer_of event m)
    ∧ List.filter is_token_attach tr = [].
Proof.
  revert st. induction l as [|m l IH]; intros st Hvalid.
  { exists st, []. split; [done|]. split; [apply enriched_from_refl|].
    split; [done|]. split; [done|]. split; [cbn; lia|]. split; [done|].
    split; [|done]. intros id t Ht Hnone. congruence. }
  destruct (Hvalid m) as [u Hu]; [by left|].
  destruct (usb_add_mapping_run event serial m u st Hu)
    as (st1 & tr1 & Hrun1 & _ & Hheap1 & _ & Htimers1).
  pose proof (usb_add_mapping_no_attach _ _ _ _ _ _ Hrun1) as Hatt1.
  assert (Hstep : enriched_from event serial st st1).
  { intros l0 u0 Hl0. rewrite Hheap1.
    destruct (usb_mapping_matches event serial u) eqn:Hm; [|by left].
    destruct (decide (l0 = dm_usbdev m)) as [->|Hne].
    - right. rewrite lookup_insert_eq. by simplify_eq.
    - left. by rewrite lookup_insert_ne. }
  assert (Hsched : mapping_schedules st event serial m
                   = usb_mapping_matches event serial u
                     && bool_decide (type u = HOTPLUG_USBDEV_TYPE_TOKEN)).
  { unfold mapping_schedules, mapping_matches, mapping_is_token, mapping_usbdev.
    by rewrite Hu. }
  rewrite <- Hsched in Htimers1.
  assert (Hfresh : timers st !! fresh (dom (timers st)) = None).
  { apply not_elem_of_dom, is_fresh. }
  destruct (IH st1) as (st' & tr & Hrun & Hen & Hother & Hdom & Hsize & Hsub & Hnew & Hatt).
  { intros m' Hm'. eapply enriched_from_valid; [done|]. apply Hvalid. by right. }
  assert (Hsame : List.filter (mapping_schedules st1 event serial) l
                  = List.filter (mapping_schedules st event serial) l).
  { apply List.filter_ext_in. intros m' Hin. apply mapping_schedules_enriched; [done|].
    apply Hvalid. right. by apply list_elem_of_In. }
  exists st', (tr1 ++ tr). split; [|split; [|split; [|split; [|split; [|split; [|split]]]]]].
  - cbn. unfold_bind. by rewrite Hrun1, Hrun.
  - by eapply enriched_from_trans.
  - intros loc Hloc. rewrite fmap_cons in Hloc. apply not_elem_of_cons in Hloc as [Hne Hloc].
    rewrite (Hother _ Hloc), Hheap1.
    destruct (usb_mapping_matches event serial u); [|done]. by rewrite lookup_insert_ne.
  - rewrite Hdom, Hheap1. destruct (usb_mapping_matches event serial u); [|done].
    apply dom_insert_lookup_L. eauto.
  - rewrite Hsize, Hsame, Htimers1. cbn [List.filter].
    destruct (mapping_schedules st event serial m); [|done].
    rewrite map_size_insert_None by done. cbn. lia.
  - etrans; [|exact Hsub]. rewrite Htimers1.
    destruct (mapping_schedules st event serial m); [|done]. by apply insert_subseteq.
  - intros id t Ht Hnone. destruct (timers st1 !! id) as [t1|] eqn:Ht1.
    + pose proof (lookup_weaken _ _ _ _ Ht1 Hsub) as Ht'.
      assert (t1 = t) as -> by congruence.
      rewrite Htimers1 in Ht1. destruct (mapping_schedules st event serial m) eqn:Hs;
        [|congruence].
      destruct (decide (id = fresh (dom (timers st)))) as [->|Hne].
      * rewrite lookup_insert_eq in Ht1. injection Ht1 as <-.
        exists m. split; [by left|]. by split.
      * rewrite lookup_insert_ne in Ht1 by done. congruence.
    + destruct (Hnew _ _ Ht Ht1) as (m' & Hm' & Hs' & ->).
      exists m'. split; [by right|]. split; [|done].
      rewrite <- Hs'. symmetry. apply mapping_schedules_enriched; [done|].
      apply Hvalid. by right.
  - by rewrite List.filter_app, Hatt1, Hatt.
Qed.

(** *** The serial of an added device *)

Lemma strip_trailing_newline_spec (s : string) :
  s ≠ "" →
  s = strip_trailing_newline s +:+ String newline ""
  ∨ (strip_trailing_newline s = s ∧ ∀ s', s ≠ s' +:+ String newline "").
Proof.
  induction s as [|c s IH]; [done|]. intros _. destruct s as [|c' s].
  - cbn. destruct (Ascii.eqb_spec c newline) as [->|Hne]; [by left|].
    right. split; [done|]. intros s' Heq.
    destruct s' as [|c1 [|c2 s']]; rewrite ?string_app_cons_l, ?string_app_nil in Heq;
      congruence.
  - destruct IH as [IH|[IH Hno]]; [done| |].
    + left. cbn [strip_trailing_newline]. rewrite string_app_cons_l. by f_equal.
    + right. cbn [strip_trailing_newline]. split; [by f_equal|].
      intros [|c1 s']; [rewrite string_app_nil; congruence|]. rewrite string_app_cons_l.
      intros [= -> Heq]. by apply (Hno s').
Qed.

(** X7. The serial an added device is matched with is the content of
    the file [serial] in its sysfs directory without one trailing
    newline: the content is the serial followed by a newline, or the
    serial itself when it does not end in a newline.  A file that holds
    only a newline gives the empty serial; a missing, unreadable or
    empty file gives none. *)
Theorem X7_usb_serial_is_file_content_without_newline w event :
  let serial_path := "/sys/" +:+ ev_devpath event +:+ "/serial" in
  match usb_read_serial w event with
  | Some serial =>
      ∃ content,
        file_exists w serial_path = true
        ∧ file_read_new w serial_path 255 = Some content
        ∧ content ≠ ""
        ∧ (content = serial +:+ String newline ""
           ∨ (content = serial ∧ ∀ s', serial ≠ s' +:+ String newline ""))
  | None =>
      file_exists w serial_path = false
      ∨ file_read_new w serial_path 255 = None
      ∨ file_read_new w serial_path 255 = Some ""
  end.
Proof.
  intros serial_path. unfold usb_read_serial. fold serial_path.
  destruct (file_exists w serial_path); [|by left].
  destruct (file_read_new w serial_path 255) as [content|]; [|right; by left].
  destruct content as [|c content]; [right; by right|].
  cbn [String.length Nat.ltb Nat.leb].
  exists (String c content). split; [done|]. split; [done|]. split; [done|].
  destruct (strip_trailing_newline_spec (String c content)) as [Hnl|[Hsame Hno]]; [done| |].
  - by left.
  - right. by rewrite Hsame.
Qed.

(** ** More on the uevent handler and the timers *)

Section handler_extras.

Variable UEVENT_ACTION_ADD : Z.
Variable UEVENT_ACTION_REMOVE : Z.
Variable network_str_to_mac_addr : string → option mac_addr.
Variable uevent_replace_member : uevent_event → string → string → option uevent_event.

(** X8. Every state the daemon reaches through its entry points is well
    formed: the mappings of both registries point to allocated objects
    and no two USB mappings share a record.  In such a state the two
    callbacks of the event loop are defined, whatever the uevent, the
    timer handle and the outside world are: the uevent handler and a
    firing timer never follow a dangling pointer, and they leave a well
    formed state behind. *)
Theorem X8_callbacks_defined_when_reachable st :
  reachable UEVENT_ACTION_ADD UEVENT_ACTION_REMOVE network_str_to_mac_addr
    uevent_replace_member st →
  wf st
  ∧ (∀ w actions event, ∃ st' tr,
      hotplug_handle_uevent_cb UEVENT_ACTION_ADD UEVENT_ACTION_REMOVE w actions event st
      = Some (tt, st', tr) ∧ wf st')
  ∧ (∀ w timer, ∃ st' tr,
        event_timer_fire uevent_replace_member w timer st = Some (tt, st', tr) ∧ wf st').
Proof.
  intros Hr.
  pose proof (reachable_wf UEVENT_ACTION_ADD UEVENT_ACTION_REMOVE network_str_to_mac_addr
                uevent_replace_member st Hr) as Hwf.
  split; [done|]. split.
  - intros w actions event.
    destruct (hotplug_handle_uevent_cb_run UEVENT_ACTION_ADD UEVENT_ACTION_REMOVE
                w actions event st Hwf) as (st' & tr & Hrun & Hwf' & _).
    by exists st', tr.
  - intros w timer. pose proof Hwf as (_ & _ & Hnv).
    destruct (event_timer_fire_run uevent_replace_member w timer st Hnv)
      as (st' & tr & Hrun & Hframe).
    exists st', tr. split; [done|]. by eapply net_frame_wf.
Qed.

(** X9. A USB device uevent with the remove action and without the add
    action leaves the state exactly as it was: no mapping is dropped and
    the records keep the major and minor of the device that is gone.
    The handler denies the node for every mapping of kind generic whose
    record has the major and minor of the uevent, detaches the token for
    every such mapping of kind token, and allows and attaches nothing. *)
Theorem X9_usb_remove_keeps_state w actions event st :
  dev_mappings_valid st →
  Z.land actions UEVENT_ACTION_REMOVE ≠ 0 →
  Z.land actions UEVENT_ACTION_ADD = 0 →
  String.prefix "usb" (ev_subsystem event) = true →
  String.prefix "usb_device" (ev_devtype event) = true →
  ∃ tr,
    hotplug_handle_uevent_cb UEVENT_ACTION_ADD UEVENT_ACTION_REMOVE w actions event st
    = Some (tt, st, tr)
    ∧ List.filter is_device_deny tr
      = (λ m, Call_container_device_deny (dm_container m) "c"
                (ev_major event) (ev_minor event))
        <$> List.filter (λ m, mapping_removed st event m && negb (mapping_is_token st m))
              (hotplug_container_dev_mapping_list st)
    ∧ List.filter is_token_detach tr
      = (λ m, Call_container_token_detach (dm_container m))
        <$> List.filter (λ m, mapping_removed st event m && mapping_is_token st m)
              (hotplug_container_dev_mapping_list st)
    ∧ device_allows tr = []
    ∧ List.filter is_token_attach tr = [].
Proof.
  intros Hv Hrem Hadd Hsub Hdev.
  destruct (usb_remove_loop_calls event (hotplug_container_dev_mapping_list st) st Hv)
    as (tr & Hrun & Hdeny & Hdetach).
  destruct (usb_remove_loop_run event (hotplug_container_dev_mapping_list st) st Hv)
    as (tr' & Hrun' & Hallow).
  rewrite Hrun in Hrun'. injection Hrun' as <-.
  pose proof (usb_remove_loop_no_attach _ _ _ _ _ Hrun) as Hattach.
  exists tr. split; [|done].
  unfold hotplug_handle_uevent_cb, hotplug_handle_usb_device.
  rewrite Hsub, Hdev. cbn [negb orb].
  rewrite (bool_decide_eq_true_2 _ Hrem), bool_decide_eq_false_2 by (intros Hne; by apply Hne).
  unfold mbind, M_bind, get. cbn. rewrite Hrun. cbn. by rewrite !app_nil_r.
Qed.

(** X10. Uevents the handler ignores, in any state: nothing is called or
    logged and the state is as it was (a) when the action is neither add
    nor remove, (b) when the device is no USB device and the uevent is
    not the add of a net interface whose devpath is free of [virtual],
    (c) when a USB device is added and not removed but the serial file
    of its sysfs directory is missing or empty. *)
Theorem X10_uevent_ignored w actions event st :
  (Z.land actions UEVENT_ACTION_ADD = 0 ∧ Z.land actions UEVENT_ACTION_REMOVE = 0)
  ∨ ((String.prefix "usb" (ev_subsystem event) = false
      ∨ String.prefix "usb_device" (ev_devtype event) = false)
     ∧ (Z.land actions UEVENT_ACTION_ADD = 0
        ∨ ev_subsystem event ≠ "net"
        ∨ strstr_found (ev_devpath event) "virtual" = true))
  ∨ (String.prefix "usb" (ev_subsystem event) = true
     ∧ String.prefix "usb_device" (ev_devtype event) = true
     ∧ Z.land actions UEVENT_ACTION_REMOVE = 0
     ∧ usb_read_serial w event = None) →
  hotplug_handle_uevent_cb UEVENT_ACTION_ADD UEVENT_ACTION_REMOVE w actions event st
  = Some (tt, st, []).
Proof.
  assert (Hnet : ∀ s, String.prefix "usb" s = true → String.eqb s "net" = false).
  { intros s Hs. destruct (String.eqb_spec s "net") as [->|]; [discriminate Hs|done]. }
  unfold hotplug_handle_uevent_cb, hotplug_handle_usb_device.
  intros [[Hadd Hrem]|[[Husb Hnot]|(Hsub & Hdev & Hrem & Hserial)]].
  - rewrite !bool_decide_eq_false_2 by (intros Hne; by apply Hne).
    by destruct (negb (String.prefix "usb" (ev_subsystem event))
                 || negb (String.prefix "usb_device" (ev_devtype event))).
  - assert (Hno : negb (String.prefix "usb" (ev_subsystem event))
                  || negb (String.prefix "usb_device" (ev_devtype event)) = true)
      by (destruct Husb as [-> | ->]; [done|apply orb_true_r]).
    rewrite Hno. unfold mbind, M_bind. cbn.
    destruct Hnot as [Hadd|[Hsub|Hvirt]].
    + by rewrite bool_decide_eq_false_2 by (intros Hne; by apply Hne).
    + destruct (String.eqb_spec (ev_subsystem event) "net"); [done|].
      by rewrite andb_false_r.
    + by rewrite Hvirt, andb_false_r.
  - rewrite Hsub, Hdev, Hserial. cbn [negb orb].
    rewrite (bool_decide_eq_false_2 (Z.land actions UEVENT_ACTION_REMOVE ≠ 0))
      by (intros Hne; by apply Hne).
    rewrite (Hnet _ Hsub). unfold mbind, M_bind. cbn.
    by destruct (bool_decide (Z.land actions UEVENT_ACTION_ADD ≠ 0)).
Qed.

(** A registered timer fires by running its callback. *)
Lemma event_timer_fire_registered w timer t st :
  timers st !! timer = Some t →
  event_timer_fire uevent_replace_member w timer st
  = match timer_cb t with
    | token_timer_closure data => hotplug_token_timer_cb w timer data st
    | sysfs_netif_timer_closure data =>
        hotplug_sysfs_netif_timer_cb uevent_replace_member w timer data st
    end.
Proof.
  intros Ht. unfold event_timer_fire, mbind, M_bind, get. rewrite Ht.
  destruct (timer_cb t) as [data|data]; cbn.
  - by destruct (hotplug_token_timer_cb w timer data st) as [[[[] st'] tr]|].
  - by destruct (hotplug_sysfs_netif_timer_cb uevent_replace_member w timer data st)
      as [[[[] st'] tr]|].
Qed.

(** X11. The add of a physical net interface is debounced: the handler
    reports the interface to the list of physical interfaces and
    registers one timer (100 ms, repeating) that carries the uevent, and
    does nothing else.  When that timer fires for a wifi interface that
    sysfs does not show as wireless yet, nothing happens; otherwise the
    move of the interface is attempted once, the outcome is logged, and
    the timer is cancelled, so that the registered timers are again
    those from before the uevent. *)
Theorem X11_net_add_is_debounced w w' actions event st :
  netdev_mappings_valid st →
  Z.land actions UEVENT_ACTION_ADD ≠ 0 →
  ev_subsystem event = "net" →
  strstr_found (ev_devpath event) "virtual" = false →
  let timer := fresh (dom (timers st)) in
  let st0 := set_timers (insert timer
                           {| timer_timeout := 100;
                              timer_repeats := EVENT_TIMER_REPEAT_FOREVER;
                              timer_cb := sysfs_netif_timer_closure event |}) st in
  hotplug_handle_uevent_cb UEVENT_ACTION_ADD UEVENT_ACTION_REMOVE w actions event st
  = Some (tt, st0, [Call_cmld_netif_phys_add_by_name (ev_interface event)])
  ∧ timers st !! timer = None
  ∧ if String.eqb (ev_devtype event) "wlan"
       && negb (network_interface_is_wifi w' (ev_interface event))
    then event_timer_fire uevent_replace_member w' timer st0 = Some (tt, st0, [])
    else ∃ r st1 tr1,
        hotplug_netdev_move uevent_replace_member w' event st0 = Some (r, st1, tr1)
        ∧ event_timer_fire uevent_replace_member w' timer st0
          = Some (tt, set_timers (delete timer) st1,
                  tr1 ++ [if r =? -1 then Log LOG_WARN "Did not move net interface!"
                          else Log LOG_INFO "Moved net interface to target."])
        ∧ timers (set_timers (delete timer) st1) = timers st.
Proof.
  intros Hv Hadd Hsub Hvirt timer st0.
  assert (Hfresh : timers st !! timer = None).
  { apply not_elem_of_dom. apply is_fresh. }
  split; [|split; [done|]].
  - unfold hotplug_handle_uevent_cb, hotplug_handle_usb_device. rewrite Hsub, Hvirt.
    by rewrite (bool_decide_eq_true_2 _ Hadd).
  - assert (Hfire : event_timer_fire uevent_replace_member w' timer st0
                    = hotplug_sysfs_netif_timer_cb uevent_replace_member w' timer event st0).
    { erewrite event_timer_fire_registered; [|subst st0; cbn; apply lookup_insert_eq].
      done. }
    rewrite Hfire. unfold hotplug_sysfs_netif_timer_cb.
    destruct (String.eqb (ev_devtype event) "wlan"
              && negb (network_interface_is_wifi w' (ev_interface event))); [done|].
    destruct (hotplug_netdev_move_total uevent_replace_member w' event st0)
      as (r & st1 & tr1 & Hrun & Hframe); [done|].
    exists r, st1, tr1. split; [done|]. split.
    + unfold mbind, M_bind, log, event_remove_timer, modify. rewrite Hrun.
      by destruct (r =? -1).
    + destruct Hframe as (_ & _ & _ & _ & Htimers & _). cbn. rewrite Htimers.
      subst st0. cbn. rewrite delete_insert_eq. by apply delete_id.
Qed.

(** X12. The debounce of a wifi interface has no bound of its own: as
    long as sysfs does not show the interface as wireless, the timer
    may fire any number of times; the state, the timer included, stays
    as it is and nothing is called or logged. *)
Theorem X12_wlan_debounce_waits (ws : list world) timer t event st :
  timers st !! timer = Some t →
  timer_cb t = sysfs_netif_timer_closure event →
  ev_devtype event = "wlan" →
  (∀ w, w ∈ ws → network_interface_is_wifi w (ev_interface event) = false) →
  foreach (λ w, event_timer_fire uevent_replace_member w timer) ws st = Some (tt, st, []).
Proof.
  intros Ht Hcb Hdev Hwait. induction ws as [|w ws IH]; [done|].
  cbn [foreach]. unfold mbind at 1, M_bind at 1.
  assert (Hfire : event_timer_fire uevent_replace_member w timer st = Some (tt, st, [])).
  { rewrite (event_timer_fire_registered _ _ _ _ Ht), Hcb.
    unfold hotplug_sysfs_netif_timer_cb. rewrite Hdev, (Hwait w) by by left. done. }
  rewrite Hfire, IH; [done|]. intros w0 Hw0. apply Hwait. by right.
Qed.

(** A timer that is not registered does not fire. *)
Lemma event_timer_fire_unregistered (ws : list world) timer st :
  timers st !! timer = None →
  foreach (λ w, event_timer_fire uevent_replace_member w timer) ws st = Some (tt, st, []).
Proof.
  intros Ht. induction ws as [|w ws IH]; [done|].
  cbn [foreach]. unfold mbind at 1, M_bind at 1.
  assert (Hfire : event_timer_fire uevent_replace_member w timer st = Some (tt, st, [])).
  { unfold event_timer_fire, mbind, M_bind, get. by rewrite Ht. }
  by rewrite Hfire, IH.
Qed.

(** X13. The wait of a token timer is bounded by the counter: with a
    counter of [r ≥ -1] the timer is cancelled at the latest when it
    fires for the [r + 2]nd time, whether the device node has appeared
    or not; over all its firings it attaches the token at most once, and
    it changes nothing but the counter and the set of timers. *)
Theorem X13_token_timer_is_bounded (ws : list world) timer t data st :
  timers st !! timer = Some t →
  timer_cb t = token_timer_closure data →
  -1 ≤ retries st < 2 ^ 31 →
  retries st + 2 ≤ Z.of_nat (length ws) →
  ∃ st' tr,
    foreach (λ w, event_timer_fire uevent_replace_member w timer) ws st = Some (tt, st', tr)
    ∧ timers st' = delete timer (timers st)
    ∧ (length (List.filter is_token_attach tr) ≤ 1)%nat
    ∧ retries st' < retries st
    ∧ usb_frame (set_retries (retries st') st) st'
    ∧ usbdevs st' = usbdevs st.
Proof.
  revert st. induction ws as [|w ws IH]; intros st Ht Hcb Hr Hlen; [cbn in Hlen; lia|].
  assert (Hfire : event_timer_fire uevent_replace_member w timer st
                  = hotplug_token_timer_cb w timer data st).
  { by rewrite (event_timer_fire_registered _ _ _ _ Ht), Hcb. }
  assert (Hwrap : int_wrap (retries st - 1) = retries st - 1).
  { unfold int_wrap. rewrite Z.mod_small; lia. }
  cbn [foreach]. unfold mbind at 1, M_bind at 1. rewrite Hfire.
  destruct (decide (retries st < 0)) as [Hneg|Hpos].
  { rewrite hotplug_token_timer_cb_exhausted by done.
    rewrite event_timer_fire_unregistered by apply lookup_delete_eq.
    eexists _, _. split; [reflexivity|]. cbn. rewrite Hwrap.
    repeat split; cbn; [lia|lia]. }
  destruct (file_exists w (td_devname data)) eqn:Hnode.
  { rewrite hotplug_token_timer_cb_attaches by (done || lia).
    rewrite event_timer_fire_unregistered by apply lookup_delete_eq.
    eexists _, _. split; [reflexivity|]. cbn. rewrite Hwrap.
    repeat split; cbn; [lia|lia]. }
  rewrite hotplug_token_timer_cb_waits by (done || lia).
  destruct (IH (set_retries (int_wrap (retries st - 1)) st))
    as (st' & tr & Hrun & Htimers & Hattach & Hretries & Hframe & Husb).
  { done. } { done. } { cbn. rewrite Hwrap. lia. }
  { cbn [retries set_retries length] in *. rewrite Hwrap. lia. }
  rewrite Hrun. exists st', tr. split; [done|]. cbn in *. rewrite Hwrap in Hretries.
  repeat split; try done; try lia; by destruct Hframe as (?&?&?&?&?&?).
Qed.

(** The USB handler on mappings with allocated records: it attaches
    nothing, and it leaves the state as it is unless it runs the add
    loop. *)
Lemma hotplug_handle_usb_device_cases w actions event st :
  dev_mappings_valid st →
  ∃ st' tr,
    hotplug_handle_usb_device UEVENT_ACTION_ADD UEVENT_ACTION_REMOVE w actions event st
    = Some (false, st', tr)
    ∧ List.filter is_token_attach tr = []
    ∧ (st' = st
       ∨ String.prefix "usb" (ev_subsystem event) = true
         ∧ ∃ serial tr0 tr1,
             usb_read_serial w event = Some serial
             ∧ tr = tr0 ++ tr1
             ∧ foreach (usb_add_mapping event serial)
                 (hotplug_container_dev_mapping_list st) st = Some (tt, st', tr1)).
Proof.
  intros Hv. unfold hotplug_handle_usb_device.
  destruct (String.prefix "usb" (ev_subsystem event)) eqn:Hsub; cbn [negb orb].
  2:{ exists st, []. split; [done|]. split; [done|by left]. }
  destruct (negb (String.prefix "usb_device" (ev_devtype event))).
  { exists st, []. split; [done|]. split; [done|by left]. }
  destruct (usb_remove_loop_run event (hotplug_container_dev_mapping_list st) st Hv)
    as (tr0 & Hrun0 & _).
  pose proof (usb_remove_loop_no_attach _ _ _ _ _ Hrun0) as Hatt0.
  assert (Hrem : ∃ tr0',
    (if bool_decide (Z.land actions UEVENT_ACTION_REMOVE ≠ 0)
     then st0 ← get; foreach (usb_remove_mapping event) (hotplug_container_dev_mapping_list st0)
     else mret tt) st = Some (tt, st, tr0')
    ∧ List.filter is_token_attach tr0' = []).
  { destruct (bool_decide (Z.land actions UEVENT_ACTION_REMOVE ≠ 0)); [|by exists []].
    exists tr0. unfold mbind, M_bind, get. cbn. by rewrite Hrun0. }
  destruct Hrem as (tr0' & Hrem & Hatt0').
  unfold mbind at 1, M_bind at 1. rewrite Hrem.
  destruct (bool_decide (Z.land actions UEVENT_ACTION_ADD ≠ 0)).
  2:{ eexists st, _. split; [reflexivity|]. rewrite app_nil_r. split; [done|by left]. }
  destruct (usb_read_serial w event) as [serial|].
  2:{ eexists st, _. split; [reflexivity|]. rewrite app_nil_r. split; [done|by left]. }
  destruct (usb_add_loop_timers event serial (hotplug_container_dev_mapping_list st) st Hv)
    as (st' & tr & Hrun & _ & _ & _ & _ & _ & _ & Hatt).
  eexists st', (tr0' ++ tr). split; [|split].
  - unfold mbind, M_bind, get. cbn. rewrite Hrun. by rewrite !app_nil_r.
  - by rewrite List.filter_app, Hatt0', Hatt.
  - right. split; [done|]. by exists serial, tr0', tr.
Qed.

(** X14. Whatever the uevent, the handler neither allocates nor
    releases a usbdev record and leaves both registries as they are;
    records that no mapping points to, such as the records the callers
    keep, are untouched, and in the other records only major and minor
    can change. *)
Theorem X14_uevent_touches_mapped_records_only w actions event st :
  dev_mappings_valid st →
  ∃ st' tr,
    hotplug_handle_uevent_cb UEVENT_ACTION_ADD UEVENT_ACTION_REMOVE w actions event st
    = Some (tt, st', tr)
    ∧ dom (usbdevs st') = dom (usbdevs st)
    ∧ hotplug_container_dev_mapping_list st' = hotplug_container_dev_mapping_list st
    ∧ hotplug_container_netdev_mapping_list st' = hotplug_container_netdev_mapping_list st
    ∧ (∀ loc, loc ∉ dm_usbdev <$> hotplug_container_dev_mapping_list st →
              usbdevs st' !! loc = usbdevs st !! loc)
    ∧ (∀ loc u, usbdevs st !! loc = Some u →
                ∃ u', usbdevs st' !! loc = Some u'
                      ∧ with_minor (with_major u' (major u)) (minor u) = u).
Proof.
  intros Hv.
  destruct (hotplug_handle_usb_device_cases w actions event st Hv)
    as (st1 & tr1 & Hrun1 & _ & Hcases).
  assert (Hkeep : ∀ u : hotplug_usbdev, with_minor (with_major u (major u)) (minor u) = u)
    by by intros [].
  assert (Husb : dom (usbdevs st1) = dom (usbdevs st)
    ∧ hotplug_container_dev_mapping_list st1 = hotplug_container_dev_mapping_list st
    ∧ hotplug_container_netdev_mapping_list st1 = hotplug_container_netdev_mapping_list st
    ∧ (∀ loc, loc ∉ dm_usbdev <$> hotplug_container_dev_mapping_list st →
              usbdevs st1 !! loc = usbdevs st !! loc)
    ∧ (∀ loc u, usbdevs st !! loc = Some u →
                ∃ u', usbdevs st1 !! loc = Some u'
                      ∧ with_minor (with_major u' (major u)) (minor u) = u)).
  { destruct Hcases as [->|(_ & serial & tr0 & tr2 & _ & _ & Hloop)].
    { repeat split; try done. intros loc u Hu. exists u. by rewrite Hkeep. }
    destruct (usb_add_loop_timers event serial (hotplug_container_dev_mapping_list st) st Hv)
      as (st' & tr & Hrun & Hen & Hother & Hdom & _).
    destruct (usb_add_loop_run event serial (hotplug_container_dev_mapping_list st) st Hv)
      as (st'' & tr' & Hrun' & Hframe & _).
    rewrite Hloop in Hrun, Hrun'. injection Hrun as <- <-. injection Hrun' as <- _.
    destruct Hframe as (Hl & _ & Hn & _).
    repeat split; try done. intros loc u Hu.
    destruct (Hen _ _ Hu) as [Hsame|[_ Hnew]].
    - exists u. by rewrite Hkeep.
    - exists (enrich event u). split; [done|]. by destruct u. }
  unfold hotplug_handle_uevent_cb. unfold mbind at 1, M_bind at 1. rewrite Hrun1.
  destruct (bool_decide (Z.land actions UEVENT_ACTION_ADD ≠ 0)
            && String.eqb (ev_subsystem event) "net"
            && negb (strstr_found (ev_devpath event) "virtual")).
  - eexists _, _. split; [reflexivity|]. exact Husb.
  - eexists _, _. split; [reflexivity|]. exact Husb.
Qed.

(** X15. The attach of a token is left to timers: when a USB device is
    added and its serial is read, the handler itself attaches nothing;
    it registers one timer (100 ms, repeating) for every mapping of kind
    token that matches the device, with the container of the mapping
    and the device node of the uevent, and no other timer; the timers
    that were registered stay. *)
Theorem X15_token_attach_is_deferred w actions event serial st :
  dev_mappings_valid st →
  String.prefix "usb" (ev_subsystem event) = true →
  String.prefix "usb_device" (ev_devtype event) = true →
  Z.land actions UEVENT_ACTION_ADD ≠ 0 →
  usb_read_serial w event = Some serial →
  ∃ st' tr,
    hotplug_handle_uevent_cb UEVENT_ACTION_ADD UEVENT_ACTION_REMOVE w actions event st
    = Some (tt, st', tr)
    ∧ List.filter is_token_attach tr = []
    ∧ size (timers st')
      = (size (timers st)
         + length (List.filter (mapping_schedules st event serial)
                     (hotplug_container_dev_mapping_list st)))%nat
    ∧ timers st ⊆ timers st'
    ∧ (∀ id t, timers st' !! id = Some t → timers st !! id = None →
               ∃ m, m ∈ hotplug_container_dev_mapping_list st
                    ∧ mapping_schedules st event serial m = true
                    ∧ t = token_timer_of event m).
Proof.
  intros Hv Hsub Hdev Hadd Hserial.
  destruct (hotplug_handle_usb_device_cases w actions event st Hv)
    as (st1 & tr1 & Hrun1 & Hatt & _).
  destruct (usb_add_loop_timers event serial (hotplug_container_dev_mapping_list st) st Hv)
    as (st' & tr & Hrun & _ & _ & _ & Hsize & Hsubset & Hnew & _).
  destruct (usb_remove_loop_run event (hotplug_container_dev_mapping_list st) st Hv)
    as (tr0 & Hrun0 & _).
  assert (st1 = st') as ->.
  { revert Hrun1. unfold hotplug_handle_usb_device. rewrite Hsub, Hdev. cbn [negb orb].
    rewrite (bool_decide_eq_true_2 _ Hadd), Hserial.
    unfold mbind, M_bind, get.
    destruct (bool_decide (Z.land actions UEVENT_ACTION_REMOVE ≠ 0));
      cbn; rewrite ?Hrun0; cbn; rewrite Hrun; by intros [= <- _]. }
  assert (Hnet : String.eqb (ev_subsystem event) "net" = false).
  { destruct (String.eqb_spec (ev_subsystem event) "net") as [Heq|]; [|done].
    rewrite Heq in Hsub. discriminate Hsub. }
  exists st', (tr1 ++ []). split.
  { unfold hotplug_handle_uevent_cb. unfold mbind at 1, M_bind at 1.
    by rewrite Hrun1, Hnet, andb_false_r. }
  rewrite app_nil_r. by repeat split.
Qed.

End handler_extras.

(** ** More on the move of interfaces *)

Section net_extras.

Variable uevent_replace_member : uevent_event → string → string → option uevent_event.

(** [netdev_move_to] and the heap of configurations: the configuration
    of the target gets the new name once the state test is passed; the
    ephemeral configuration is released exactly when the result is -1. *)
Lemma netdev_move_to_heap w event container pnet_cfg pnet_cfg_c0 cfg st :
  pnet_cfgs st !! pnet_cfg = Some cfg →
  pnet_cfg_c0 = None ∨ pnet_cfg_c0 = Some pnet_cfg →
  let cfg' := if target_permits_move w container
              then moved_cfg uevent_replace_member w event st cfg else cfg in
  ∃ r st' tr,
    netdev_move_to uevent_replace_member w event container pnet_cfg pnet_cfg_c0 st
    = Some (r, st', tr)
    ∧ (r = 0 ∨ r = -1)
    ∧ (target_permits_move w container = false → r = -1)
    ∧ pnet_cfgs st'
      = if bool_decide (pnet_cfg_c0 = Some pnet_cfg ∧ r = -1)
        then delete pnet_cfg (pnet_cfgs st)
        else <[pnet_cfg := cfg']> (pnet_cfgs st).
Proof.
  intros Hcfg Hc0 cfg'.
  assert (Herr : ∃ st', netdev_move_error pnet_cfg_c0 st = Some (-1, st', [])
    ∧ pnet_cfgs st' = if bool_decide (pnet_cfg_c0 = Some pnet_cfg ∧ -1 = -1)
                      then delete pnet_cfg (pnet_cfgs st)
                      else <[pnet_cfg := cfg]> (pnet_cfgs st)).
  { destruct Hc0 as [-> | ->].
    - exists st. split; [done|]. rewrite bool_decide_eq_false_2 by (by intros [? _]).
      by rewrite insert_id.
    - unfold netdev_move_error, mbind, M_bind, pnet_cfg_free. rewrite Hcfg.
      eexists. split; [reflexivity|]. by rewrite bool_decide_eq_true_2. }
  destruct Herr as (st' & Herr & Hheap).
  destruct container as [container|].
  2:{ exists (-1), st'. eexists. unfold netdev_move_to, mbind, M_bind, log, call.
      cbn -[netdev_move_error]. rewrite Herr. subst cfg'. cbn. by eauto. }
  destruct (state_permits_move (container_get_state w container)) eqn:Hperm.
  2:{ exists (-1), st'. eexists. unfold netdev_move_to, mbind, M_bind, log, call.
      rewrite Hperm. cbn -[netdev_move_error]. rewrite Herr. subst cfg'. cbn.
      rewrite Hperm. by eauto. }
  clear st' Herr Hheap. subst cfg'. cbn [target_permits_move]. rewrite Hperm.
  destruct (hotplug_rename_interface_run uevent_replace_member w event st)
    as (newevent & tr1 & _ & Hrun).
  pose proof (Hrun (λ h, h)) as Hrun0. rewrite !set_pnet_cfgs_id in Hrun0.
  unfold moved_cfg. rewrite Hrun0.
  unfold netdev_move_to. rewrite Hperm. cbn [negb].
  unfold mbind at 1, M_bind at 1. rewrite Hrun0.
  assert (Hcfg1 : pnet_cfgs (advance_idx (rename_prefix event) st) !! pnet_cfg = Some cfg)
    by by rewrite advance_idx_pnet_cfgs.
  pose proof (advance_idx_pnet_cfgs (rename_prefix event) st) as Heq.
  generalize dependent (advance_idx (rename_prefix event) st). intros st1 _ _ Hcfg1 Heq.
  destruct cfg as [name filter whitelist]. cbn [mac_filter mac_whitelist].
  destruct newevent as [ne|];
    destruct (bool_decide (cmld_container_add_net_iface w container pnet_cfg false ≠ 0));
    destruct filter eqn:Hfilter;
    destruct Hc0 as [-> | ->];
    repeat (progress (unfold mbind, M_bind, container_pnet_cfg_set_pnet_name, log, call,
                        pnet_cfg_load, netdev_move_error, pnet_cfg_free;
                      cbn; rewrite ?Hcfg1, ?lookup_insert_eq, ?Hfilter));
    try (destruct (uevent_event_inject_into_netns w _ _ _ <? 0); cbn);
    eexists _, _, _; (split; [reflexivity|]); (split; [by auto|]); (split; [done|]);
    cbn; rewrite ?Heq;
    try (rewrite bool_decide_eq_true_2 by done);
    try (rewrite bool_decide_eq_false_2 by (intros [? ?]; done));
    rewrite ?delete_insert_eq; try done; by rewrite insert_id.
Qed.

(** X16. The configuration made up for an interface without mapping
    does not outlive a failed move.  When no mapping has the MAC of the
    interface (or the interface has none), [hotplug_netdev_move] is
    defined in every state and returns 0 or -1; with -1 the heap of
    configurations is exactly as before, with 0 it has one more
    configuration, without MAC filter and whitelist, at a location that
    was free. *)
Theorem X16_failed_move_releases_ephemeral_cfg w event st :
  (∀ iface_mac m, network_get_mac_by_ifname w (ev_interface event) = Some iface_mac →
                  m ∈ hotplug_container_netdev_mapping_list st → nm_mac m ≠ iface_mac) →
  ∃ r st' tr,
    hotplug_netdev_move uevent_replace_member w event st = Some (r, st', tr)
    ∧ (r = 0 ∨ r = -1)
    ∧ (r = -1 → pnet_cfgs st' = pnet_cfgs st)
    ∧ (r = 0 →
       pnet_cfgs st !! fresh (dom (pnet_cfgs st)) = None
       ∧ ∃ name, pnet_cfgs st'
                 = <[fresh (dom (pnet_cfgs st)) := mk_pnet_cfg name false []]> (pnet_cfgs st)).
Proof.
  intros Hnone. unfold hotplug_netdev_move.
  destruct (network_get_mac_by_ifname w (ev_interface event)) as [iface_mac|] eqn:Hmac.
  2:{ exists (-1), st. eexists. split; [reflexivity|]. split; [by right|]. split; [done|].
      intros [=]. }
  unfold mbind at 1, M_bind at 1, get.
  rewrite netdev_mapping_lookup_None by (intros m Hm; by apply (Hnone iface_mac m)).
  set (l := fresh (dom (pnet_cfgs st))).
  set (cfg0 := mk_pnet_cfg (ev_interface event) false []).
  set (st0 := set_pnet_cfgs (insert l cfg0) st).
  assert (Hl : pnet_cfgs st !! l = None) by apply fresh_pnet_cfg_None.
  destruct (netdev_move_to_heap w event (cmld_containers_get_c0 w) l (Some l) cfg0 st0)
    as (r & st' & tr & Hrun & Hr & _ & Hheap); [apply lookup_insert_eq|by right|].
  exists r, st', tr. split.
  { unfold mbind, M_bind, container_pnet_cfg_new. fold l cfg0 st0. by rewrite Hrun. }
  split; [done|]. split.
  - intros ->. rewrite Hheap, bool_decide_eq_true_2 by done.
    subst st0. cbn. rewrite delete_insert_eq. by apply delete_id.
  - intros ->. split; [done|].
    rewrite Hheap, bool_decide_eq_false_2 by (by intros [_ ?]).
    subst st0. cbn. rewrite insert_insert_eq.
    destruct (target_permits_move w (cmld_containers_get_c0 w)); [|by exists (ev_interface event)].
    unfold moved_cfg.
    destruct (hotplug_rename_interface uevent_replace_member w event _)
      as [[[[ne|] ?] ?]|]; by eauto.
Qed.

(** X17. A move into the container of a mapping changes nothing in the
    heap of configurations but the name of the mapping's configuration:
    MAC filter and whitelist stay.  Once the target has passed the
    state test and the rename has succeeded, the name is that of the
    renamed interface, also when the network module then refuses the
    move and the result is -1; in every other case the configuration is
    as it was.  The registry, with the MAC of the mapping, is
    unchanged. *)
Theorem X17_mapped_move_overwrites_name w event st iface_mac mapping cfg :
  network_get_mac_by_ifname w (ev_interface event) = Some iface_mac →
  netdev_mapping_lookup iface_mac (hotplug_container_netdev_mapping_list st) = Some mapping →
  pnet_cfgs st !! nm_pnet_cfg mapping = Some cfg →
  let cfg' := if state_permits_move (container_get_state w (nm_container mapping))
              then moved_cfg uevent_replace_member w event st cfg else cfg in
  ∃ r st' tr,
    hotplug_netdev_move uevent_replace_member w event st = Some (r, st', tr)
    ∧ (r = 0 ∨ r = -1)
    ∧ pnet_cfgs st' = <[nm_pnet_cfg mapping := cfg']> (pnet_cfgs st)
    ∧ mac_filter cfg' = mac_filter cfg
    ∧ mac_whitelist cfg' = mac_whitelist cfg
    ∧ hotplug_container_netdev_mapping_list st' = hotplug_container_netdev_mapping_list st.
Proof.
  intros Hmac Hfound Hcfg cfg'.
  destruct (netdev_move_to_heap w event (Some (nm_container mapping)) (nm_pnet_cfg mapping)
              None cfg st Hcfg) as (r & st' & tr & Hrun & Hr & _ & Hheap); [by left|].
  destruct (netdev_move_to_total uevent_replace_member w event (Some (nm_container mapping))
              (nm_pnet_cfg mapping) None cfg st Hcfg)
    as (r2 & st2 & tr2 & Hrun2 & Hframe); [by left|].
  rewrite Hrun in Hrun2. injection Hrun2 as <- <- <-.
  exists r, st', tr. split.
  { unfold hotplug_netdev_move. rewrite Hmac. unfold mbind, M_bind, get.
    by rewrite Hfound, Hrun. }
  split; [done|]. split.
  { rewrite Hheap. by rewrite bool_decide_eq_false_2 by (by intros [? _]). }
  destruct Hframe as (_ & _ & Hlist & _).
  subst cfg'. unfold moved_cfg.
  destruct (state_permits_move _); [|done].
  by destruct (hotplug_rename_interface uevent_replace_member w event st)
    as [[[[ne|] ?] ?]|].
Qed.

Lemma netdev_move_to_trace w event container pnet_cfg pnet_cfg_c0 cfg st :
  pnet_cfgs st !! pnet_cfg = Some cfg →
  pnet_cfg_c0 = None ∨ pnet_cfg_c0 = Some pnet_cfg →
  ∃ r st' tr,
    netdev_move_to uevent_replace_member w event container pnet_cfg pnet_cfg_c0 st
    = Some (r, st', tr)
    ∧ (r = 0 ∨ r = -1)
    ∧ (r = -1 → injections tr = [])
    ∧ (length (List.filter is_add_net_iface tr) ≤ 1)%nat
    ∧ (length (injections tr) ≤ 1)%nat
    ∧ (injections tr ≠ [] → List.filter is_add_net_iface tr ≠ []).
Proof.
  intros Hcfg Hc0.
  assert (Herr : ∃ st', netdev_move_error pnet_cfg_c0 st = Some (-1, st', [])).
  { destruct (netdev_move_error_run pnet_cfg_c0 st) as (st' & Herr & _); [|by eauto].
    intros l ->. destruct Hc0 as [|[= ->]]; [done|eauto]. }
  destruct Herr as (st' & Herr).
  destruct container as [container|].
  2:{ exists (-1), st'. eexists. unfold netdev_move_to, mbind, M_bind, log, call.
      cbn -[netdev_move_error]. rewrite Herr. split; [reflexivity|]. cbn.
      repeat split; auto. }
  destruct (state_permits_move (container_get_state w container)) eqn:Hperm.
  2:{ exists (-1), st'. eexists. unfold netdev_move_to, mbind, M_bind, log, call.
      rewrite Hperm. cbn -[netdev_move_error]. rewrite Herr. split; [reflexivity|]. cbn.
      repeat split; auto. }
  destruct (netdev_move_to_run uevent_replace_member w event container pnet_cfg pnet_cfg_c0
              cfg st Hperm Hcfg Hc0)
    as (newevent & tr1 & r & st2 & tr & _ & Hrun & _ & Hadd & Hres).
  exists r, st2, tr. split; [done|]. rewrite Hadd.
  destruct (bool_decide (cmld_container_add_net_iface w container pnet_cfg false ≠ 0)).
  - destruct Hres as [-> Hinj]. rewrite Hinj. cbn. repeat split; auto.
  - destruct Hres as (-> & _ & Hinj). rewrite Hinj.
    destruct (mac_filter cfg); cbn; repeat split; auto; try lia; done.
Qed.

Lemma hotplug_netdev_move_trace w event st :
  netdev_mappings_valid st →
  ∃ r st' tr,
    hotplug_netdev_move uevent_replace_member w event st = Some (r, st', tr)
    ∧ (r = 0 ∨ r = -1)
    ∧ (r = -1 → injections tr = [])
    ∧ (length (List.filter is_add_net_iface tr) ≤ 1)%nat
    ∧ (length (injections tr) ≤ 1)%nat
    ∧ (injections tr ≠ [] → List.filter is_add_net_iface tr ≠ []).
Proof.
  intros Hv. unfold hotplug_netdev_move.
  destruct (network_get_mac_by_ifname w (ev_interface event)) as [iface_mac|].
  2:{ eexists _, st, _. split; [reflexivity|]. cbn. repeat split; auto. }
  unfold mbind at 1, M_bind at 1, get.
  destruct (netdev_mapping_lookup iface_mac (hotplug_container_netdev_mapping_list st))
    as [mapping|] eqn:Hfind.
  - destruct (Hv mapping) as [cfg Hcfg].
    { apply List.find_some in Hfind as [Hin _]. by apply list_elem_of_In. }
    destruct (netdev_move_to_trace w event (Some (nm_container mapping))
                (nm_pnet_cfg mapping) None cfg st Hcfg)
      as (r & st' & tr & Hrun & Hrest); [by left|].
    exists r, st', tr. by rewrite Hrun.
  - set (l := fresh (dom (pnet_cfgs st))).
    set (st0 := set_pnet_cfgs (insert l (mk_pnet_cfg (ev_interface event) false [])) st).
    destruct (netdev_move_to_trace w event (cmld_containers_get_c0 w) l (Some l)
                (mk_pnet_cfg (ev_interface event) false []) st0)
      as (r & st' & tr & Hrun & Hrest); [apply lookup_insert_eq|by right|].
    exists r, st', tr. split; [|done].
    unfold mbind, M_bind, container_pnet_cfg_new. fold l st0. by rewrite Hrun.
Qed.

(** X18. No uevent is injected for an interface that was not moved.
    From a state whose net mappings have allocated configurations
    [hotplug_netdev_move] is defined and returns 0 or -1; it asks the
    network module for at most one move and injects at most one uevent,
    none without having asked for the move and none when the result is
    -1.  It leaves the registries, the usbdev records, the timers and
    the counter of the token timers as they are, and every
    configuration that was allocated stays allocated. *)
Theorem X18_no_injection_without_move w event st :
  netdev_mappings_valid st →
  ∃ r st' tr,
    hotplug_netdev_move uevent_replace_member w event st = Some (r, st', tr)
    ∧ (r = 0 ∨ r = -1)
    ∧ (r = -1 → injections tr = [])
    ∧ (length (List.filter is_add_net_iface tr) ≤ 1)%nat
    ∧ (length (injections tr) ≤ 1)%nat
    ∧ (injections tr ≠ [] → List.filter is_add_net_iface tr ≠ [])
    ∧ move_frame None st st'.
Proof.
  intros Hv.
  destruct (hotplug_netdev_move_trace w event st Hv)
    as (r & st' & tr & Hrun & Hr & Hfail & Hadd & Hinj & Hord).
  destruct (hotplug_netdev_move_total uevent_replace_member w event st Hv)
    as (r2 & st2 & tr2 & Hrun2 & Hframe).
  rewrite Hrun in Hrun2. injection Hrun2 as <- <- <-.
  exists r, st', tr. repeat (split; [assumption|]). exact Hframe.
Qed.

(** X19. A rename is not taken back when the uevent cannot be
    rewritten: when the kernel has renamed the interface but the old
    name does not occur in the devpath of the uevent,
    [hotplug_rename_interface] yields no uevent although the interface
    carries the new name and the list of physical interfaces has been
    updated; the index is used up. *)
Theorem X19_rename_kept_without_new_uevent w event st :
  let newname := rename_newname (rename_prefix event) st in
  network_rename_ifi w (ev_interface event) newname = 0 →
  hotplug_replace_devpath_new (ev_devpath event) (ev_interface event) newname = None →
  hotplug_rename_interface uevent_replace_member w event st
  = Some (None, advance_idx (rename_prefix event) st,
          [Log LOG_INFO "Renaming %s to %s";
           Call_network_rename_ifi (ev_interface event) newname;
           Call_cmld_netif_phys_remove_by_name (ev_interface event)]
          ++ if cmld_netif_phys_remove_by_name w (ev_interface event)
             then [Call_cmld_netif_phys_add_by_name newname] else []).
Proof.
  intros newname Hren Hpath. unfold hotplug_rename_interface. fold (rename_prefix event).
  unfold mbind at 1, M_bind at 1. rewrite hotplug_rename_ifi_new_eq. fold newname.
  rewrite bool_decide_eq_false_2 by (intros Hne; by apply Hne).
  unfold mbind, M_bind, call. cbn. rewrite Hpath.
  by destruct (cmld_netif_phys_remove_by_name w (ev_interface event)).
Qed.

End net_extras.

Section netdev_lookup_order.
Variable network_str_to_mac_addr : string → option mac_addr.

(** X20. The first registration of a MAC decides where its interface
    goes.  A later registration of a configuration with the same MAC
    is accepted with result 0, for whatever container, but the lookup
    of [hotplug_netdev_move] keeps finding the earlier mapping; the new
    mapping is found only for a MAC that had no mapping. *)
Theorem X20_first_netdev_mapping_wins container pnet_cfg cfg mac st :
  pnet_cfgs st !! pnet_cfg = Some cfg →
  network_str_to_mac_addr (pnet_name cfg) = Some mac →
  let new := {| nm_container := container; nm_pnet_cfg := pnet_cfg; nm_mac := mac |} in
  let st' := with_netdev_mappings (hotplug_container_netdev_mapping_list st ++ [new]) st in
  hotplug_register_netdev network_str_to_mac_addr container pnet_cfg st
  = Some (0, st', [Log LOG_INFO "Registered netdev '%s' for container %s"])
  ∧ ∀ iface_mac,
      netdev_mapping_lookup iface_mac (hotplug_container_netdev_mapping_list st')
      = match netdev_mapping_lookup iface_mac (hotplug_container_netdev_mapping_list st) with
        | Some m => Some m
        | None => if bool_decide (iface_mac = mac) then Some new else None
        end.
Proof.
  intros Hcfg Hmac new st'. split.
  - unfold hotplug_register_netdev, hotplug_container_netdev_mapping_new, pnet_cfg_load.
    unfold_monad. by rewrite Hcfg, Hmac.
  - intros iface_mac. subst st'. cbn. unfold netdev_mapping_lookup.
    induction (hotplug_container_netdev_mapping_list st) as [|m l IH]; [done|].
    cbn. by destruct (bool_decide (iface_mac = nm_mac m)).
Qed.

End netdev_lookup_order.

(** ** More on renames *)

Lemma string_length_app (s1 s2 : string) :
  String.length (s1 +:+ s2) = (String.length s1 + String.length s2)%nat.
Proof.
  induction s1 as [|c s1 IH]; [done|]. rewrite string_app_cons_l. cbn. by rewrite IH.
Qed.

Lemma substring_all (s : string) : substring 0 (String.length s) s = s.
Proof. induction s as [|c s IH]; simpl; [done|by f_equal]. Qed.

Lemma string_prefix_split (old str : string) :
  String.prefix old str = true →
  str = old +:+ substring (String.length old) (String.length str - String.length old) str.
Proof.
  revert str. induction old as [|a old IH]; intros str Hp.
  - cbn. by rewrite string_app_nil, Nat.sub_0_r, substring_all.
  - destruct str as [|b str]; [done|]. cbn in Hp. destruct (ascii_dec a b) as [->|]; [|done].
    rewrite string_app_cons_l. cbn. f_equal. by apply IH.
Qed.

Lemma string_index_split (old str : string) off :
  String.index 0 old str = Some off →
  str = substring 0 off str +:+ old
        +:+ substring (off + String.length old)
              (String.length str - (off + String.length old)) str.
Proof.
  revert off. induction str as [|b str IH]; intros off.
  - cbn. destruct old; [|done]. by intros [= <-].
  - cbn [String.index]. destruct (String.prefix old (String b str)) eqn:Hp.
    + intros [= <-]. by apply string_prefix_split in Hp.
    + destruct (String.index 0 old str) as [n|] eqn:Hi; [|done]. intros [= <-].
      cbn. rewrite string_app_cons_l. f_equal. by apply IH.
Qed.

(** X21. [hotplug_replace_devpath_new] replaces the first occurrence:
    a result is the string with the part before the first occurrence of
    the old name, the new name, and the part after that occurrence, and
    its length is that of the string plus the difference of the lengths
    of the names, which is what the function allocates; there is no
    result exactly when the old name does not occur. *)
Theorem X21_replace_devpath_first_occurrence (str oldstr newstr : string) :
  match hotplug_replace_devpath_new str oldstr newstr with
  | Some r =>
      ∃ p s, str = p +:+ oldstr +:+ s
             ∧ r = p +:+ newstr +:+ s
             ∧ (String.length r + String.length oldstr
                = String.length str + String.length newstr)%nat
             ∧ ∀ k, (k < String.length p)%nat →
                    substring k (String.length oldstr) str ≠ oldstr
  | None => oldstr ≠ "" ∧ ∀ k, substring k (String.length oldstr) str ≠ oldstr
  end.
Proof.
  unfold hotplug_replace_devpath_new.
  destruct (String.index 0 oldstr str) as [off|] eqn:Hi.
  - pose proof (string_index_split _ _ _ Hi) as Hsplit.
    set (p := substring 0 off str) in *.
    set (s := substring (off + String.length oldstr)
                (String.length str - (off + String.length oldstr)) str) in *.
    exists p, s. split; [done|]. split; [done|]. split.
    + clearbody p s. rewrite Hsplit, !string_length_app. lia.
    + intros k Hk. apply (index_correct2 _ _ _ _ Hi); [lia|].
      assert (Hlen : String.length p = off ∨ (String.length p < off)%nat).
      { subst p. clear. revert off. induction str as [|b str IH]; intros [|off]; cbn;
          try (by left); try (right; lia).
        destruct (IH off) as [->|]; [by left|right; lia]. }
      lia.
  - assert (Hne : oldstr ≠ "").
    { intros ->. destruct str; cbn in Hi; discriminate Hi. }
    split; [done|]. intros k. apply (index_correct3 0 k _ _ Hi Hne). lia.
Qed.

(** *** The names of a sequence of renames *)

Lemma rename_requests_app tr1 tr2 :
  rename_requests (tr1 ++ tr2) = rename_requests tr1 ++ rename_requests tr2.
Proof. apply omap_app. Qed.

Lemma rename_requests_renames tr : rename_requests (renames tr) = rename_requests tr.
Proof.
  unfold renames, rename_requests. induction tr as [|e tr IH]; [done|].
  destruct e; simpl; try exact IH. f_equal. exact IH.
Qed.

(** The requests of a sequence of renames, while each counter stays
    below 2^31: one request per call, with the index of the call. *)
Lemma rename_all_requests (calls : list (world * string * string)) st :
  0 ≤ cmld_eth_idx st → 0 ≤ cmld_wlan_idx st →
  cmld_eth_idx st + Z.of_nat (length calls) < 2 ^ 31 →
  cmld_wlan_idx st + Z.of_nat (length calls) < 2 ^ 31 →
  ∃ results st' tr,
    rename_all calls st = Some (results, st', tr)
    ∧ rename_requests tr
      = zip_with rename_request calls
          (rename_indices calls (cmld_eth_idx st) (cmld_wlan_idx st)).
Proof.
  revert st. induction calls as [|[[w old] infix] calls IH]; intros st Heth Hwlan Hbe Hbw.
  { by exists [], st, []. }
  cbn [rename_all length] in *. unfold_bind. rewrite hotplug_rename_ifi_new_eq.
  destruct (IH (advance_idx infix st)) as (results & st' & tr & Hrest & Hreq).
  { unfold advance_idx. destruct (is_wlan_family infix); cbn; [done|].
    rewrite uint_wrap_small; lia. }
  { unfold advance_idx. destruct (is_wlan_family infix); cbn; [|done].
    rewrite uint_wrap_small; lia. }
  { unfold advance_idx. destruct (is_wlan_family infix); cbn; [lia|].
    rewrite uint_wrap_small; lia. }
  { unfold advance_idx. destruct (is_wlan_family infix); cbn; [|lia].
    rewrite uint_wrap_small; lia. }
  rewrite Hrest. eexists _, _, _. split; [reflexivity|].
  rewrite !rename_requests_app, Hreq. cbn [rename_indices].
  unfold rename_newname, rename_idx, advance_idx.
  destruct (is_wlan_family infix);
    destruct (bool_decide (network_rename_ifi w old _ ≠ 0));
    cbn -[pretty]; rewrite int_wrap_small, uint_wrap_small by lia;
    by rewrite app_nil_r.
Qed.

(** With the infixes [eth] and [wlan] no name is built twice. *)
Lemma rename_names_NoDup (calls : list (world * string * string)) eth wlan :
  (∀ c, c ∈ calls → c.2 = "eth" ∨ c.2 = "wlan") →
  NoDup (zip_with rename_request calls (rename_indices calls eth wlan)).*2.
Proof.
  intros Hinfix. apply NoDup_alt. intros i j name Hi Hj.
  apply list_lookup_fmap_Some in Hi as ([old_i name_i] & -> & Hi).
  apply list_lookup_fmap_Some in Hj as ([old_j name_j] & Heq & Hj).
  apply lookup_zip_with_Some in Hi as ([[w_i o_i] infix_i] & n_i & Hri & Hci & Hni).
  apply lookup_zip_with_Some in Hj as ([[w_j o_j] infix_j] & n_j & Hrj & Hcj & Hnj).
  injection Hri as -> ->. injection Hrj as -> ->. cbn in Heq.
  assert (Hsame : infix_i = infix_j ∧ n_i = n_j).
  { destruct (Hinfix _ (list_elem_of_lookup_2 _ _ _ Hci)) as [Hfi|Hfi];
      destruct (Hinfix _ (list_elem_of_lookup_2 _ _ _ Hcj)) as [Hfj|Hfj];
      cbn in Hfi, Hfj; subst infix_i infix_j; cbn in Heq;
      try discriminate Heq; injection Heq as Heq; split; [done| |done|];
      by apply (inj pretty). }
  destruct Hsame as [-> ->].
  destruct (Nat.lt_trichotomy i j) as [Hlt|[->|Hlt]]; [|done|].
  - pose proof (rename_indices_increasing _ _ _ _ _ _ _ _ _ _ _ _ _ Hlt Hci Hcj eq_refl
                  Hni Hnj). lia.
  - pose proof (rename_indices_increasing _ _ _ _ _ _ _ _ _ _ _ _ _ Hlt Hcj Hci eq_refl
                  Hnj Hni). lia.
Qed.

Lemma rename_requests_old (calls : list (world * string * string)) eth wlan :
  (zip_with rename_request calls (rename_indices calls eth wlan)).*1 = (λ c, c.1.2) <$> calls.
Proof.
  revert eth wlan. induction calls as [|[[w old] infix] calls IH]; intros eth wlan; [done|].
  cbn [rename_indices]. destruct (is_wlan_family infix); cbn; by rewrite IH.
Qed.

(** X22. A sequence of renames with the infixes [eth] and [wlan], run
    while each counter stays below 2^31, asks the kernel for one rename
    per call, in the order of the calls, and never for the same new name
    twice; this holds whether the kernel performs the renames or refuses
    them, since a refused rename uses up its index as well. *)
Theorem X22_rename_requests_distinct (calls : list (world * string * string)) st :
  (∀ c, c ∈ calls → c.2 = "eth" ∨ c.2 = "wlan") →
  0 ≤ cmld_eth_idx st → 0 ≤ cmld_wlan_idx st →
  cmld_eth_idx st + Z.of_nat (length calls) < 2 ^ 31 →
  cmld_wlan_idx st + Z.of_nat (length calls) < 2 ^ 31 →
  ∃ results st' tr,
    rename_all calls st = Some (results, st', tr)
    ∧ (rename_requests tr).*1 = (λ c, c.1.2) <$> calls
    ∧ NoDup (rename_requests tr).*2.
Proof.
  intros Hinfix Heth Hwlan Hbe Hbw.
  destruct (rename_all_requests calls st Heth Hwlan Hbe Hbw)
    as (results & st' & tr & Hrun & Hreq).
  exists results, st', tr. split; [done|]. rewrite Hreq. split.
  - apply rename_requests_old.
  - by apply rename_names_NoDup.
Qed.

(** X23. [hotplug_init] is defined on every state and returns what
    [uevent_add_uev] returns; registering the uevent handler is the
    last thing it does.  In hosted mode it renames nothing and leaves
    the state as it is.  Otherwise, while the counters stay below 2^31,
    it asks for one rename per physical interface, in the order of the
    list, each to a name of the form [cmleth<n>] or [cmlwlan<n>], and no
    two of these names are the same; it changes nothing but the two
    counters. *)
Theorem X23_hotplug_init_renames_each_interface_once w st :
  0 ≤ cmld_eth_idx st → 0 ≤ cmld_wlan_idx st →
  cmld_eth_idx st + Z.of_nat (length (cmld_get_netif_phys_list w)) < 2 ^ 31 →
  cmld_wlan_idx st + Z.of_nat (length (cmld_get_netif_phys_list w)) < 2 ^ 31 →
  ∃ st' tr,
    hotplug_init w st = Some (uevent_add_uev w, st', tr)
    ∧ last tr = Some Call_uevent_add_uev
    ∧ (rename_requests tr).*1
      = (if cmld_is_hostedmode_active w then [] else cmld_get_netif_phys_list w)
    ∧ NoDup (rename_requests tr).*2
    ∧ Forall cml_eth_or_wlan_name (rename_requests tr).*2
    ∧ move_frame None st st'
    ∧ (cmld_is_hostedmode_active w = true → st' = st ∧ tr = [Call_uevent_add_uev]).
Proof.
  intros Heth Hwlan Hbe Hbw.
  destruct (hotplug_init_run w st) as (st' & tr & results & tr0 & Hrun & Hall & Htr & Hfr).
  assert (Hlen : (length (hotplug_init_renames w) ≤ length (cmld_get_netif_phys_list w))%nat).
  { unfold hotplug_init_renames. destruct (cmld_is_hostedmode_active w); cbn; [lia|].
    by rewrite length_fmap. }
  assert (Hinfix : ∀ c, c ∈ hotplug_init_renames w → c.2 = "eth" ∨ c.2 = "wlan").
  { unfold hotplug_init_renames. intros c Hc.
    destruct (cmld_is_hostedmode_active w); [by apply elem_of_nil in Hc|].
    apply list_elem_of_fmap in Hc as (ifname & -> & _). cbn.
    destruct (network_interface_is_wifi w ifname); [by right|by left]. }
  destruct (rename_all_requests (hotplug_init_renames w) st Heth Hwlan)
    as (results' & st'' & tr0' & Hall' & Hreq); [lia|lia|].
  rewrite Hall in Hall'. injection Hall' as <- <- <-.
  assert (Hreqs : rename_requests tr
    = zip_with rename_request (hotplug_init_renames w)
        (rename_indices (hotplug_init_renames w) (cmld_eth_idx st) (cmld_wlan_idx st))).
  { by rewrite <- rename_requests_renames, Htr, rename_requests_renames. }
  exists st', tr. split; [done|]. split; [|split; [|split; [|split; [|split; [done|]]]]].
  - clear -Hrun. unfold hotplug_init, mbind, M_bind, call in Hrun.
    destruct ((if negb (cmld_is_hostedmode_active w)
               then foreach (hotplug_init_rename w) (cmld_get_netif_phys_list w)
               else mret tt) st) as [[[[] s1] t1]|]; [|done].
    cbn in Hrun. injection Hrun as _ <-. by rewrite last_snoc.
  - rewrite Hreqs, rename_requests_old. unfold hotplug_init_renames.
    destruct (cmld_is_hostedmode_active w); [done|].
    rewrite <- list_fmap_compose. cbn. apply list_fmap_id.
  - rewrite Hreqs. by apply rename_names_NoDup.
  - rewrite Hreqs. apply Forall_forall. intros name Hname.
    apply list_elem_of_fmap in Hname as ([old name'] & -> & Hin).
    apply elem_of_lookup_zip_with in Hin as (i & [[w0 o0] infix] & n & Hr & Hc & Hn).
    injection Hr as -> ->.
    pose proof (rename_indices_lower _ _ _ _ _ _ _ _ Hc Hn) as Hlow.
    exists n. split; [destruct (is_wlan_family infix); lia|].
    destruct (Hinfix _ (list_elem_of_lookup_2 _ _ _ Hc)) as [Hi|Hi]; cbn in Hi; subst infix;
      [by left|by right].
  - intros Hhosted. clear -Hrun Hhosted. unfold hotplug_init in Hrun.
    rewrite Hhosted in Hrun. cbn in Hrun. by injection Hrun as <- <-.
Qed.

(** ** The scenarios of the specification, run on the coordinator *)

Module ScenarioFacts.
Import Scenario.

(** S1, first half: the add uevent of the registered token enriches the
    mapping, allows the device on [c1], and the debounce timer attaches
    the token once the device node exists. *)
Example S1_token_added :
  trace_of (token_plugged true 1) st_token_registered
  = Some [Log LOG_INFO
            "check mapping: %04x:%04x '%s' for %s bound device node %d:%d -> container %s";
          Log LOG_INFO "%s bound device node %d:%d -> container %s";
          Log LOG_INFO "HOTPLUG USB TOKEN added";
          Call_container_device_allow c1 "c" 189 3 false;
          Call_container_token_attach c1;
          Log LOG_INFO "Processed token attachment of token %s for container %s"].
Proof. vm_compute. reflexivity. Qed.

(** C2. The remove uevent of S1, with the major and minor of the token
    mapping of [c1]: the trace has the token detach and the log line
    about the denied access, and no device-cgroup deny. *)
Theorem C2_token_remove_detaches_without_deny :
  hotplug_container_dev_mapping_list st_token_present
  = [{| dm_container := c1; dm_usbdev := 1%nat; dm_assign := false |}]
  ∧ usbdevs st_token_present !! 1%nat
    = Some {| i_serial := "0001"; id_vendor := 0x1050; id_product := 0x0407;
              major := 189; minor := 3; assign := false;
              type := HOTPLUG_USBDEV_TYPE_TOKEN |}
  ∧ trace_of token_unplugged st_token_present
    = Some [Log LOG_INFO "HOTPLUG USB TOKEN removed";
            Call_container_token_detach c1;
            Log LOG_INFO
              "Denied access to unbound device node %d:%d mapped in container %s"]
  ∧ (∀ tr, trace_of token_unplugged st_token_present = Some tr →
           List.filter is_device_deny tr = []).
Proof.
  split; [vm_compute; reflexivity|]. split; [vm_compute; reflexivity|].
  split; [vm_compute; reflexivity|].
  intros tr. vm_compute. intros [= <-]. reflexivity.
Qed.

(** The same remove uevent for a mapping of kind generic does issue the
    deny. *)
Example generic_remove_denies :
  trace_of (u ← hotplug_usbdev_new HOTPLUG_USBDEV_TYPE_GENERIC 0x1050 0x0407 "0001" false;
            hotplug_register_usbdevice c1 u;;
            uevent (usb_host true) UEVENT_ACTION_ADD usb_event;;
            token_unplugged) hotplug_state_init
  = Some [Log LOG_INFO "Registered usbdevice %04x:%04x '%s' [c %d:%d] for container %s";
          Log LOG_INFO
            "check mapping: %04x:%04x '%s' for %s bound device node %d:%d -> container %s";
          Log LOG_INFO "%s bound device node %d:%d -> container %s";
          Call_container_device_allow c1 "c" 189 3 false;
          Call_container_device_deny c1 "c" 189 3;
          Log LOG_INFO
            "Denied access to unbound device node %d:%d mapped in container %s"].
Proof. vm_compute. reflexivity. Qed.

(** The first token timer of a daemon looks for the device node eleven
    times: after ten fruitless ticks it still attaches on the eleventh. *)
Example token_timer_eleven_checks :
  trace_of (token_plugged false 10;; fire (usb_host true) 0%nat) st_token_registered
  = Some [Log LOG_INFO
            "check mapping: %04x:%04x '%s' for %s bound device node %d:%d -> container %s";
          Log LOG_INFO "%s bound device node %d:%d -> container %s";
          Log LOG_INFO "HOTPLUG USB TOKEN added";
          Call_container_device_allow c1 "c" 189 3 false;
          Call_container_token_attach c1;
          Log LOG_INFO "Processed token attachment of token %s for container %s"].
Proof. vm_compute. reflexivity. Qed.

(** C5. The retry counter is shared by all token timers and never
    reset.  A token whose device node never appears uses it up: its
    timer is cancelled on the twelfth tick.  For the next add uevent of
    the token the device node exists from the start, and still the
    timer is cancelled on its first tick without a token attach. *)
Theorem C5_second_token_timer_gets_no_attempt :
  ∃ st1 tr1 st2 tr2,
    token_plugged false 12 st_token_registered = Some (tt, st1, tr1)
    ∧ List.filter is_token_attach tr1 = []
    ∧ timers st1 = ∅
    ∧ retries st1 = -2
    ∧ file_exists (usb_host true) token_devnode = true
    ∧ token_plugged true 1 st1 = Some (tt, st2, tr2)
    ∧ List.filter is_token_attach tr2 = []
    ∧ List.filter is_device_allow tr2 = [Call_container_device_allow c1 "c" 189 3 false]
    ∧ timers st2 = ∅.
Proof.
  destruct (token_plugged false 12 st_token_registered) as [[[[] st1] tr1]|] eqn:H1;
    [|vm_compute in H1; discriminate].
  destruct (token_plugged true 1 st1) as [[[[] st2] tr2]|] eqn:H2;
    [|vm_compute in H1; injection H1 as <- <-; vm_compute in H2; discriminate].
  exists st1, tr1, st2, tr2.
  vm_compute in H1. injection H1 as <- <-.
  vm_compute in H2. injection H2 as <- <-.
  repeat split; vm_compute; reflexivity.
Qed.

(** Eleven tokens that are attached at once use the counter up as well:
    the twelfth is never attached. *)
Example twelfth_token_is_not_attached :
  ∃ st tr,
    foreach (λ _, token_plugged true 1;; token_unplugged) (seq 0 11) st_token_registered
    = Some (tt, st, tr)
    ∧ length (List.filter is_token_attach tr) = 11%nat
    ∧ trace_of (token_plugged true 1) st
      = Some [Log LOG_INFO
                "check mapping: %04x:%04x '%s' for %s bound device node %d:%d -> container %s";
              Log LOG_INFO "%s bound device node %d:%d -> container %s";
              Log LOG_INFO "HOTPLUG USB TOKEN added";
              Call_container_device_allow c1 "c" 189 3 false].
Proof.
  destruct (foreach (λ _, token_plugged true 1;; token_unplugged) (seq 0 11)
              st_token_registered) as [[[[] st] tr]|] eqn:H1;
    [|vm_compute in H1; discriminate].
  exists st, tr. vm_compute in H1. injection H1 as <- <-.
  repeat split; vm_compute; reflexivity.
Qed.

(** S2: the interface with the registered MAC is renamed to [cmleth0]
    and moved into [c2]; the configuration of the mapping carries the
    new name. *)
Example S2_interface_moved :
  trace_of (uevent (net_host COMPARTMENT_STATE_BOOTING) UEVENT_ACTION_ADD (net_event "");;
            fire (net_host COMPARTMENT_STATE_BOOTING) 0%nat) (st_net_registered false)
  = Some [Call_cmld_netif_phys_add_by_name "eth7";
          Log LOG_INFO "Renaming %s to %s";
          Call_network_rename_ifi "eth7" "cmleth0";
          Call_cmld_netif_phys_remove_by_name "eth7";
          Call_cmld_netif_phys_add_by_name "cmleth0";
          Call_cmld_container_add_net_iface c2 0%nat false;
          Log LOG_INFO "moved phys network interface '%s' (mac: %s) to %s";
          Call_uevent_event_inject_into_netns
            {| ev_subsystem := "net"; ev_devtype := "";
               ev_devpath := "/devices/pci0/net/cmleth0"; ev_devname := "";
               ev_interface := "cmleth0"; ev_major := 0; ev_minor := 0;
               ev_usb_vendor := 0; ev_usb_product := 0 |} 4711 true;
          Log LOG_INFO "Moved net interface to target."].
Proof. vm_compute. reflexivity. Qed.

End ScenarioFacts.

(** ** The search of a USB device in sysfs *)

Section sysfs_extras.

Variable file_read : string → string → Z → Z * string.
Variable sscanf_hx : string → scan_hx.
Variable sscanf_dev : string → scan_dev.

Local Ltac sysfs_step Hu :=
  first
    [ rewrite Hu
    | rewrite lookup_insert_eq
    | progress cbn [usbdevs set_usbdevs fst snd]
    | match goal with
      | |- context [file_read ?f ?b ?n] => destruct (file_read f b n) as [? ?] eqn:?
      | |- context [sscanf_hx ?b] => destruct (sscanf_hx b) eqn:?
      | |- context [sscanf_dev ?b] => destruct (sscanf_dev b) eqn:?
      | |- context [if ?c then _ else _] => destruct c eqn:?
      end ].

(** X24. The callback of the sysfs walk on an allocated record: when
    neither of the two hexadecimal conversions leaves its variable
    unwritten (each converts or meets the end of its input), the
    callback is defined, logs nothing and returns 0 or 1.  It writes
    nothing but major and minor of the record it is given, both
    together and both with numbers above -1, and only with result 1;
    with result 0 the state is as it was. *)
Theorem X24_sysfs_cb_writes_major_minor_only w buf0 path name usbdev u st :
  let buf1 := (file_read (path +:+ "/" +:+ name +:+ "/idProduct") buf0 256).2 in
  let buf2 := (file_read (path +:+ "/" +:+ name +:+ "/idVendor") buf1 256).2 in
  usbdevs st !! usbdev = Some u →
  sscanf_hx buf1 ≠ scan_hx_none →
  sscanf_hx buf2 ≠ scan_hx_none →
  ∃ r st',
    hotplug_usbdev_sysfs_foreach_cb file_read sscanf_hx sscanf_dev w buf0 path name usbdev st
    = Some (r, st', [])
    ∧ (r = 0 ∧ st' = st
       ∨ r = 1
         ∧ (st' = st
            ∨ ∃ a b, -1 < a ∧ -1 < b
                     ∧ st' = set_usbdevs (insert usbdev (with_minor (with_major u a) b)) st)).
Proof.
  intros buf1 buf2 Hu Hscan1 Hscan2. subst buf1 buf2.
  unfold hotplug_usbdev_sysfs_foreach_cb, hotplug_usbdev_get_id_product,
    hotplug_usbdev_get_id_vendor, hotplug_usbdev_get_i_serial, hotplug_usbdev_set_major,
    hotplug_usbdev_set_minor, undefined, mbind, M_bind, mret, M_ret, usbdev_load, usbdev_store.
  destruct (file_read (path +:+ "/" +:+ name +:+ "/idProduct") buf0 256)
    as [len1 buf1] eqn:Hr1.
  cbn [snd] in Hscan1, Hscan2.
  destruct (file_read (path +:+ "/" +:+ name +:+ "/idVendor") buf1 256)
    as [len2 buf2] eqn:Hr2.
  cbn [snd] in Hscan2.
  repeat sysfs_step Hu;
    try congruence;
    eexists _, _; (split; [reflexivity|]);
    try (left; by split);
    try (right; split; [reflexivity|]; left; reflexivity).
  all: right; split; [reflexivity|]; right.
  all: match goal with
       | H : (?a >? -1) && (?b >? -1) = true |- _ =>
           apply andb_true_iff in H as [? ?]; exists a, b
       | H : negb ((?a >? -1) && (?b >? -1)) = false |- _ =>
           apply negb_false_iff, andb_true_iff in H as [? ?]; exists a, b
       end.
  all: split; [lia|]; split; [lia|].
  all: destruct st, u; unfold set_usbdevs, with_minor, with_major; cbn; f_equal.
  all: by rewrite insert_insert_eq.
Qed.

(** X25. The callback finds the device of a record when the files
    [idProduct], [idVendor] and [dev] of the entry exist, the first two
    hold at least 4 bytes that convert to the product and vendor id of
    the record, the serial file is missing or its content starts with
    the serial of the record, and [dev] converts to two numbers above
    -1: the result is 1 and the record gets these numbers as major and
    minor, nothing else changes. *)
Theorem X25_sysfs_cb_finds_device w buf0 path name usbdev u st
    len1 buf1 len2 buf2 len4 buf4 a b :
  let id_product_file := path +:+ "/" +:+ name +:+ "/idProduct" in
  let id_vendor_file := path +:+ "/" +:+ name +:+ "/idVendor" in
  let i_serial_file := path +:+ "/" +:+ name +:+ "/serial" in
  let dev_file := path +:+ "/" +:+ name +:+ "/dev" in
  let buf3 := if file_exists w i_serial_file
              then (file_read i_serial_file buf2 256).2 else "" in
  usbdevs st !! usbdev = Some u →
  file_exists w id_product_file = true →
  file_exists w id_vendor_file = true →
  file_exists w dev_file = true →
  file_read id_product_file buf0 256 = (len1, buf1) → 4 ≤ len1 →
  sscanf_hx buf1 = scan_hx_value (id_product u) →
  file_read id_vendor_file buf1 256 = (len2, buf2) → 4 ≤ len2 →
  sscanf_hx buf2 = scan_hx_value (id_vendor u) →
  (file_exists w i_serial_file = true → String.prefix (i_serial u) buf3 = true) →
  file_read dev_file buf3 256 = (len4, buf4) → 0 ≤ len4 →
  sscanf_dev buf4 = scan_dev_both a b → -1 < a → -1 < b →
  hotplug_usbdev_sysfs_foreach_cb file_read sscanf_hx sscanf_dev w buf0 path name usbdev st
  = Some (1, set_usbdevs (insert usbdev (with_minor (with_major u a) b)) st, []).
Proof.
  intros id_product_file id_vendor_file i_serial_file dev_file buf3
    Hu Hp Hv Hd Hr1 Hl1 Hs1 Hr2 Hl2 Hs2 Hserial Hr4 Hl4 Hs4 Ha Hb.
  unfold hotplug_usbdev_sysfs_foreach_cb, hotplug_usbdev_get_id_product,
    hotplug_usbdev_get_id_vendor, hotplug_usbdev_get_i_serial, hotplug_usbdev_set_major,
    hotplug_usbdev_set_minor, mbind, M_bind, mret, M_ret, usbdev_load, usbdev_store.
  fold id_product_file id_vendor_file i_serial_file dev_file.
  rewrite Hp, Hv, Hd, Hr1. cbn [negb].
  replace (len1 <? 4) with false by lia. rewrite Hs1, Hu. cbv beta iota. rewrite Hr2.
  replace (len2 <? 4) with false by lia. rewrite Hs2, Hu. cbv beta iota.
  rewrite !Z.eqb_refl. cbn [andb].
  assert (Hnum : (a >? -1) && (b >? -1) = true) by lia.
  assert (Hst : ∀ m : gmap loc hotplug_usbdev,
    <[usbdev := with_minor (with_major u a) b]> (<[usbdev := with_major u a]> m)
    = <[usbdev := with_minor (with_major u a) b]> m) by (intros; apply insert_insert_eq).
  subst buf3. destruct (file_exists w i_serial_file) eqn:Hsf.
  - destruct (file_read i_serial_file buf2 256) as [len3 buf3] eqn:Hr3.
    cbn [snd] in *. rewrite Hu. cbv beta iota. rewrite (Hserial eq_refl).
    cbn [negb andb app].
    rewrite Hr4. replace (len4 <? 0) with false by lia. rewrite Hs4, Hnum. cbn [negb].
    repeat (first [rewrite Hu | rewrite lookup_insert_eq
                  | progress cbn [usbdevs set_usbdevs app] | progress cbv beta iota]).
    destruct st. unfold set_usbdevs. cbn. by rewrite Hst.
  - cbn [negb app].
    rewrite Hr4. replace (len4 <? 0) with false by lia. rewrite Hs4, Hnum. cbn [negb].
    repeat (first [rewrite Hu | rewrite lookup_insert_eq
                  | progress cbn [usbdevs set_usbdevs app] | progress cbv beta iota]).
    destruct st. unfold set_usbdevs. cbn. by rewrite Hst.
Qed.

(** X26. The result 1 does not tell that major and minor were set: for
    an entry whose [idProduct] converts to the product id of the record
    and whose [idVendor] holds fewer than 4 bytes, or nothing to
    convert, the callback returns 1 with the record and the rest of the
    state as they were; the vendor id is not compared and [dev] is not
    read. *)
Theorem X26_sysfs_cb_found_without_numbers w buf0 path name usbdev u st
    len1 buf1 len2 buf2 :
  let id_product_file := path +:+ "/" +:+ name +:+ "/idProduct" in
  let id_vendor_file := path +:+ "/" +:+ name +:+ "/idVendor" in
  let dev_file := path +:+ "/" +:+ name +:+ "/dev" in
  usbdevs st !! usbdev = Some u →
  file_exists w id_product_file = true →
  file_exists w id_vendor_file = true →
  file_exists w dev_file = true →
  file_read id_product_file buf0 256 = (len1, buf1) → 4 ≤ len1 →
  sscanf_hx buf1 = scan_hx_value (id_product u) →
  file_read id_vendor_file buf1 256 = (len2, buf2) →
  len2 < 4 ∨ sscanf_hx buf2 = scan_hx_eof →
  hotplug_usbdev_sysfs_foreach_cb file_read sscanf_hx sscanf_dev w buf0 path name usbdev st
  = Some (1, st, []).
Proof.
  intros id_product_file id_vendor_file dev_file Hu Hp Hv Hd Hr1 Hl1 Hs1 Hr2 Hshort.
  unfold hotplug_usbdev_sysfs_foreach_cb, hotplug_usbdev_get_id_product,
    mbind, M_bind, mret, M_ret, usbdev_load.
  fold id_product_file id_vendor_file dev_file.
  rewrite Hp, Hv, Hd, Hr1. cbn [negb].
  replace (len1 <? 4) with false by lia. rewrite Hs1, Hu. cbv beta iota.
  rewrite Hr2, Z.eqb_refl.
  destruct (len2 <? 4) eqn:Hlen; [done|].
  destruct Hshort as [Hlt|Heof]; [lia|]. by rewrite Heof.
Qed.

End sysfs_extras.

(** ** What the code does where the specification says otherwise *)

Module Counterexamples.
Import Scenario.

(** The name [cmlwwan0] is not of the form [cmleth<n>] or [cmlwlan<n>]. *)
Lemma cmlwwan0_not_eth_or_wlan : ¬ cml_eth_or_wlan_name "cmlwwan0".
Proof. intros (n & _ & [H|H]); cbn in H; discriminate H. Qed.

(** A cellular modem is plugged in (devtype [wwan], a physical
    interface): the coordinator renames it, the rename succeeds, and
    the name is [cmlwwan0], which is not of the form [cmleth<n>] or
    [cmlwlan<n>]. *)
Lemma C4_counterexample_wwan :
  ∃ st tr,
    (uevent (net_host COMPARTMENT_STATE_RUNNING) UEVENT_ACTION_ADD wwan_event;;
     fire (net_host COMPARTMENT_STATE_RUNNING) 0%nat) hotplug_state_init
    = Some (tt, st, tr)
    ∧ List.filter is_rename_ifi tr = [Call_network_rename_ifi "eth7" "cmlwwan0"]
    ∧ network_rename_ifi (net_host COMPARTMENT_STATE_RUNNING) "eth7" "cmlwwan0" = 0
    ∧ ¬ cml_eth_or_wlan_name "cmlwwan0".
Proof.
  destruct ((uevent (net_host COMPARTMENT_STATE_RUNNING) UEVENT_ACTION_ADD wwan_event;;
             fire (net_host COMPARTMENT_STATE_RUNNING) 0%nat) hotplug_state_init)
    as [[[[] st] tr]|] eqn:Hrun; [|vm_compute in Hrun; discriminate].
  exists st, tr. vm_compute in Hrun. injection Hrun as <- <-.
  split; [reflexivity|]. split; [vm_compute; reflexivity|]. split; [reflexivity|].
  apply cmlwwan0_not_eth_or_wlan.
Qed.

(** The token with serial [0001] is registered for [c1] and then for
    [c2]: both registrations return 0 and in the state reached both
    containers hold a token mapping with that serial. *)
Lemma C8_counterexample_two_holders :
  ∃ st,
    reachable UEVENT_ACTION_ADD UEVENT_ACTION_REMOVE network_str_to_mac_addr
      uevent_replace_member st
    ∧ holds_token st c1 "0001"
    ∧ holds_token st c2 "0001"
    ∧ ¬ token_serial_exclusive st.
Proof.
  destruct (run same_token_twice hotplug_state_init) as [[[[] st] tr]|] eqn:Hrun;
    [|vm_compute in Hrun; discriminate].
  exists st. split; [by exists same_token_twice, tr|].
  vm_compute in Hrun. injection Hrun as <- <-.
  assert (H1 : holds_token
    {| usbdevs := usbdevs (default hotplug_state_init
                             (state_of (run same_token_twice) hotplug_state_init));
       pnet_cfgs := ∅;
       hotplug_container_dev_mapping_list :=
         [{| dm_container := c1; dm_usbdev := 1%nat; dm_assign := false |};
          {| dm_container := c2; dm_usbdev := 3%nat; dm_assign := false |}];
       hotplug_container_netdev_mapping_list := [];
       cmld_wlan_idx := 0; cmld_eth_idx := 0; retries := 10; timers := ∅ |} c1 "0001").
  { eexists {| dm_container := c1; dm_usbdev := 1%nat; dm_assign := false |}, _.
    split; [by left|]. split; [vm_compute; reflexivity|]. done. }
  assert (H2 : holds_token
    {| usbdevs := usbdevs (default hotplug_state_init
                             (state_of (run same_token_twice) hotplug_state_init));
       pnet_cfgs := ∅;
       hotplug_container_dev_mapping_list :=
         [{| dm_container := c1; dm_usbdev := 1%nat; dm_assign := false |};
          {| dm_container := c2; dm_usbdev := 3%nat; dm_assign := false |}];
       hotplug_container_netdev_mapping_list := [];
       cmld_wlan_idx := 0; cmld_eth_idx := 0; retries := 10; timers := ∅ |} c2 "0001").
  { eexists {| dm_container := c2; dm_usbdev := 3%nat; dm_assign := false |}, _.
    split; [right; by left|]. split; [vm_compute; reflexivity|]. done. }
  vm_compute in H1, H2. split; [exact H1|]. split; [exact H2|].
  intros Hex. pose proof (Hex _ _ _ H1 H2) as Heq. vm_compute in Heq. discriminate Heq.
Qed.

(** A record is given the numbers 189:3 through the setters and is then
    registered for [c1]: the freshly registered mapping has major 189
    and minor 3, although no uevent has arrived, and the remove uevent
    of a device with these non-negative numbers makes the handler deny
    the node for the mapping, whose device never appeared. *)
Lemma C10_counterexample_numbers_set_before_registration :
  ∃ st tr m u,
    run numbers_set_before_registration hotplug_state_init = Some (tt, st, tr)
    ∧ List.filter (λ c, match c with uevent_call _ _ _ => true | _ => false end)
        numbers_set_before_registration = []
    ∧ hotplug_container_dev_mapping_list st = [m]
    ∧ mapping_usbdev st m = Some u
    ∧ major u = 189 ∧ minor u = 3
    ∧ major u ≠ -1
    ∧ 0 ≤ ev_major usb_event ∧ 0 ≤ ev_minor usb_event
    ∧ List.filter is_device_deny
        (default [] (trace_of (uevent (usb_host false) UEVENT_ACTION_REMOVE usb_event) st))
      = [Call_container_device_deny c1 "c" 189 3].
Proof.
  destruct (run numbers_set_before_registration hotplug_state_init)
    as [[[[] st] tr]|] eqn:Hrun; [|vm_compute in Hrun; discriminate].
  exists st, tr, {| dm_container := c1; dm_usbdev := 1%nat; dm_assign := false |},
    {| i_serial := "0001"; id_vendor := 0x1050; id_product := 0x0407;
       major := 189; minor := 3; assign := false; type := HOTPLUG_USBDEV_TYPE_GENERIC |}.
  vm_compute in Hrun. injection Hrun as <- <-.
  split; [reflexivity|]. split; [reflexivity|]. split; [reflexivity|].
  split; [vm_compute; reflexivity|]. split; [reflexivity|]. split; [reflexivity|].
  split; [discriminate|]. split; [discriminate|]. split; [discriminate|].
  vm_compute. reflexivity.
Qed.

End Counterexamples.

(** ** The theorems at concrete inputs *)

Module Witnesses.
Import Scenario.

Lemma st_token_registered_valid : dev_mappings_valid st_token_registered.
Proof.
  intros m Hm. vm_compute in Hm. apply list_elem_of_singleton in Hm as ->.
  vm_compute. eexists. reflexivity.
Defined.

(** C1 on scenario S1: the token of [c1] is plugged in. *)
Lemma C1_witness :
  dev_mappings_valid st_token_registered
  ∧ ev_subsystem usb_event = "usb"
  ∧ ev_devtype usb_event = "usb_device"
  ∧ Z.land UEVENT_ACTION_ADD UEVENT_ACTION_ADD ≠ 0
  ∧ usb_read_serial (usb_host true) usb_event = Some "0001"
  ∧ ∃ st' tr,
      hotplug_handle_usb_device UEVENT_ACTION_ADD UEVENT_ACTION_REMOVE (usb_host true)
        UEVENT_ACTION_ADD usb_event st_token_registered
      = Some (false, st', tr)
      ∧ hotplug_container_dev_mapping_list st'
        = hotplug_container_dev_mapping_list st_token_registered
      ∧ (∀ m u, m ∈ hotplug_container_dev_mapping_list st_token_registered →
                mapping_usbdev st_token_registered m = Some u →
                id_vendor u = ev_usb_vendor usb_event →
                id_product u = ev_usb_product usb_event →
                i_serial u = "0001" →
                ∃ u', mapping_usbdev st' m = Some u'
                      ∧ major u' = ev_major usb_event ∧ minor u' = ev_minor usb_event
                      ∧ u' = enrich usb_event u)
      ∧ device_allows tr
        = allow_of_mapping usb_event
          <$> List.filter (mapping_matches st_token_registered usb_event "0001")
                (hotplug_container_dev_mapping_list st_token_registered).
Proof.
  assert (H1 : dev_mappings_valid st_token_registered) by exact st_token_registered_valid.
  assert (H2 : ev_subsystem usb_event = "usb") by reflexivity.
  assert (H3 : ev_devtype usb_event = "usb_device") by reflexivity.
  assert (H4 : Z.land UEVENT_ACTION_ADD UEVENT_ACTION_ADD ≠ 0) by (vm_compute; discriminate).
  assert (H5 : usb_read_serial (usb_host true) usb_event = Some "0001")
    by (vm_compute; reflexivity).
  repeat (split; [assumption|]).
  exact (C1_usb_add_enriches_and_allows_once UEVENT_ACTION_ADD UEVENT_ACTION_REMOVE
           (usb_host true) UEVENT_ACTION_ADD usb_event "0001" st_token_registered
           H1 H2 H3 H4 H5).
Defined.

(** C3 on scenario S2 with the target stopped. *)
Lemma C3_witness :
  let w := net_host COMPARTMENT_STATE_STOPPED in
  netdev_move_target w (net_event "") (st_net_registered false) = Some c2
  ∧ container_get_state w c2 ≠ COMPARTMENT_STATE_STARTING
  ∧ container_get_state w c2 ≠ COMPARTMENT_STATE_BOOTING
  ∧ container_get_state w c2 ≠ COMPARTMENT_STATE_RUNNING
  ∧ hotplug_netdev_move uevent_replace_member w (net_event "") (st_net_registered false)
    = Some (-1, st_net_registered false,
            [Log LOG_WARN "Target container '%s' is not running, skip moving %s"])
  ∧ ∀ timer,
      String.eqb (ev_devtype (net_event "")) "wlan"
      && negb (network_interface_is_wifi w (ev_interface (net_event ""))) = false →
      hotplug_sysfs_netif_timer_cb uevent_replace_member w timer (net_event "")
        (st_net_registered false)
      = Some (tt, set_timers (delete timer) (st_net_registered false),
              [Log LOG_WARN "Target container '%s' is not running, skip moving %s";
               Log LOG_WARN "Did not move net interface!"]).
Proof.
  intros w.
  assert (H1 : netdev_move_target w (net_event "") (st_net_registered false) = Some c2)
    by (vm_compute; reflexivity).
  assert (H2 : container_get_state w c2 ≠ COMPARTMENT_STATE_STARTING) by discriminate.
  assert (H3 : container_get_state w c2 ≠ COMPARTMENT_STATE_BOOTING) by discriminate.
  assert (H4 : container_get_state w c2 ≠ COMPARTMENT_STATE_RUNNING) by discriminate.
  repeat (split; [assumption|]).
  exact (C3_move_refused_unless_running uevent_replace_member w (net_event "")
           (st_net_registered false) c2 H1 H2 H3 H4).
Defined.

(** C4 on three renames from the initial state. *)
Lemma C4_witness :
  0 ≤ cmld_eth_idx hotplug_state_init
  ∧ 0 ≤ cmld_wlan_idx hotplug_state_init
  ∧ cmld_eth_idx hotplug_state_init + Z.of_nat (length three_renames) < 2 ^ 31
  ∧ cmld_wlan_idx hotplug_state_init + Z.of_nat (length three_renames) < 2 ^ 31
  ∧ ∃ results st' tr indices,
      rename_all three_renames hotplug_state_init = Some (results, st', tr)
      ∧ length results = length three_renames
      ∧ length indices = length three_renames
      ∧ (∀ i w oldname infix, three_renames !! i = Some (w, oldname, infix) →
           ∃ n, indices !! i = Some n ∧ 0 ≤ n
                ∧ results !! i = Some (rename_result w oldname infix n)
                ∧ (infix = "eth" ∨ infix = "wlan" →
                   cml_eth_or_wlan_name ("cml" +:+ infix +:+ pretty n)))
      ∧ (∀ i j w_i old_i infix_i w_j old_j infix_j n_i n_j,
           (i < j)%nat →
           three_renames !! i = Some (w_i, old_i, infix_i) →
           three_renames !! j = Some (w_j, old_j, infix_j) →
           is_wlan_family infix_i = is_wlan_family infix_j →
           indices !! i = Some n_i → indices !! j = Some n_j →
           n_i < n_j).
Proof.
  assert (H1 : 0 ≤ cmld_eth_idx hotplug_state_init) by (vm_compute; discriminate).
  assert (H2 : 0 ≤ cmld_wlan_idx hotplug_state_init) by (vm_compute; discriminate).
  assert (H3 : cmld_eth_idx hotplug_state_init + Z.of_nat (length three_renames) < 2 ^ 31)
    by (vm_compute; reflexivity).
  assert (H4 : cmld_wlan_idx hotplug_state_init + Z.of_nat (length three_renames) < 2 ^ 31)
    by (vm_compute; reflexivity).
  repeat (split; [assumption|]).
  exact (C4_rename_indices_increase_per_family three_renames hotplug_state_init
           H1 H2 H3 H4).
Defined.

Lemma st_net_registered_no_stranger m :
  m ∈ hotplug_container_netdev_mapping_list (st_net_registered false) →
  nm_mac m ≠ [2; 0; 0; 0; 0; 9].
Proof.
  intros Hm. vm_compute in Hm. apply list_elem_of_singleton in Hm as ->. discriminate.
Defined.

(** C6: an interface with a MAC that is in no mapping, c0 running. *)
Lemma C6_witness :
  network_get_mac_by_ifname stranger_host (ev_interface (net_event ""))
  = Some [2; 0; 0; 0; 0; 9]
  ∧ (∀ m, m ∈ hotplug_container_netdev_mapping_list (st_net_registered false) →
          nm_mac m ≠ [2; 0; 0; 0; 0; 9])
  ∧ cmld_containers_get_c0 stranger_host = Some 0%nat
  ∧ (container_get_state stranger_host 0%nat = COMPARTMENT_STATE_STARTING
     ∨ container_get_state stranger_host 0%nat = COMPARTMENT_STATE_BOOTING
     ∨ container_get_state stranger_host 0%nat = COMPARTMENT_STATE_RUNNING)
  ∧ ∃ r st' tr pnet_cfg_c0,
      hotplug_netdev_move uevent_replace_member stranger_host (net_event "")
        (st_net_registered false) = Some (r, st', tr)
      ∧ pnet_cfgs (st_net_registered false) !! pnet_cfg_c0 = None
      ∧ List.filter is_add_net_iface tr
        = [Call_cmld_container_add_net_iface 0%nat pnet_cfg_c0 false]
      ∧ (r = 0 ↔ cmld_container_add_net_iface stranger_host 0%nat pnet_cfg_c0 false = 0)
      ∧ (r = 0 →
         pnet_cfgs st' !! pnet_cfg_c0
         = Some {| pnet_name :=
                     ev_interface (renamed_event uevent_replace_member stranger_host
                                     (net_event "") (st_net_registered false));
                   mac_filter := false; mac_whitelist := [] |}
         ∧ injections tr
           = [Call_uevent_event_inject_into_netns
                (renamed_event uevent_replace_member stranger_host (net_event "")
                   (st_net_registered false))
                (container_get_pid stranger_host 0%nat)
                (container_has_userns stranger_host 0%nat)]).
Proof.
  assert (H1 : network_get_mac_by_ifname stranger_host (ev_interface (net_event ""))
               = Some [2; 0; 0; 0; 0; 9]) by reflexivity.
  assert (H2 : ∀ m, m ∈ hotplug_container_netdev_mapping_list (st_net_registered false) →
                    nm_mac m ≠ [2; 0; 0; 0; 0; 9]) by exact st_net_registered_no_stranger.
  assert (H3 : cmld_containers_get_c0 stranger_host = Some 0%nat) by reflexivity.
  assert (H4 : container_get_state stranger_host 0%nat = COMPARTMENT_STATE_STARTING
               ∨ container_get_state stranger_host 0%nat = COMPARTMENT_STATE_BOOTING
               ∨ container_get_state stranger_host 0%nat = COMPARTMENT_STATE_RUNNING)
    by (right; right; reflexivity).
  repeat (split; [assumption|]).
  exact (C6_unmapped_interface_moves_to_c0 uevent_replace_member stranger_host
           (net_event "") (st_net_registered false) [2; 0; 0; 0; 0; 9] 0%nat
           H1 H2 H3 H4).
Defined.

(** C7 on scenario S2 with the MAC filter set: nothing is injected. *)
Lemma C7_witness :
  let w := net_host COMPARTMENT_STATE_BOOTING in
  let mapping := {| nm_container := c2; nm_pnet_cfg := 0%nat; nm_mac := [2; 0; 0; 0; 0; 1] |} in
  let cfg := {| pnet_name := "02:00:00:00:00:01"; mac_filter := true; mac_whitelist := [] |} in
  network_get_mac_by_ifname w (ev_interface (net_event "")) = Some [2; 0; 0; 0; 0; 1]
  ∧ netdev_mapping_lookup [2; 0; 0; 0; 0; 1]
      (hotplug_container_netdev_mapping_list (st_net_registered true)) = Some mapping
  ∧ pnet_cfgs (st_net_registered true) !! nm_pnet_cfg mapping = Some cfg
  ∧ state_permits_move (container_get_state w (nm_container mapping)) = true
  ∧ cmld_container_add_net_iface w (nm_container mapping) (nm_pnet_cfg mapping) false = 0
  ∧ ∃ st' tr,
      hotplug_netdev_move uevent_replace_member w (net_event "") (st_net_registered true)
      = Some (0, st', tr)
      ∧ List.filter is_add_net_iface tr
        = [Call_cmld_container_add_net_iface (nm_container mapping) (nm_pnet_cfg mapping)
             false]
      ∧ injections tr
        = if mac_filter cfg then []
          else [Call_uevent_event_inject_into_netns
                  (renamed_event uevent_replace_member w (net_event "")
                     (st_net_registered true))
                  (container_get_pid w (nm_container mapping))
                  (container_has_userns w (nm_container mapping))].
Proof.
  intros w mapping cfg.
  assert (H1 : network_get_mac_by_ifname w (ev_interface (net_event ""))
               = Some [2; 0; 0; 0; 0; 1]) by reflexivity.
  assert (H2 : netdev_mapping_lookup [2; 0; 0; 0; 0; 1]
                 (hotplug_container_netdev_mapping_list (st_net_registered true))
               = Some mapping) by (vm_compute; reflexivity).
  assert (H3 : pnet_cfgs (st_net_registered true) !! nm_pnet_cfg mapping = Some cfg)
    by (vm_compute; reflexivity).
  assert (H4 : state_permits_move (container_get_state w (nm_container mapping)) = true)
    by reflexivity.
  assert (H5 : cmld_container_add_net_iface w (nm_container mapping) (nm_pnet_cfg mapping)
                 false = 0) by reflexivity.
  repeat (split; [assumption|]).
  exact (C7_reinjection_iff_not_mac_filtered uevent_replace_member w (net_event "")
           (st_net_registered true) [2; 0; 0; 0; 0; 1] mapping cfg H1 H2 H3 H4 H5).
Defined.

(** C8 on two registrations of two different tokens. *)
Lemma C8_witness :
  run two_tokens hotplug_state_init = Some (tt, st_two_tokens, tr_two_tokens)
  ∧ disciplined UEVENT_ACTION_ADD UEVENT_ACTION_REMOVE network_str_to_mac_addr
      uevent_replace_member two_tokens hotplug_state_init
  ∧ token_serial_exclusive st_two_tokens
  ∧ ∀ container usbdev u,
      usbdevs st_two_tokens !! usbdev = Some u →
      ∃ st' tr',
        hotplug_register_usbdevice container usbdev st_two_tokens = Some (0, st', tr')
        ∧ length (hotplug_container_dev_mapping_list st')
          = S (length (hotplug_container_dev_mapping_list st_two_tokens))
        ∧ (token_serial_exclusive st'
           ↔ (type u = HOTPLUG_USBDEV_TYPE_TOKEN →
              ∀ c', holds_token st_two_tokens c' (i_serial u) → c' = container)).
Proof.
  assert (H1 : run two_tokens hotplug_state_init
               = Some (tt, st_two_tokens, tr_two_tokens)) by (vm_compute; reflexivity).
  assert (H2 : disciplined UEVENT_ACTION_ADD UEVENT_ACTION_REMOVE network_str_to_mac_addr
                 uevent_replace_member two_tokens hotplug_state_init).
  { split; [exact I|]. cbn -[registers_fresh_token]. split.
    - intros u _ _ c' (m & u' & Hm & _). by apply elem_of_nil in Hm.
    - cbn -[registers_fresh_token]. split; [exact I|]. cbn -[registers_fresh_token]. split.
      + intros u Hu _ c' (m & u' & Hm & Hu' & _ & _ & Hser).
        vm_compute in Hu. injection Hu as <-.
        vm_compute in Hm. apply list_elem_of_singleton in Hm as ->.
        vm_compute in Hu'. injection Hu' as <-. discriminate Hser.
      + exact I. }
  repeat (split; [assumption|]).
  exact (C8_token_serial_exclusive_if_disciplined UEVENT_ACTION_ADD UEVENT_ACTION_REMOVE
           network_str_to_mac_addr uevent_replace_member two_tokens st_two_tokens
           tr_two_tokens H1 H2).
Defined.

(** C9 on the configuration of scenario S2. *)
Lemma C9_witness :
  let cfg := {| pnet_name := "02:00:00:00:00:01"; mac_filter := false;
                mac_whitelist := [] |} in
  pnet_cfgs st_cfg_allocated !! 0%nat = Some cfg
  ∧ (network_str_to_mac_addr (pnet_name cfg) = None →
       hotplug_register_netdev network_str_to_mac_addr c2 0%nat st_cfg_allocated
       = Some (-1, st_cfg_allocated, []))
  ∧ (∀ mac, network_str_to_mac_addr (pnet_name cfg) = Some mac →
       ∃ st' tr mapping,
         hotplug_register_netdev network_str_to_mac_addr c2 0%nat st_cfg_allocated
         = Some (0, st', tr)
         ∧ hotplug_container_netdev_mapping_list st'
           = hotplug_container_netdev_mapping_list st_cfg_allocated ++ [mapping]
         ∧ nm_mac mapping = mac
         ∧ nm_container mapping = c2
         ∧ nm_pnet_cfg mapping = 0%nat).
Proof.
  intros cfg.
  assert (H1 : pnet_cfgs st_cfg_allocated !! 0%nat = Some cfg) by (vm_compute; reflexivity).
  split; [assumption|].
  exact (C9_register_netdev_mac network_str_to_mac_addr c2 0%nat cfg st_cfg_allocated H1).
Defined.

Lemma st_token_registered_well_formed : wf st_token_registered.
Proof.
  split; [exact st_token_registered_valid|]. split.
  - change (NoDup [1%nat]). apply NoDup_singleton.
  - intros m Hm. vm_compute in Hm. by apply elem_of_nil in Hm.
Defined.

(** C10: the token of S1, registered for [c1], is registered for [c2]
    as well. *)
Lemma C10_witness :
  let st := st_token_registered in
  let u := {| i_serial := "0001"; id_vendor := 0x1050; id_product := 0x0407;
              major := -1; minor := -1; assign := false;
              type := HOTPLUG_USBDEV_TYPE_TOKEN |} in
  wf st
  ∧ usbdevs st !! 0%nat = Some u
  ∧ (∀ ty vendor product serial assign_flag, ∃ handle st1,
        hotplug_usbdev_new ty vendor product serial assign_flag st = Some (handle, st1, [])
        ∧ usbdevs st !! handle = None
        ∧ usbdevs st1 !! handle
          = Some {| i_serial := serial; id_vendor := vendor; id_product := product;
                    major := -1; minor := -1; assign := assign_flag; type := ty |})
  ∧ ∃ st2 tr m,
      hotplug_register_usbdevice c2 0%nat st = Some (0, st2, tr)
      ∧ hotplug_container_dev_mapping_list st2
        = hotplug_container_dev_mapping_list st ++ [m]
      ∧ dm_container m = c2
      ∧ dm_usbdev m ≠ 0%nat
      ∧ usbdevs st !! dm_usbdev m = None
      ∧ mapping_usbdev st2 m = Some u
      ∧ usbdevs st2 !! 0%nat = Some u
      ∧ (∀ event,
           usb_remove_mapping event m st2
           = Some (tt, st2,
                   if (ev_major event =? major u) && (ev_minor event =? minor u) then
                     (if bool_decide (type u = HOTPLUG_USBDEV_TYPE_TOKEN)
                      then [Log LOG_INFO "HOTPLUG USB TOKEN removed";
                            Call_container_token_detach c2]
                      else [Call_container_device_deny c2 "c" (major u) (minor u)])
                     ++ [Log LOG_INFO
                           "Denied access to unbound device node %d:%d mapped in container %s"]
                   else []))
      ∧ (∀ w actions event,
           Z.land actions UEVENT_ACTION_ADD = 0 →
           ev_major event ≠ major u ∨ ev_minor event ≠ minor u →
           trace_of (hotplug_handle_usb_device UEVENT_ACTION_ADD UEVENT_ACTION_REMOVE
                       w actions event) st2
           = trace_of (hotplug_handle_usb_device UEVENT_ACTION_ADD UEVENT_ACTION_REMOVE
                         w actions event) st)
      ∧ (∀ calls,
           Forall (callback_without_matching_add UEVENT_ACTION_ADD u) calls →
           ∃ st' tr',
             exec UEVENT_ACTION_ADD UEVENT_ACTION_REMOVE network_str_to_mac_addr
               uevent_replace_member calls st2 = Some (tt, st', tr')
             ∧ mapping_usbdev st' m = Some u
             ∧ (major u = -1 →
                ∀ event, 0 ≤ ev_major event →
                         usb_remove_mapping event m st' = Some (tt, st', [])))
      ∧ (∀ v, ∃ st3,
           hotplug_usbdev_set_major 0%nat v st2 = Some (tt, st3, [])
           ∧ usbdevs st3 !! 0%nat = Some (with_major u v)
           ∧ mapping_usbdev st3 m = Some u)
      ∧ (∀ v, ∃ st3,
           hotplug_usbdev_set_minor 0%nat v st2 = Some (tt, st3, [])
           ∧ usbdevs st3 !! 0%nat = Some (with_minor u v)
           ∧ mapping_usbdev st3 m = Some u).
Proof.
  intros st u.
  assert (H1 : wf st) by exact st_token_registered_well_formed.
  assert (H2 : usbdevs st !! 0%nat = Some u) by (vm_compute; reflexivity).
  repeat (split; [assumption|]).
  exact (C10_mapping_copies_record_at_registration UEVENT_ACTION_ADD UEVENT_ACTION_REMOVE
           network_str_to_mac_addr uevent_replace_member c2 0%nat u st H1 H2).
Defined.

End Witnesses.

(** ** The further theorems at concrete inputs *)

Module MoreWitnesses.
Import Scenario Samples.

Lemma st_token_registered_mappings_valid : dev_mappings_valid st_token_registered.
Proof.
  intros m Hm. vm_compute in Hm. apply list_elem_of_singleton in Hm as ->.
  vm_compute. eexists. reflexivity.
Defined.

Lemma st_token_registered_wf : wf st_token_registered.
Proof.
  split; [exact st_token_registered_mappings_valid|]. split.
  - change (NoDup [1%nat]). apply NoDup_singleton.
  - intros m Hm. vm_compute in Hm. by apply elem_of_nil in Hm.
Defined.

Lemma st_net_registered_valid filter : netdev_mappings_valid (st_net_registered filter).
Proof.
  intros m Hm. destruct filter; vm_compute in Hm; apply list_elem_of_singleton in Hm as ->;
    vm_compute; eexists; reflexivity.
Defined.

(** X1: nothing of the token is registered for [c2]. *)
Lemma X1_witness :
  dev_mappings_valid st_token_registered
  ∧ usbdevs st_token_registered !! 0%nat = Some token_record
  ∧ (∀ m, m ∈ hotplug_container_dev_mapping_list st_token_registered →
          unregister_key_matches st_token_registered c2 token_record m = false)
  ∧ hotplug_unregister_usbdevice c2 0%nat st_token_registered
    = Some (-1, st_token_registered, []).
Proof.
  assert (H1 : dev_mappings_valid st_token_registered)
    by exact st_token_registered_mappings_valid.
  assert (H2 : usbdevs st_token_registered !! 0%nat = Some token_record)
    by (vm_compute; reflexivity).
  assert (H3 : ∀ m, m ∈ hotplug_container_dev_mapping_list st_token_registered →
                    unregister_key_matches st_token_registered c2 token_record m = false).
  { intros m Hm. vm_compute in Hm. apply list_elem_of_singleton in Hm as ->.
    vm_compute. reflexivity. }
  repeat (split; [assumption|]).
  exact (X1_unregister_usbdevice_absent c2 0%nat token_record st_token_registered H1 H2 H3).
Defined.

(** X2: the token is unregistered for [c1]. *)
Lemma X2_witness :
  let st' := set_usbdevs (delete (dm_usbdev token_mapping))
               (with_dev_mappings ([] ++ []) st_token_registered) in
  wf st_token_registered
  ∧ usbdevs st_token_registered !! 0%nat = Some token_record
  ∧ hotplug_container_dev_mapping_list st_token_registered = [] ++ token_mapping :: []
  ∧ unregister_key_matches st_token_registered c1 token_record token_mapping = true
  ∧ (∀ m', m' ∈ [] → unregister_key_matches st_token_registered c1 token_record m' = false)
  ∧ hotplug_unregister_usbdevice c1 0%nat st_token_registered
    = Some (0, st', [Log LOG_INFO "Unregistered usbdevice %04x:%04x '%s' for container %s"])
  ∧ (∀ m', m' ∈ [] ++ [] →
           usbdevs st' !! dm_usbdev m' = usbdevs st_token_registered !! dm_usbdev m')
  ∧ wf st'.
Proof.
  intros st'.
  assert (H1 : wf st_token_registered) by exact st_token_registered_wf.
  assert (H2 : usbdevs st_token_registered !! 0%nat = Some token_record)
    by (vm_compute; reflexivity).
  assert (H3 : hotplug_container_dev_mapping_list st_token_registered
               = [] ++ token_mapping :: []) by (vm_compute; reflexivity).
  assert (H4 : unregister_key_matches st_token_registered c1 token_record token_mapping
               = true) by (vm_compute; reflexivity).
  assert (H5 : ∀ m', m' ∈ [] →
                     unregister_key_matches st_token_registered c1 token_record m' = false).
  { intros m' Hm'. by apply elem_of_nil in Hm'. }
  repeat (split; [assumption|]).
  exact (X2_unregister_usbdevice_removes_last c1 0%nat token_record st_token_registered
           [] token_mapping [] H1 H2 H3 H4 H5).
Defined.

(** X3: the token is registered for [c2] as well and unregistered again. *)
Lemma X3_witness :
  dev_mappings_valid st_token_registered
  ∧ usbdevs st_token_registered !! 0%nat = Some token_record
  ∧ (r1 ← hotplug_register_usbdevice c2 0%nat;
     r2 ← hotplug_unregister_usbdevice c2 0%nat;
     mret (r1, r2)) st_token_registered
    = Some ((0, 0), st_token_registered,
            [Log LOG_INFO
               "Registered usbdevice %04x:%04x '%s' [c %d:%d] for container %s";
             Log LOG_INFO "Unregistered usbdevice %04x:%04x '%s' for container %s"]).
Proof.
  assert (H1 : dev_mappings_valid st_token_registered)
    by exact st_token_registered_mappings_valid.
  assert (H2 : usbdevs st_token_registered !! 0%nat = Some token_record)
    by (vm_compute; reflexivity).
  repeat (split; [assumption|]).
  exact (X3_register_unregister_usbdevice c2 0%nat token_record st_token_registered H1 H2).
Defined.

(** X4: the MAC of S2 is not registered for [c1]. *)
Lemma X4_witness :
  (∀ m, m ∈ hotplug_container_netdev_mapping_list (st_net_registered false) →
        netdev_key_matches c1 [2; 0; 0; 0; 0; 1] m = false)
  ∧ hotplug_unregister_netdev c1 [2; 0; 0; 0; 0; 1] (st_net_registered false)
    = Some (-1, st_net_registered false, []).
Proof.
  assert (H1 : ∀ m, m ∈ hotplug_container_netdev_mapping_list (st_net_registered false) →
                    netdev_key_matches c1 [2; 0; 0; 0; 0; 1] m = false).
  { intros m Hm. vm_compute in Hm. apply list_elem_of_singleton in Hm as ->.
    vm_compute. reflexivity. }
  repeat (split; [assumption|]).
  exact (X4_unregister_netdev_absent c1 [2; 0; 0; 0; 0; 1] (st_net_registered false) H1).
Defined.

(** X5: the net mapping of S2 is unregistered. *)
Lemma X5_witness :
  hotplug_container_netdev_mapping_list (st_net_registered false) = [] ++ net_mapping :: []
  ∧ netdev_key_matches c2 [2; 0; 0; 0; 0; 1] net_mapping = true
  ∧ (∀ m', m' ∈ [] → netdev_key_matches c2 [2; 0; 0; 0; 0; 1] m' = false)
  ∧ hotplug_unregister_netdev c2 [2; 0; 0; 0; 0; 1] (st_net_registered false)
    = Some (0, with_netdev_mappings ([] ++ []) (st_net_registered false),
            [Log LOG_INFO "Unregistered netdev '%s' for container %s"])
  ∧ pnet_cfgs (with_netdev_mappings ([] ++ []) (st_net_registered false))
    = pnet_cfgs (st_net_registered false).
Proof.
  assert (H1 : hotplug_container_netdev_mapping_list (st_net_registered false)
               = [] ++ net_mapping :: []) by (vm_compute; reflexivity).
  assert (H2 : netdev_key_matches c2 [2; 0; 0; 0; 0; 1] net_mapping = true)
    by (vm_compute; reflexivity).
  assert (H3 : ∀ m', m' ∈ [] → netdev_key_matches c2 [2; 0; 0; 0; 0; 1] m' = false).
  { intros m' Hm'. by apply elem_of_nil in Hm'. }
  repeat (split; [assumption|]).
  exact (X5_unregister_netdev_removes_last c2 [2; 0; 0; 0; 0; 1] (st_net_registered false)
           [] net_mapping [] H1 H2 H3).
Defined.

(** X6: the configuration of S2 is registered and unregistered. *)
Lemma X6_witness :
  pnet_cfgs st_cfg_allocated !! 0%nat = Some (net_cfg false)
  ∧ network_str_to_mac_addr (pnet_name (net_cfg false)) = Some [2; 0; 0; 0; 0; 1]
  ∧ (r1 ← hotplug_register_netdev network_str_to_mac_addr c2 0%nat;
     r2 ← hotplug_unregister_netdev c2 [2; 0; 0; 0; 0; 1];
     mret (r1, r2)) st_cfg_allocated
    = Some ((0, 0), st_cfg_allocated,
            [Log LOG_INFO "Registered netdev '%s' for container %s";
             Log LOG_INFO "Unregistered netdev '%s' for container %s"]).
Proof.
  assert (H1 : pnet_cfgs st_cfg_allocated !! 0%nat = Some (net_cfg false))
    by (vm_compute; reflexivity).
  assert (H2 : network_str_to_mac_addr (pnet_name (net_cfg false))
               = Some [2; 0; 0; 0; 0; 1]) by (vm_compute; reflexivity).
  repeat (split; [assumption|]).
  exact (X6_register_unregister_netdev network_str_to_mac_addr c2 0%nat (net_cfg false)
           [2; 0; 0; 0; 0; 1] st_cfg_allocated H1 H2).
Defined.

(** X8: the state after two registrations of two tokens. *)
Lemma X8_witness :
  reachable UEVENT_ACTION_ADD UEVENT_ACTION_REMOVE network_str_to_mac_addr
    uevent_replace_member st_two_tokens
  ∧ wf st_two_tokens
  ∧ (∀ w actions event, ∃ st' tr,
        hotplug_handle_uevent_cb UEVENT_ACTION_ADD UEVENT_ACTION_REMOVE w actions event
          st_two_tokens
        = Some (tt, st', tr) ∧ wf st')
  ∧ (∀ w timer, ∃ st' tr,
        event_timer_fire uevent_replace_member w timer st_two_tokens = Some (tt, st', tr)
        ∧ wf st').
Proof.
  assert (H1 : reachable UEVENT_ACTION_ADD UEVENT_ACTION_REMOVE network_str_to_mac_addr
                 uevent_replace_member st_two_tokens).
  { exists two_tokens, tr_two_tokens. vm_compute. reflexivity. }
  repeat (split; [assumption|]).
  exact (X8_callbacks_defined_when_reachable UEVENT_ACTION_ADD UEVENT_ACTION_REMOVE
           network_str_to_mac_addr uevent_replace_member st_two_tokens H1).
Defined.

(** X9: a remove uevent of the device of S1. *)
Lemma X9_witness :
  let st := st_token_registered in
  dev_mappings_valid st
  ∧ Z.land UEVENT_ACTION_REMOVE UEVENT_ACTION_REMOVE ≠ 0
  ∧ Z.land UEVENT_ACTION_REMOVE UEVENT_ACTION_ADD = 0
  ∧ String.prefix "usb" (ev_subsystem usb_event) = true
  ∧ String.prefix "usb_device" (ev_devtype usb_event) = true
  ∧ ∃ tr,
      hotplug_handle_uevent_cb UEVENT_ACTION_ADD UEVENT_ACTION_REMOVE (usb_host false)
        UEVENT_ACTION_REMOVE usb_event st
      = Some (tt, st, tr)
      ∧ List.filter is_device_deny tr
        = (λ m, Call_container_device_deny (dm_container m) "c"
                  (ev_major usb_event) (ev_minor usb_event))
          <$> List.filter (λ m, mapping_removed st usb_event m
                                && negb (mapping_is_token st m))
                (hotplug_container_dev_mapping_list st)
      ∧ List.filter is_token_detach tr
        = (λ m, Call_container_token_detach (dm_container m))
          <$> List.filter (λ m, mapping_removed st usb_event m && mapping_is_token st m)
                (hotplug_container_dev_mapping_list st)
      ∧ device_allows tr = []
      ∧ List.filter is_token_attach tr = [].
Proof.
  intros st.
  assert (H1 : dev_mappings_valid st) by exact st_token_registered_mappings_valid.
  assert (H2 : Z.land UEVENT_ACTION_REMOVE UEVENT_ACTION_REMOVE ≠ 0)
    by (vm_compute; discriminate).
  assert (H3 : Z.land UEVENT_ACTION_REMOVE UEVENT_ACTION_ADD = 0) by reflexivity.
  assert (H4 : String.prefix "usb" (ev_subsystem usb_event) = true) by reflexivity.
  assert (H5 : String.prefix "usb_device" (ev_devtype usb_event) = true) by reflexivity.
  repeat (split; [assumption|]).
  exact (X9_usb_remove_keeps_state UEVENT_ACTION_ADD UEVENT_ACTION_REMOVE (usb_host false)
           UEVENT_ACTION_REMOVE usb_event st H1 H2 H3 H4 H5).
Defined.

(** X10: a change uevent. *)
Lemma X10_witness :
  ((Z.land UEVENT_ACTION_CHANGE UEVENT_ACTION_ADD = 0
    ∧ Z.land UEVENT_ACTION_CHANGE UEVENT_ACTION_REMOVE = 0)
   ∨ ((String.prefix "usb" (ev_subsystem usb_event) = false
       ∨ String.prefix "usb_device" (ev_devtype usb_event) = false)
      ∧ (Z.land UEVENT_ACTION_CHANGE UEVENT_ACTION_ADD = 0
         ∨ ev_subsystem usb_event ≠ "net"
         ∨ strstr_found (ev_devpath usb_event) "virtual" = true))
   ∨ (String.prefix "usb" (ev_subsystem usb_event) = true
      ∧ String.prefix "usb_device" (ev_devtype usb_event) = true
      ∧ Z.land UEVENT_ACTION_CHANGE UEVENT_ACTION_REMOVE = 0
      ∧ usb_read_serial (usb_host true) usb_event = None))
  ∧ hotplug_handle_uevent_cb UEVENT_ACTION_ADD UEVENT_ACTION_REMOVE (usb_host true)
      UEVENT_ACTION_CHANGE usb_event st_token_registered
    = Some (tt, st_token_registered, []).
Proof.
  assert (H1 : (Z.land UEVENT_ACTION_CHANGE UEVENT_ACTION_ADD = 0
                ∧ Z.land UEVENT_ACTION_CHANGE UEVENT_ACTION_REMOVE = 0)
               ∨ ((String.prefix "usb" (ev_subsystem usb_event) = false
                   ∨ String.prefix "usb_device" (ev_devtype usb_event) = false)
                  ∧ (Z.land UEVENT_ACTION_CHANGE UEVENT_ACTION_ADD = 0
                     ∨ ev_subsystem usb_event ≠ "net"
                     ∨ strstr_found (ev_devpath usb_event) "virtual" = true))
               ∨ (String.prefix "usb" (ev_subsystem usb_event) = true
                  ∧ String.prefix "usb_device" (ev_devtype usb_event) = true
                  ∧ Z.land UEVENT_ACTION_CHANGE UEVENT_ACTION_REMOVE = 0
                  ∧ usb_read_serial (usb_host true) usb_event = None)).
  { left. split; reflexivity. }
  repeat (split; [assumption|]).
  exact (X10_uevent_ignored UEVENT_ACTION_ADD UEVENT_ACTION_REMOVE (usb_host true)
           UEVENT_ACTION_CHANGE usb_event st_token_registered H1).
Defined.

(** X11: the interface of S2 is added and the timer fires. *)
Lemma X11_witness :
  let w := net_host COMPARTMENT_STATE_RUNNING in
  let event := net_event "" in
  let st := st_net_registered false in
  let timer := fresh (dom (timers st)) in
  let st0 := set_timers (insert timer
                           {| timer_timeout := 100;
                              timer_repeats := EVENT_TIMER_REPEAT_FOREVER;
                              timer_cb := sysfs_netif_timer_closure event |}) st in
  netdev_mappings_valid st
  ∧ Z.land UEVENT_ACTION_ADD UEVENT_ACTION_ADD ≠ 0
  ∧ ev_subsystem event = "net"
  ∧ strstr_found (ev_devpath event) "virtual" = false
  ∧ hotplug_handle_uevent_cb UEVENT_ACTION_ADD UEVENT_ACTION_REMOVE w UEVENT_ACTION_ADD
      event st
    = Some (tt, st0, [Call_cmld_netif_phys_add_by_name (ev_interface event)])
  ∧ timers st !! timer = None
  ∧ if String.eqb (ev_devtype event) "wlan"
       && negb (network_interface_is_wifi w (ev_interface event))
    then event_timer_fire uevent_replace_member w timer st0 = Some (tt, st0, [])
    else ∃ r st1 tr1,
        hotplug_netdev_move uevent_replace_member w event st0 = Some (r, st1, tr1)
        ∧ event_timer_fire uevent_replace_member w timer st0
          = Some (tt, set_timers (delete timer) st1,
                  tr1 ++ [if r =? -1 then Log LOG_WARN "Did not move net interface!"
                          else Log LOG_INFO "Moved net interface to target."])
        ∧ timers (set_timers (delete timer) st1) = timers st.
Proof.
  intros w event st timer st0.
  assert (H1 : netdev_mappings_valid st) by exact (st_net_registered_valid false).
  assert (H2 : Z.land UEVENT_ACTION_ADD UEVENT_ACTION_ADD ≠ 0) by (vm_compute; discriminate).
  assert (H3 : ev_subsystem event = "net") by reflexivity.
  assert (H4 : strstr_found (ev_devpath event) "virtual" = false)
    by (vm_compute; reflexivity).
  repeat (split; [assumption|]).
  exact (X11_net_add_is_debounced UEVENT_ACTION_ADD UEVENT_ACTION_REMOVE
           uevent_replace_member w w UEVENT_ACTION_ADD event st H1 H2 H3 H4).
Defined.

(** X12: the timer of a wifi interface fires twice while sysfs does not
    show the interface as wireless. *)
Lemma X12_witness :
  let ws := [net_host COMPARTMENT_STATE_RUNNING; net_host COMPARTMENT_STATE_STOPPED] in
  timers st_wlan_waiting !! 0%nat = Some wlan_timer
  ∧ timer_cb wlan_timer = sysfs_netif_timer_closure (net_event "wlan")
  ∧ ev_devtype (net_event "wlan") = "wlan"
  ∧ (∀ w, w ∈ ws → network_interface_is_wifi w (ev_interface (net_event "wlan")) = false)
  ∧ foreach (λ w, event_timer_fire uevent_replace_member w 0%nat) ws st_wlan_waiting
    = Some (tt, st_wlan_waiting, []).
Proof.
  intros ws.
  assert (H1 : timers st_wlan_waiting !! 0%nat = Some wlan_timer)
    by (vm_compute; reflexivity).
  assert (H2 : timer_cb wlan_timer = sysfs_netif_timer_closure (net_event "wlan"))
    by reflexivity.
  assert (H3 : ev_devtype (net_event "wlan") = "wlan") by reflexivity.
  assert (H4 : ∀ w, w ∈ ws →
                    network_interface_is_wifi w (ev_interface (net_event "wlan")) = false).
  { intros w Hw. subst ws. apply elem_of_cons in Hw as [->|Hw]; [reflexivity|].
    apply list_elem_of_singleton in Hw as ->. reflexivity. }
  repeat (split; [assumption|]).
  exact (X12_wlan_debounce_waits uevent_replace_member ws 0%nat wlan_timer
           (net_event "wlan") st_wlan_waiting H1 H2 H3 H4).
Defined.

(** X13: the timer of the token of S1 fires twelve times without the
    device node. *)
Lemma X13_witness :
  let ws := replicate 12 (usb_host false) in
  let t := token_timer_of usb_event token_mapping in
  let data := {| td_container := c1; td_devname := token_devname usb_event |} in
  let st := st_token_waiting in
  timers st !! 0%nat = Some t
  ∧ timer_cb t = token_timer_closure data
  ∧ -1 ≤ retries st < 2 ^ 31
  ∧ retries st + 2 ≤ Z.of_nat (length ws)
  ∧ ∃ st' tr,
      foreach (λ w, event_timer_fire uevent_replace_member w 0%nat) ws st
      = Some (tt, st', tr)
      ∧ timers st' = delete 0%nat (timers st)
      ∧ (length (List.filter is_token_attach tr) ≤ 1)%nat
      ∧ retries st' < retries st
      ∧ usb_frame (set_retries (retries st') st) st'
      ∧ usbdevs st' = usbdevs st.
Proof.
  intros ws t data st.
  assert (H1 : timers st !! 0%nat = Some t) by (vm_compute; reflexivity).
  assert (H2 : timer_cb t = token_timer_closure data) by reflexivity.
  assert (H3 : -1 ≤ retries st < 2 ^ 31) by (vm_compute; split; [discriminate|reflexivity]).
  assert (H4 : retries st + 2 ≤ Z.of_nat (length ws)) by (vm_compute; discriminate).
  repeat (split; [assumption|]).
  exact (X13_token_timer_is_bounded uevent_replace_member ws 0%nat t data st H1 H2 H3 H4).
Defined.

(** X14: the token of S1 is plugged in. *)
Lemma X14_witness :
  let st := st_token_registered in
  dev_mappings_valid st
  ∧ ∃ st' tr,
      hotplug_handle_uevent_cb UEVENT_ACTION_ADD UEVENT_ACTION_REMOVE (usb_host true)
        UEVENT_ACTION_ADD usb_event st
      = Some (tt, st', tr)
      ∧ dom (usbdevs st') = dom (usbdevs st)
      ∧ hotplug_container_dev_mapping_list st' = hotplug_container_dev_mapping_list st
      ∧ hotplug_container_netdev_mapping_list st'
        = hotplug_container_netdev_mapping_list st
      ∧ (∀ loc, loc ∉ dm_usbdev <$> hotplug_container_dev_mapping_list st →
                usbdevs st' !! loc = usbdevs st !! loc)
      ∧ (∀ loc u, usbdevs st !! loc = Some u →
                  ∃ u', usbdevs st' !! loc = Some u'
                        ∧ with_minor (with_major u' (major u)) (minor u) = u).
Proof.
  intros st.
  assert (H1 : dev_mappings_valid st) by exact st_token_registered_mappings_valid.
  repeat (split; [assumption|]).
  exact (X14_uevent_touches_mapped_records_only UEVENT_ACTION_ADD UEVENT_ACTION_REMOVE
           (usb_host true) UEVENT_ACTION_ADD usb_event st H1).
Defined.

(** X15: the token of S1 is plugged in. *)
Lemma X15_witness :
  let st := st_token_registered in
  dev_mappings_valid st
  ∧ String.prefix "usb" (ev_subsystem usb_event) = true
  ∧ String.prefix "usb_device" (ev_devtype usb_event) = true
  ∧ Z.land UEVENT_ACTION_ADD UEVENT_ACTION_ADD ≠ 0
  ∧ usb_read_serial (usb_host true) usb_event = Some "0001"
  ∧ ∃ st' tr,
      hotplug_handle_uevent_cb UEVENT_ACTION_ADD UEVENT_ACTION_REMOVE (usb_host true)
        UEVENT_ACTION_ADD usb_event st
      = Some (tt, st', tr)
      ∧ List.filter is_token_attach tr = []
      ∧ size (timers st')
        = (size (timers st)
           + length (List.filter (mapping_schedules st usb_event "0001")
                       (hotplug_container_dev_mapping_list st)))%nat
      ∧ timers st ⊆ timers st'
      ∧ (∀ id t, timers st' !! id = Some t → timers st !! id = None →
                 ∃ m, m ∈ hotplug_container_dev_mapping_list st
                      ∧ mapping_schedules st usb_event "0001" m = true
                      ∧ t = token_timer_of usb_event m).
Proof.
  intros st.
  assert (H1 : dev_mappings_valid st) by exact st_token_registered_mappings_valid.
  assert (H2 : String.prefix "usb" (ev_subsystem usb_event) = true) by reflexivity.
  assert (H3 : String.prefix "usb_device" (ev_devtype usb_event) = true) by reflexivity.
  assert (H4 : Z.land UEVENT_ACTION_ADD UEVENT_ACTION_ADD ≠ 0) by (vm_compute; discriminate).
  assert (H5 : usb_read_serial (usb_host true) usb_event = Some "0001")
    by (vm_compute; reflexivity).
  repeat (split; [assumption|]).
  exact (X15_token_attach_is_deferred UEVENT_ACTION_ADD UEVENT_ACTION_REMOVE (usb_host true)
           UEVENT_ACTION_ADD usb_event "0001" st H1 H2 H3 H4 H5).
Defined.

(** X16: an interface with a MAC that is in no mapping. *)
Lemma X16_witness :
  let st := st_net_registered false in
  (∀ iface_mac m,
      network_get_mac_by_ifname stranger_host (ev_interface (net_event "")) = Some iface_mac →
      m ∈ hotplug_container_netdev_mapping_list st → nm_mac m ≠ iface_mac)
  ∧ ∃ r st' tr,
      hotplug_netdev_move uevent_replace_member stranger_host (net_event "") st
      = Some (r, st', tr)
      ∧ (r = 0 ∨ r = -1)
      ∧ (r = -1 → pnet_cfgs st' = pnet_cfgs st)
      ∧ (r = 0 →
         pnet_cfgs st !! fresh (dom (pnet_cfgs st)) = None
         ∧ ∃ name, pnet_cfgs st'
                   = <[fresh (dom (pnet_cfgs st)) := mk_pnet_cfg name false []]>
                       (pnet_cfgs st)).
Proof.
  intros st.
  assert (H1 : ∀ iface_mac m,
    network_get_mac_by_ifname stranger_host (ev_interface (net_event "")) = Some iface_mac →
    m ∈ hotplug_container_netdev_mapping_list st → nm_mac m ≠ iface_mac).
  { intros iface_mac m [= <-] Hm. vm_compute in Hm.
    apply list_elem_of_singleton in Hm as ->. discriminate. }
  repeat (split; [assumption|]).
  exact (X16_failed_move_releases_ephemeral_cfg uevent_replace_member stranger_host
           (net_event "") st H1).
Defined.

(** X17: the interface of S2 is moved into [c2]. *)
Lemma X17_witness :
  let w := net_host COMPARTMENT_STATE_RUNNING in
  let event := net_event "" in
  let st := st_net_registered false in
  let cfg' := if state_permits_move (container_get_state w (nm_container net_mapping))
              then moved_cfg uevent_replace_member w event st (net_cfg false)
              else net_cfg false in
  network_get_mac_by_ifname w (ev_interface event) = Some [2; 0; 0; 0; 0; 1]
  ∧ netdev_mapping_lookup [2; 0; 0; 0; 0; 1] (hotplug_container_netdev_mapping_list st)
    = Some net_mapping
  ∧ pnet_cfgs st !! nm_pnet_cfg net_mapping = Some (net_cfg false)
  ∧ ∃ r st' tr,
      hotplug_netdev_move uevent_replace_member w event st = Some (r, st', tr)
      ∧ (r = 0 ∨ r = -1)
      ∧ pnet_cfgs st' = <[nm_pnet_cfg net_mapping := cfg']> (pnet_cfgs st)
      ∧ mac_filter cfg' = mac_filter (net_cfg false)
      ∧ mac_whitelist cfg' = mac_whitelist (net_cfg false)
      ∧ hotplug_container_netdev_mapping_list st'
        = hotplug_container_netdev_mapping_list st.
Proof.
  intros w event st cfg'.
  assert (H1 : network_get_mac_by_ifname w (ev_interface event) = Some [2; 0; 0; 0; 0; 1])
    by reflexivity.
  assert (H2 : netdev_mapping_lookup [2; 0; 0; 0; 0; 1]
                 (hotplug_container_netdev_mapping_list st) = Some net_mapping)
    by (vm_compute; reflexivity).
  assert (H3 : pnet_cfgs st !! nm_pnet_cfg net_mapping = Some (net_cfg false))
    by (vm_compute; reflexivity).
  repeat (split; [assumption|]).
  exact (X17_mapped_move_overwrites_name uevent_replace_member w event st
           [2; 0; 0; 0; 0; 1] net_mapping (net_cfg false) H1 H2 H3).
Defined.

(** X18: the interface of S2 is moved. *)
Lemma X18_witness :
  let w := net_host COMPARTMENT_STATE_RUNNING in
  let st := st_net_registered false in
  netdev_mappings_valid st
  ∧ ∃ r st' tr,
      hotplug_netdev_move uevent_replace_member w (net_event "") st = Some (r, st', tr)
      ∧ (r = 0 ∨ r = -1)
      ∧ (r = -1 → injections tr = [])
      ∧ (length (List.filter is_add_net_iface tr) ≤ 1)%nat
      ∧ (length (injections tr) ≤ 1)%nat
      ∧ (injections tr ≠ [] → List.filter is_add_net_iface tr ≠ [])
      ∧ move_frame None st st'.
Proof.
  intros w st.
  assert (H1 : netdev_mappings_valid st) by exact (st_net_registered_valid false).
  repeat (split; [assumption|]).
  exact (X18_no_injection_without_move uevent_replace_member w (net_event "") st H1).
Defined.

(** X19: the kernel renames [eth7], whose name is not in the devpath. *)
Lemma X19_witness :
  let w := net_host COMPARTMENT_STATE_RUNNING in
  let st := hotplug_state_init in
  let newname := rename_newname (rename_prefix odd_event) st in
  network_rename_ifi w (ev_interface odd_event) newname = 0
  ∧ hotplug_replace_devpath_new (ev_devpath odd_event) (ev_interface odd_event) newname
    = None
  ∧ hotplug_rename_interface uevent_replace_member w odd_event st
    = Some (None, advance_idx (rename_prefix odd_event) st,
            [Log LOG_INFO "Renaming %s to %s";
             Call_network_rename_ifi (ev_interface odd_event) newname;
             Call_cmld_netif_phys_remove_by_name (ev_interface odd_event)]
            ++ if cmld_netif_phys_remove_by_name w (ev_interface odd_event)
               then [Call_cmld_netif_phys_add_by_name newname] else []).
Proof.
  intros w st newname.
  assert (H1 : network_rename_ifi w (ev_interface odd_event) newname = 0) by reflexivity.
  assert (H2 : hotplug_replace_devpath_new (ev_devpath odd_event) (ev_interface odd_event)
                 newname = None) by (vm_compute; reflexivity).
  repeat (split; [assumption|]).
  exact (X19_rename_kept_without_new_uevent uevent_replace_member w odd_event st H1 H2).
Defined.

(** X20: the MAC of S2, registered for [c2], is registered for [c1] too. *)
Lemma X20_witness :
  let st := st_net_registered false in
  let new := {| nm_container := c1; nm_pnet_cfg := 0%nat; nm_mac := [2; 0; 0; 0; 0; 1] |} in
  let st' := with_netdev_mappings (hotplug_container_netdev_mapping_list st ++ [new]) st in
  pnet_cfgs st !! 0%nat = Some (net_cfg false)
  ∧ network_str_to_mac_addr (pnet_name (net_cfg false)) = Some [2; 0; 0; 0; 0; 1]
  ∧ hotplug_register_netdev network_str_to_mac_addr c1 0%nat st
    = Some (0, st', [Log LOG_INFO "Registered netdev '%s' for container %s"])
  ∧ ∀ iface_mac,
      netdev_mapping_lookup iface_mac (hotplug_container_netdev_mapping_list st')
      = match netdev_mapping_lookup iface_mac (hotplug_container_netdev_mapping_list st) with
        | Some m => Some m
        | None => if bool_decide (iface_mac = [2; 0; 0; 0; 0; 1]) then Some new else None
        end.
Proof.
  intros st new st'.
  assert (H1 : pnet_cfgs st !! 0%nat = Some (net_cfg false)) by (vm_compute; reflexivity).
  assert (H2 : network_str_to_mac_addr (pnet_name (net_cfg false))
               = Some [2; 0; 0; 0; 0; 1]) by (vm_compute; reflexivity).
  repeat (split; [assumption|]).
  exact (X20_first_netdev_mapping_wins network_str_to_mac_addr c1 0%nat (net_cfg false)
           [2; 0; 0; 0; 0; 1] st H1 H2).
Defined.

(** X22: an ethernet and a wifi card are renamed. *)
Lemma X22_witness :
  (∀ c, c ∈ two_renames → c.2 = "eth" ∨ c.2 = "wlan")
  ∧ 0 ≤ cmld_eth_idx hotplug_state_init
  ∧ 0 ≤ cmld_wlan_idx hotplug_state_init
  ∧ cmld_eth_idx hotplug_state_init + Z.of_nat (length two_renames) < 2 ^ 31
  ∧ cmld_wlan_idx hotplug_state_init + Z.of_nat (length two_renames) < 2 ^ 31
  ∧ ∃ results st' tr,
      rename_all two_renames hotplug_state_init = Some (results, st', tr)
      ∧ (rename_requests tr).*1 = (λ c, c.1.2) <$> two_renames
      ∧ NoDup (rename_requests tr).*2.
Proof.
  assert (H1 : ∀ c, c ∈ two_renames → c.2 = "eth" ∨ c.2 = "wlan").
  { intros c Hc. unfold two_renames in Hc. apply elem_of_cons in Hc as [->|Hc]; [by left|].
    apply list_elem_of_singleton in Hc as ->. by right. }
  assert (H2 : 0 ≤ cmld_eth_idx hotplug_state_init) by (vm_compute; discriminate).
  assert (H3 : 0 ≤ cmld_wlan_idx hotplug_state_init) by (vm_compute; discriminate).
  assert (H4 : cmld_eth_idx hotplug_state_init + Z.of_nat (length two_renames) < 2 ^ 31)
    by (vm_compute; reflexivity).
  assert (H5 : cmld_wlan_idx hotplug_state_init + Z.of_nat (length two_renames) < 2 ^ 31)
    by (vm_compute; reflexivity).
  repeat (split; [assumption|]).
  exact (X22_rename_requests_distinct two_renames hotplug_state_init H1 H2 H3 H4 H5).
Defined.

(** X23: the daemon starts on a host with an ethernet and a wifi card. *)
Lemma X23_witness :
  let w := net_host COMPARTMENT_STATE_RUNNING in
  let st := hotplug_state_init in
  0 ≤ cmld_eth_idx st
  ∧ 0 ≤ cmld_wlan_idx st
  ∧ cmld_eth_idx st + Z.of_nat (length (cmld_get_netif_phys_list w)) < 2 ^ 31
  ∧ cmld_wlan_idx st + Z.of_nat (length (cmld_get_netif_phys_list w)) < 2 ^ 31
  ∧ ∃ st' tr,
      hotplug_init w st = Some (uevent_add_uev w, st', tr)
      ∧ last tr = Some Call_uevent_add_uev
      ∧ (rename_requests tr).*1
        = (if cmld_is_hostedmode_active w then [] else cmld_get_netif_phys_list w)
      ∧ NoDup (rename_requests tr).*2
      ∧ Forall cml_eth_or_wlan_name (rename_requests tr).*2
      ∧ move_frame None st st'
      ∧ (cmld_is_hostedmode_active w = true → st' = st ∧ tr = [Call_uevent_add_uev]).
Proof.
  intros w st.
  assert (H1 : 0 ≤ cmld_eth_idx st) by (vm_compute; discriminate).
  assert (H2 : 0 ≤ cmld_wlan_idx st) by (vm_compute; discriminate).
  assert (H3 : cmld_eth_idx st + Z.of_nat (length (cmld_get_netif_phys_list w)) < 2 ^ 31)
    by (vm_compute; reflexivity).
  assert (H4 : cmld_wlan_idx st + Z.of_nat (length (cmld_get_netif_phys_list w)) < 2 ^ 31)
    by (vm_compute; reflexivity).
  repeat (split; [assumption|]).
  exact (X23_hotplug_init_renames_each_interface_once w st H1 H2 H3 H4).
Defined.

(** X24: the sysfs entry of the token of S1, for the caller's record. *)
Lemma X24_witness :
  let file_read := sysfs_file_read (5, line "1050") in
  let buf1 := (file_read (sysfs_path +:+ "/" +:+ sysfs_name +:+ "/idProduct") "" 256).2 in
  let buf2 := (file_read (sysfs_path +:+ "/" +:+ sysfs_name +:+ "/idVendor") buf1 256).2 in
  let st := st_token_registered in
  usbdevs st !! 0%nat = Some token_record
  ∧ sysfs_sscanf_hx buf1 ≠ scan_hx_none
  ∧ sysfs_sscanf_hx buf2 ≠ scan_hx_none
  ∧ ∃ r st',
      hotplug_usbdev_sysfs_foreach_cb file_read sysfs_sscanf_hx sysfs_sscanf_dev sysfs_host
        "" sysfs_path sysfs_name 0%nat st = Some (r, st', [])
      ∧ (r = 0 ∧ st' = st
         ∨ r = 1
           ∧ (st' = st
              ∨ ∃ a b, -1 < a ∧ -1 < b
                       ∧ st' = set_usbdevs
                                 (insert 0%nat (with_minor (with_major token_record a) b))
                                 st)).
Proof.
  intros file_read buf1 buf2 st.
  assert (H1 : usbdevs st !! 0%nat = Some token_record) by (vm_compute; reflexivity).
  assert (H2 : sysfs_sscanf_hx buf1 ≠ scan_hx_none) by (vm_compute; discriminate).
  assert (H3 : sysfs_sscanf_hx buf2 ≠ scan_hx_none) by (vm_compute; discriminate).
  repeat (split; [assumption|]).
  exact (X24_sysfs_cb_writes_major_minor_only file_read sysfs_sscanf_hx sysfs_sscanf_dev
           sysfs_host "" sysfs_path sysfs_name 0%nat token_record st H1 H2 H3).
Defined.

(** X25: the sysfs entry of the token of S1 is complete. *)
Lemma X25_witness :
  let file_read := sysfs_file_read (5, line "1050") in
  let w := sysfs_host in
  let st := st_token_registered in
  let u := token_record in
  let id_product_file := sysfs_path +:+ "/" +:+ sysfs_name +:+ "/idProduct" in
  let id_vendor_file := sysfs_path +:+ "/" +:+ sysfs_name +:+ "/idVendor" in
  let i_serial_file := sysfs_path +:+ "/" +:+ sysfs_name +:+ "/serial" in
  let dev_file := sysfs_path +:+ "/" +:+ sysfs_name +:+ "/dev" in
  let buf3 := if file_exists w i_serial_file
              then (file_read i_serial_file (line "1050") 256).2 else "" in
  usbdevs st !! 0%nat = Some u
  ∧ file_exists w id_product_file = true
  ∧ file_exists w id_vendor_file = true
  ∧ file_exists w dev_file = true
  ∧ file_read id_product_file "" 256 = (5, line "0407") ∧ 4 ≤ 5
  ∧ sysfs_sscanf_hx (line "0407") = scan_hx_value (id_product u)
  ∧ file_read id_vendor_file (line "0407") 256 = (5, line "1050") ∧ 4 ≤ 5
  ∧ sysfs_sscanf_hx (line "1050") = scan_hx_value (id_vendor u)
  ∧ (file_exists w i_serial_file = true → String.prefix (i_serial u) buf3 = true)
  ∧ file_read dev_file buf3 256 = (6, line "189:3") ∧ 0 ≤ 6
  ∧ sysfs_sscanf_dev (line "189:3") = scan_dev_both 189 3 ∧ -1 < 189 ∧ -1 < 3
  ∧ hotplug_usbdev_sysfs_foreach_cb file_read sysfs_sscanf_hx sysfs_sscanf_dev w
      "" sysfs_path sysfs_name 0%nat st
    = Some (1, set_usbdevs (insert 0%nat (with_minor (with_major u 189) 3)) st, []).
Proof.
  intros file_read w st u id_product_file id_vendor_file i_serial_file dev_file buf3.
  assert (H1 : usbdevs st !! 0%nat = Some u) by (vm_compute; reflexivity).
  assert (H2 : file_exists w id_product_file = true) by (vm_compute; reflexivity).
  assert (H3 : file_exists w id_vendor_file = true) by (vm_compute; reflexivity).
  assert (H4 : file_exists w dev_file = true) by (vm_compute; reflexivity).
  assert (H5 : file_read id_product_file "" 256 = (5, line "0407"))
    by (vm_compute; reflexivity).
  assert (H6 : 4 ≤ 5) by lia.
  assert (H7 : sysfs_sscanf_hx (line "0407") = scan_hx_value (id_product u))
    by (vm_compute; reflexivity).
  assert (H8 : file_read id_vendor_file (line "0407") 256 = (5, line "1050"))
    by (vm_compute; reflexivity).
  assert (H9 : sysfs_sscanf_hx (line "1050") = scan_hx_value (id_vendor u))
    by (vm_compute; reflexivity).
  assert (H10 : file_exists w i_serial_file = true → String.prefix (i_serial u) buf3 = true)
    by (intros _; vm_compute; reflexivity).
  assert (H11 : file_read dev_file buf3 256 = (6, line "189:3"))
    by (vm_compute; reflexivity).
  assert (H12 : 0 ≤ 6) by lia.
  assert (H13 : sysfs_sscanf_dev (line "189:3") = scan_dev_both 189 3)
    by (vm_compute; reflexivity).
  assert (H14 : -1 < 189) by lia.
  assert (H15 : -1 < 3) by lia.
  repeat (split; [assumption|]).
  exact (X25_sysfs_cb_finds_device file_read sysfs_sscanf_hx sysfs_sscanf_dev w ""
           sysfs_path sysfs_name 0%nat u st 5 (line "0407") 5 (line "1050") 6 (line "189:3")
           189 3 H1 H2 H3 H4 H5 H6 H7 H8 H6 H9 H10 H11 H12 H13 H14 H15).
Defined.

(** X26: the file [idVendor] of the entry holds two bytes only. *)
Lemma X26_witness :
  let file_read := sysfs_file_read (2, "10") in
  let w := sysfs_host in
  let st := st_token_registered in
  let id_product_file := sysfs_path +:+ "/" +:+ sysfs_name +:+ "/idProduct" in
  let id_vendor_file := sysfs_path +:+ "/" +:+ sysfs_name +:+ "/idVendor" in
  let dev_file := sysfs_path +:+ "/" +:+ sysfs_name +:+ "/dev" in
  usbdevs st !! 0%nat = Some token_record
  ∧ file_exists w id_product_file = true
  ∧ file_exists w id_vendor_file = true
  ∧ file_exists w dev_file = true
  ∧ file_read id_product_file "" 256 = (5, line "0407") ∧ 4 ≤ 5
  ∧ sysfs_sscanf_hx (line "0407") = scan_hx_value (id_product token_record)
  ∧ file_read id_vendor_file (line "0407") 256 = (2, "10")
  ∧ (2 < 4 ∨ sysfs_sscanf_hx "10" = scan_hx_eof)
  ∧ hotplug_usbdev_sysfs_foreach_cb file_read sysfs_sscanf_hx sysfs_sscanf_dev w
      "" sysfs_path sysfs_name 0%nat st
    = Some (1, st, []).
Proof.
  intros file_read w st id_product_file id_vendor_file dev_file.
  assert (H1 : usbdevs st !! 0%nat = Some token_record) by (vm_compute; reflexivity).
  assert (H2 : file_exists w id_product_file = true) by (vm_compute; reflexivity).
  assert (H3 : file_exists w id_vendor_file = true) by (vm_compute; reflexivity).
  assert (H4 : file_exists w dev_file = true) by (vm_compute; reflexivity).
  assert (H5 : file_read id_product_file "" 256 = (5, line "0407"))
    by (vm_compute; reflexivity).
  assert (H6 : 4 ≤ 5) by lia.
  assert (H7 : sysfs_sscanf_hx (line "0407") = scan_hx_value (id_product token_record))
    by (vm_compute; reflexivity).
  assert (H8 : file_read id_vendor_file (line "0407") 256 = (2, "10"))
    by (vm_compute; reflexivity).
  assert (H9 : 2 < 4 ∨ sysfs_sscanf_hx "10" = scan_hx_eof) by (left; lia).
  repeat (split; [assumption|]).
  exact (X26_sysfs_cb_found_without_numbers file_read sysfs_sscanf_hx sysfs_sscanf_dev w ""
           sysfs_path sysfs_name 0%nat token_record st 5 (line "0407") 2 "10"
           H1 H2 H3 H4 H5 H6 H7 H8 H9).
Defined.

End MoreWitnesses.
